(** * gcp.maps: the Places data-mapping and request-construction layer

    A shallow embedding of [src/gcp/maps/places.py], [src/gcp/maps/_client.py]
    and [src/gcp/maps/_exceptions.py], and the properties of the codecs, of
    the field mask and of the validation of the client's arguments.

    Python values are dynamically typed, so the functions of the package are
    embedded as Rocq functions over one universe [value] of run-time values;
    a raised exception is the [Raise] case of the [result] type, and the
    statements of a function body are sequenced with the bind of that type.
    A [dict] is an association list in insertion order with unique keys
    (iteration order and the overwriting of a repeated key by a
    comprehension are both visible in the package).

    The file has the embedding first ([Str], [casefy], the values, [Py],
    [dataclasses], [datetime], then the modules [places], [_exceptions] and
    [_client] of the package, and the typed and the wire values the
    properties range over), and the properties after it. *)

From Stdlib Require Import String Ascii List ZArith QArith Bool Lia Permutation.
Import ListNotations.

Open Scope string_scope.
Open Scope list_scope.
Open Scope Z_scope.

(* ------------------------------------------------------------------------- *)
(** ** Strings *)
(* ------------------------------------------------------------------------- *)

(** [str] is embedded as [string]; the case methods act on the ASCII letters,
    which is all the identifiers of the wire format are made of. *)
Module Str.

Definition is_upper (c : ascii) : bool :=
  let n := nat_of_ascii c in (65 <=? n)%nat && (n <=? 90)%nat.

Definition is_lower (c : ascii) : bool :=
  let n := nat_of_ascii c in (97 <=? n)%nat && (n <=? 122)%nat.

Definition is_space (c : ascii) : bool :=
  let n := nat_of_ascii c in
  ((9 <=? n)%nat && (n <=? 13)%nat) || (n =? 32)%nat.

Definition lower_char (c : ascii) : ascii :=
  if is_upper c then ascii_of_nat (nat_of_ascii c + 32) else c.

Definition upper_char (c : ascii) : ascii :=
  if is_lower c then ascii_of_nat (nat_of_ascii c - 32) else c.

Fixpoint map_chars (f : ascii -> ascii) (s : string) : string :=
  match s with
  | EmptyString => EmptyString
  | String c s' => String (f c) (map_chars f s')
  end.

Fixpoint existsb_chars (p : ascii -> bool) (s : string) : bool :=
  match s with
  | EmptyString => false
  | String c s' => p c || existsb_chars p s'
  end.

(** [str.lower()], [str.upper()] *)
Definition lower (s : string) : string := map_chars lower_char s.
Definition upper (s : string) : string := map_chars upper_char s.

(** [str.isupper()]: at least one cased character and no lower-case one. *)
Definition isupper (s : string) : bool :=
  existsb_chars is_upper s && negb (existsb_chars is_lower s).

(** [str.removeprefix(p)] *)
Definition removeprefix (p s : string) : string :=
  if String.prefix p s
  then String.substring (String.length p) (String.length s - String.length p) s
  else s.

(** [str.lstrip(chars)], [str.rstrip(chars)] and [str.strip(chars)] for a
    one-character [chars]. *)
Fixpoint lstrip (c : ascii) (s : string) : string :=
  match s with
  | String a s' => if Ascii.eqb a c then lstrip c s' else s
  | EmptyString => EmptyString
  end.

Fixpoint rstrip (c : ascii) (s : string) : string :=
  match s with
  | String a s' =>
      match rstrip c s' with
      | EmptyString => if Ascii.eqb a c then EmptyString else String a EmptyString
      | r => String a r
      end
  | EmptyString => EmptyString
  end.

Definition strip (c : ascii) (s : string) : string := rstrip c (lstrip c s).

(** [sep.join(l)] *)
Definition join (sep : string) (l : list string) : string :=
  String.concat sep l.

(** [str.split(c)] for a one-character separator. *)
Fixpoint split_aux (c : ascii) (s : string) (cur : string) : list string :=
  match s with
  | EmptyString => [cur]
  | String a s' =>
      if Ascii.eqb a c then cur :: split_aux c s' EmptyString
      else split_aux c s' (cur ++ String a EmptyString)%string
  end.

Definition split (c : ascii) (s : string) : list string :=
  split_aux c s EmptyString.

(** [sub in s] *)
Fixpoint contains (sub s : string) : bool :=
  String.prefix sub s ||
  match s with
  | EmptyString => false
  | String _ s' => contains sub s'
  end.

Definition mem (s : string) (l : list string) : bool :=
  existsb (String.eqb s) l.

End Str.

(* ------------------------------------------------------------------------- *)
(** ** casefy *)
(* ------------------------------------------------------------------------- *)

(** [casefy] is a third-party package, not part of this repository.  Its two
    functions that the package calls are embedded on the strings made of
    ASCII letters and underscores, which is what the names of the fields
    and the keys of the wire format are made of.  There [snakecase] puts an
    underscore before every capital letter after the first character and
    lower-cases it, squeezes repeated underscores and strips them at the
    ends (but for one that the string started or ended with), after
    lower-casing a string that is all in upper case; [camelcase] goes
    through [snakecase], capitalises the words and glues them together,
    the first letter in lower case.  What the library returns on a string
    with another character (a digit, a separator, a non-ASCII letter) is
    taken as given. *)
Class Casefy : Type := {
  snakecase_other : string -> string;
  camelcase_other : string -> string
}.

Module casefy.

Definition underscore : ascii := "_".

(** The strings the embedding computes on. *)
Definition plain (str : string) : bool :=
  negb (Str.existsb_chars
          (fun c => negb (Str.is_upper c || Str.is_lower c
                          || Ascii.eqb c underscore)) str).

Fixpoint split_capitals (s : string) : string :=
  match s with
  | EmptyString => EmptyString
  | String c s' =>
      if Str.is_upper c
      then String underscore (String (Str.lower_char c) (split_capitals s'))
      else String c (split_capitals s')
  end.

Fixpoint squeeze (s : string) : string :=
  match s with
  | EmptyString => EmptyString
  | String c s' =>
      match s' with
      | String c' _ =>
          if Ascii.eqb c underscore && Ascii.eqb c' underscore
          then squeeze s' else String c (squeeze s')
      | EmptyString => String c EmptyString
      end
  end.

Definition first_is (c : ascii) (s : string) : bool :=
  match s with String a _ => Ascii.eqb a c | EmptyString => false end.

Fixpoint last_is (c : ascii) (s : string) : bool :=
  match s with
  | EmptyString => false
  | String a EmptyString => Ascii.eqb a c
  | String _ s' => last_is c s'
  end.

(** [snakecase] on a plain string. *)
Definition snake (str : string) : string :=
  match str with
  | EmptyString => EmptyString
  | _ =>
      let leading_underscore := first_is underscore str in
      let trailing_underscore := last_is underscore str in
      let str := if Str.isupper str then Str.lower str else str in
      let str :=
        match str with
        | EmptyString => EmptyString
        | String c s' => String (Str.lower_char c) (split_capitals s')
        end in
      let str := Str.strip underscore (squeeze str) in
      ((if leading_underscore then "_" else "") ++ str ++
       (if trailing_underscore then "_" else ""))%string
  end.

Definition capitalize (s : string) : string :=
  match s with
  | EmptyString => EmptyString
  | String c s' => String (Str.upper_char c) (Str.lower s')
  end.

(** [camelcase] on a plain string. *)
Definition camel (str : string) : string :=
  match str with
  | EmptyString => EmptyString
  | _ =>
      let words :=
        filter (fun s => negb (String.eqb s ""))
               (Str.split underscore (snake str)) in
      match String.concat "" (map capitalize words) with
      | EmptyString => EmptyString
      | String c s' => String (Str.lower_char c) s'
      end
  end.

Definition snakecase `{Casefy} (str : string) : string :=
  if plain str then snake str else snakecase_other str.

Definition camelcase `{Casefy} (str : string) : string :=
  if plain str then camel str else camelcase_other str.

End casefy.

(** One behaviour on the other strings, for the examples: they are left as
    they are. *)
Definition other_strings_kept : Casefy :=
  {| snakecase_other := fun s => s; camelcase_other := fun s => s |}.

(* ------------------------------------------------------------------------- *)
(** ** Run-time values *)
(* ------------------------------------------------------------------------- *)

(** [places.PriceLevel] and [places.BusinessStatus]: the members of the two
    enumerations.  Their methods are in the modules of the same names below. *)
Inductive PriceLevel_t : Type :=
| UNSPECIFIED | FREE | INEXPENSIVE | MODERATE | EXPENSIVE | VERY_EXPENSIVE.

Inductive BusinessStatus_t : Type :=
| OPERATIONAL | CLOSED_TEMPORARILY | CLOSED_PERMANENTLY.

(** [member.name] and [member.value] *)
Definition PriceLevel_name (self : PriceLevel_t) : string :=
  match self with
  | UNSPECIFIED => "UNSPECIFIED"
  | FREE => "FREE"
  | INEXPENSIVE => "INEXPENSIVE"
  | MODERATE => "MODERATE"
  | EXPENSIVE => "EXPENSIVE"
  | VERY_EXPENSIVE => "VERY_EXPENSIVE"
  end.

Definition PriceLevel_value (self : PriceLevel_t) : string :=
  match self with
  | UNSPECIFIED => "unspecified"
  | FREE => "free"
  | INEXPENSIVE => "inexpensive"
  | MODERATE => "moderate"
  | EXPENSIVE => "expensive"
  | VERY_EXPENSIVE => "very_expensive"
  end.

Definition BusinessStatus_name (self : BusinessStatus_t) : string :=
  match self with
  | OPERATIONAL => "OPERATIONAL"
  | CLOSED_TEMPORARILY => "CLOSED_TEMPORARILY"
  | CLOSED_PERMANENTLY => "CLOSED_PERMANENTLY"
  end.

Definition BusinessStatus_value (self : BusinessStatus_t) : string :=
  match self with
  | OPERATIONAL => "operational"
  | CLOSED_TEMPORARILY => "closed_temporarily"
  | CLOSED_PERMANENTLY => "closed_permanently"
  end.

(** A [datetime.datetime]; [tzoffset] is the UTC offset in seconds of an
    aware value. *)
Record datetime_t : Type := mk_datetime {
  dt_year : Z; dt_month : Z; dt_day : Z;
  dt_hour : Z; dt_minute : Z; dt_second : Z; dt_microsecond : Z;
  dt_tzoffset : option Z
}.

Unset Elimination Schemes.

(** The values the package handles.  A [float] is embedded as the rational
    it denotes (the package only compares and carries floats; NaN and the
    infinities have no embedding).  [VInst cls fields] is an instance of the
    dataclass [cls], its fields in declaration order. *)
Inductive value : Type :=
| VNone
| VBool (b : bool)
| VInt (n : Z)
| VFloat (q : Q)
| VStr (s : string)
| VList (l : list value)
| VTuple (l : list value)
| VDict (d : list (string * value))
| VTime (hour minute : Z)
| VDateTime (d : datetime_t)
| VPriceLevel (p : PriceLevel_t)
| VBusinessStatus (b : BusinessStatus_t)
| VInst (cls : string) (fields : list (string * value)).

Set Elimination Schemes.

(** Induction on a value, through the sequences and dicts it holds. *)
Section ValueInduction.

Variable P : value -> Prop.
Hypothesis HNone : P VNone.
Hypothesis HBool : forall b, P (VBool b).
Hypothesis HInt : forall n, P (VInt n).
Hypothesis HFloat : forall q, P (VFloat q).
Hypothesis HStr : forall s, P (VStr s).
Hypothesis HList : forall l, Forall P l -> P (VList l).
Hypothesis HTuple : forall l, Forall P l -> P (VTuple l).
Hypothesis HDict : forall d, Forall (fun kv => P (snd kv)) d -> P (VDict d).
Hypothesis HTime : forall h m, P (VTime h m).
Hypothesis HDateTime : forall d, P (VDateTime d).
Hypothesis HPriceLevel : forall p, P (VPriceLevel p).
Hypothesis HBusinessStatus : forall b, P (VBusinessStatus b).
Hypothesis HInst :
  forall cls fs, Forall (fun kv => P (snd kv)) fs -> P (VInst cls fs).

Fixpoint value_ind (v : value) : P v :=
  match v with
  | VNone => HNone
  | VBool b => HBool b
  | VInt n => HInt n
  | VFloat q => HFloat q
  | VStr s => HStr s
  | VList l =>
      HList l ((fix go (l : list value) : Forall P l :=
                  match l with
                  | [] => Forall_nil P
                  | x :: xs => Forall_cons x (value_ind x) (go xs)
                  end) l)
  | VTuple l =>
      HTuple l ((fix go (l : list value) : Forall P l :=
                   match l with
                   | [] => Forall_nil P
                   | x :: xs => Forall_cons x (value_ind x) (go xs)
                   end) l)
  | VDict d =>
      HDict d ((fix go (d : list (string * value))
                  : Forall (fun kv => P (snd kv)) d :=
                  match d with
                  | [] => Forall_nil _
                  | (k, x) :: r => Forall_cons (k, x) (value_ind x) (go r)
                  end) d)
  | VTime h m => HTime h m
  | VDateTime d => HDateTime d
  | VPriceLevel p => HPriceLevel p
  | VBusinessStatus b => HBusinessStatus b
  | VInst cls fs =>
      HInst cls fs ((fix go (d : list (string * value))
                       : Forall (fun kv => P (snd kv)) d :=
                       match d with
                       | [] => Forall_nil _
                       | (k, x) :: r => Forall_cons (k, x) (value_ind x) (go r)
                       end) fs)
  end.

End ValueInduction.

(* ------------------------------------------------------------------------- *)
(** ** Exceptions and results *)
(* ------------------------------------------------------------------------- *)

(** The exceptions the package can raise.  [APIError] is the package's own
    exception and carries its four attributes; [ValueError] and
    [RuntimeError] carry their message; [SerdeError] is what [pyserde]
    raises when an argument does not have the type its field is annotated
    with; the others are raised by the interpreter and are identified by
    their class. *)
Record APIError_t : Type := mk_APIError {
  status_code : Z;
  message : value;
  status : value;
  details : value
}.

Inductive exn : Type :=
| APIError (e : APIError_t)
| ValueError (msg : string)
| RuntimeError (msg : string)
| KeyError (key : value)
| TypeError
| AttributeError
| IndexError
| OverflowError
| SerdeError.

Inductive result (A : Type) : Type :=
| Ok (a : A)
| Raise (e : exn).

Arguments Ok {A} a.
Arguments Raise {A} e.

Definition bind {A B : Type} (r : result A) (k : A -> result B) : result B :=
  match r with
  | Ok a => k a
  | Raise e => Raise e
  end.

Notation "x <- e ;; k" := (bind e (fun x => k))
  (at level 61, e at next level, right associativity).
Notation "e ;;; k" := (bind e (fun _ => k))
  (at level 61, right associativity).

(** [[f(x) for x in l]]: the elements are evaluated left to right and the
    first exception ends the comprehension. *)
Fixpoint mapM {A B : Type} (f : A -> result B) (l : list A) : result (list B) :=
  match l with
  | [] => Ok []
  | x :: xs => y <- f x ;; ys <- mapM f xs ;; Ok (y :: ys)
  end.

(** A [for] loop without [break] threading one local variable. *)
Fixpoint foldM {A S : Type} (f : S -> A -> result S) (l : list A) (s : S)
  : result S :=
  match l with
  | [] => Ok s
  | x :: xs => s' <- f s x ;; foldM f xs s'
  end.

Module Py.

(** *** dict *)

Fixpoint dict_get {A : Type} (k : string) (d : list (string * A)) : option A :=
  match d with
  | [] => None
  | (k', v) :: d' => if String.eqb k k' then Some v else dict_get k d'
  end.

(** [d[k] = v]: an existing key keeps its position. *)
Fixpoint dict_set {A : Type} (k : string) (v : A) (d : list (string * A))
  : list (string * A) :=
  match d with
  | [] => [(k, v)]
  | (k', v') :: d' =>
      if String.eqb k k' then (k', v) :: d' else (k', v') :: dict_set k v d'
  end.

(** [{k: v for k, v in items}] *)
Definition dict_of_items {A : Type} (items : list (string * A))
  : list (string * A) :=
  fold_left (fun d kv => dict_set (fst kv) (snd kv) d) items [].

(** *** Operations on values *)

(** [v[k]] for a [str] key [k]. *)
Definition getitem (v : value) (k : string) : result value :=
  match v with
  | VDict d =>
      match dict_get k d with
      | Some x => Ok x
      | None => Raise (KeyError (VStr k))
      end
  | _ => Raise TypeError
  end.

(** [v.get(k)] *)
Definition get (v : value) (k : string) : result value :=
  match v with
  | VDict d =>
      match dict_get k d with
      | Some x => Ok x
      | None => Ok VNone
      end
  | _ => Raise AttributeError
  end.

(** [v.items()] *)
Definition items (v : value) : result (list (string * value)) :=
  match v with
  | VDict d => Ok d
  | _ => Raise AttributeError
  end.

Fixpoint chars (s : string) : list value :=
  match s with
  | EmptyString => []
  | String c s' => VStr (String c EmptyString) :: chars s'
  end.

(** [for x in v] *)
Definition iter (v : value) : result (list value) :=
  match v with
  | VList l | VTuple l => Ok l
  | VDict d => Ok (map (fun kv => VStr (fst kv)) d)
  | VStr s => Ok (chars s)
  | _ => Raise TypeError
  end.

(** [len(v)] *)
Definition len (v : value) : result Z :=
  match v with
  | VList l | VTuple l => Ok (Z.of_nat (length l))
  | VDict d => Ok (Z.of_nat (length d))
  | VStr s => Ok (Z.of_nat (String.length s))
  | _ => Raise TypeError
  end.

(** [v is None] *)
Definition is_none (v : value) : bool :=
  match v with VNone => true | _ => false end.

(** The integer an [int] (or a [bool], its subclass) stands for. *)
Definition as_int (v : value) : option Z :=
  match v with
  | VInt n => Some n
  | VBool b => Some (if b then 1 else 0)
  | _ => None
  end.

(** The number a [bool], [int] or [float] stands for. *)
Definition as_num (v : value) : option Q :=
  match v with
  | VInt n => Some (inject_Z n)
  | VBool b => Some (if b then 1%Q else 0%Q)
  | VFloat q => Some q
  | _ => None
  end.

Definition option_Z_eqb (a b : option Z) : bool :=
  match a, b with
  | Some x, Some y => Z.eqb x y
  | None, None => true
  | _, _ => false
  end.

Definition datetime_eqb (a b : datetime_t) : bool :=
  Z.eqb (dt_year a) (dt_year b) && Z.eqb (dt_month a) (dt_month b) &&
  Z.eqb (dt_day a) (dt_day b) && Z.eqb (dt_hour a) (dt_hour b) &&
  Z.eqb (dt_minute a) (dt_minute b) && Z.eqb (dt_second a) (dt_second b) &&
  Z.eqb (dt_microsecond a) (dt_microsecond b) &&
  option_Z_eqb (dt_tzoffset a) (dt_tzoffset b).

Definition PriceLevel_eqb (a b : PriceLevel_t) : bool :=
  match a, b with
  | UNSPECIFIED, UNSPECIFIED | FREE, FREE | INEXPENSIVE, INEXPENSIVE
  | MODERATE, MODERATE | EXPENSIVE, EXPENSIVE
  | VERY_EXPENSIVE, VERY_EXPENSIVE => true
  | _, _ => false
  end.

Definition BusinessStatus_eqb (a b : BusinessStatus_t) : bool :=
  match a, b with
  | OPERATIONAL, OPERATIONAL | CLOSED_TEMPORARILY, CLOSED_TEMPORARILY
  | CLOSED_PERMANENTLY, CLOSED_PERMANENTLY => true
  | _, _ => false
  end.

(** [a == b].  Numbers compare by value across [bool], [int] and [float];
    sequences compare element by element; two dicts are equal when they
    have the same keys with equal values, in whatever order; two dataclass
    instances are equal when they have the same class and equal fields. *)
Fixpoint eq (a b : value) {struct a} : bool :=
  match a with
  | VNone => match b with VNone => true | _ => false end
  | VBool _ | VInt _ | VFloat _ =>
      match as_num a, as_num b with
      | Some x, Some y => Qeq_bool x y
      | _, _ => false
      end
  | VStr s => match b with VStr t => String.eqb s t | _ => false end
  | VList l =>
      match b with
      | VList l' =>
          (fix go (l l' : list value) : bool :=
             match l, l' with
             | [], [] => true
             | x :: xs, y :: ys => eq x y && go xs ys
             | _, _ => false
             end) l l'
      | _ => false
      end
  | VTuple l =>
      match b with
      | VTuple l' =>
          (fix go (l l' : list value) : bool :=
             match l, l' with
             | [], [] => true
             | x :: xs, y :: ys => eq x y && go xs ys
             | _, _ => false
             end) l l'
      | _ => false
      end
  | VDict d =>
      match b with
      | VDict d' =>
          Nat.eqb (length d) (length d') &&
          (fix all (d : list (string * value)) : bool :=
             match d with
             | [] => true
             | (k, v) :: r =>
                 match dict_get k d' with
                 | Some v' => eq v v'
                 | None => false
                 end && all r
             end) d
      | _ => false
      end
  | VTime h m =>
      match b with VTime h' m' => Z.eqb h h' && Z.eqb m m' | _ => false end
  | VDateTime x =>
      match b with VDateTime y => datetime_eqb x y | _ => false end
  | VPriceLevel x =>
      match b with VPriceLevel y => PriceLevel_eqb x y | _ => false end
  | VBusinessStatus x =>
      match b with VBusinessStatus y => BusinessStatus_eqb x y | _ => false end
  | VInst c fs =>
      match b with
      | VInst c' fs' =>
          String.eqb c c' &&
          (fix go (l l' : list (string * value)) : bool :=
             match l, l' with
             | [], [] => true
             | (k, x) :: xs, (k', y) :: ys =>
                 String.eqb k k' && eq x y && go xs ys
             | _, _ => false
             end) fs fs'
      | _ => false
      end
  end.

(** [bool(v)] *)
Definition truthy (v : value) : bool :=
  match v with
  | VNone => false
  | VBool b => b
  | VInt n => negb (Z.eqb n 0)
  | VFloat q => negb (Qeq_bool q 0)
  | VStr s => negb (String.eqb s "")
  | VList l | VTuple l => match l with [] => false | _ => true end
  | VDict d => match d with [] => false | _ => true end
  | _ => true
  end.

(** [range(a, b)] *)
Definition range (a b : Z) : list Z :=
  map (fun i => a + Z.of_nat i) (seq 0 (Z.to_nat (b - a))).

(** The position a list of length [n] gives to the index [i]: a negative
    index counts from the end. *)
Definition index (n : nat) (i : Z) : result nat :=
  if (0 <=? i) && (i <? Z.of_nat n) then Ok (Z.to_nat i)
  else if (- Z.of_nat n <=? i) && (i <? 0) then Ok (Z.to_nat (i + Z.of_nat n))
  else Raise IndexError.

(** [l[i].append(x)] for a list [l] of lists. *)
Fixpoint append_nth {A : Type} (l : list (list A)) (n : nat) (x : A)
  : list (list A) :=
  match l, n with
  | [], _ => []
  | b :: l', O => (b ++ [x]) :: l'
  | b :: l', S n' => b :: append_nth l' n' x
  end.

Definition append_at {A : Type} (l : list (list A)) (i : value) (x : A)
  : result (list (list A)) :=
  match as_int i with
  | Some i => n <- index (length l) i ;; Ok (append_nth l n x)
  | None => Raise TypeError
  end.

(** [v.name] for an attribute [name]: a field of a dataclass instance, or
    the name or value of an enumeration member. *)
Definition getattr (v : value) (name : string) : result value :=
  match v with
  | VInst _ fs =>
      match dict_get name fs with
      | Some x => Ok x
      | None => Raise AttributeError
      end
  | VPriceLevel p =>
      if String.eqb name "name" then Ok (VStr (PriceLevel_name p))
      else if String.eqb name "value" then Ok (VStr (PriceLevel_value p))
      else Raise AttributeError
  | VBusinessStatus b =>
      if String.eqb name "name" then Ok (VStr (BusinessStatus_name b))
      else if String.eqb name "value" then Ok (VStr (BusinessStatus_value b))
      else Raise AttributeError
  | _ => Raise AttributeError
  end.

(** [v[i]] for an [int] index [i]. *)
Definition getitem_int (v : value) (i : Z) : result value :=
  match v with
  | VList l | VTuple l =>
      n <- index (length l) i ;;
      match nth_error l n with
      | Some x => Ok x
      | None => Raise IndexError
      end
  | VStr s =>
      n <- index (String.length s) i ;;
      match String.get n s with
      | Some c => Ok (VStr (String c EmptyString))
      | None => Raise IndexError
      end
  | VDict _ => Raise (KeyError (VInt i))
  | _ => Raise TypeError
  end.

(** [repr(s)] for a [str]: between single quotes, or between double quotes
    when the string has a single quote and no double quote; the quote in
    use and the backslash are escaped, and so are the characters that are
    not printable (on the ASCII characters, as the case methods). *)
Definition double_quote : ascii := ascii_of_nat 34.

Definition hex_digit (n : nat) : ascii :=
  nth n ["0"; "1"; "2"; "3"; "4"; "5"; "6"; "7"; "8"; "9";
         "a"; "b"; "c"; "d"; "e"; "f"]%char "0"%char.

Definition repr_char (quote c : ascii) : string :=
  let n := nat_of_ascii c in
  if Ascii.eqb c quote || Ascii.eqb c "\" then String "\" (String c EmptyString)
  else if Nat.eqb n 9 then "\t"
  else if Nat.eqb n 10 then "\n"
  else if Nat.eqb n 13 then "\r"
  else if Nat.ltb n 32 || Nat.eqb n 127 then
    String "\" (String "x" (String (hex_digit (n / 16))
                                    (String (hex_digit (n mod 16)) EmptyString)))
  else String c EmptyString.

Fixpoint repr_chars (quote : ascii) (s : string) : string :=
  match s with
  | EmptyString => EmptyString
  | String c s' => (repr_char quote c ++ repr_chars quote s')%string
  end.

Definition repr_str (s : string) : string :=
  let quote :=
    if Str.existsb_chars (fun c => Ascii.eqb c "'") s
       && negb (Str.existsb_chars (fun c => Ascii.eqb c double_quote) s)
    then double_quote else "'"%char in
  String quote (repr_chars quote s ++ String quote EmptyString).

(** [{f(key): value for key, value in items}] *)
Definition rename_keys (f : string -> string) (items : list (string * value))
  : list (string * value) :=
  dict_of_items (map (fun kv => (f (fst kv), snd kv)) items).

Fixpoint unique (l : list string) : bool :=
  match l with
  | [] => true
  | k :: l' => negb (Str.mem k l') && unique l'
  end.

(** A value made of what a decoded JSON document holds; the keys of an
    object are distinct. *)
Fixpoint json_value (v : value) : bool :=
  match v with
  | VNone | VBool _ | VInt _ | VFloat _ | VStr _ => true
  | VList l => forallb json_value l
  | VDict d => unique (map fst d) && forallb (fun kv => json_value (snd kv)) d
  | _ => false
  end.

(** The dict [d] has the keys [ks] and no other. *)
Definition has_keys {A : Type} (ks : list string) (d : list (string * A)) : bool :=
  Nat.eqb (length d) (length ks) &&
  forallb (fun k => match dict_get k d with Some _ => true | None => false end) ks.

End Py.

(* ------------------------------------------------------------------------- *)
(** ** pyserde *)
(* ------------------------------------------------------------------------- *)

Unset Elimination Schemes.

(** The annotations of the fields: the type hints the package writes. *)
Inductive hint : Type :=
| TStr | TInt | TFloat | TBool
| TOptional (h : hint)
| TList (h : hint)
| TTuple (hs : list hint)
| TDict (k v : hint)
| TInst (cls : string)
| TPriceLevel | TBusinessStatus | TDateTime.

Set Elimination Schemes.

Module serde.

(** [isinstance] of the class the hint starts with: [bool] is a subclass of
    [int], and neither is a [float]. *)
Fixpoint instance_of (t : hint) (v : value) : bool :=
  match t, v with
  | TStr, VStr _ => true
  | TInt, (VInt _ | VBool _) => true
  | TFloat, VFloat _ => true
  | TBool, VBool _ => true
  | TOptional _, VNone => true
  | TOptional h, _ => instance_of h v
  | TList _, VList _ => true
  | TTuple _, VTuple _ => true
  | TDict _ _, VDict _ => true
  | TInst cls, VInst c _ => String.eqb c cls
  | TPriceLevel, VPriceLevel _ => true
  | TBusinessStatus, VBusinessStatus _ => true
  | TDateTime, VDateTime _ => true
  | _, _ => false
  end.

(** The items of a container have the types the hint gives them. *)
Fixpoint items_conform (t : hint) (v : value) {struct t} : bool :=
  match t, v with
  | TOptional _, VNone => true
  | TOptional h, _ => items_conform h v
  | TList h, VList l =>
      forallb (fun x => instance_of h x && items_conform h x) l
  | TTuple hs, VTuple l =>
      (fix go (hs : list hint) (l : list value) : bool :=
         match hs, l with
         | [], [] => true
         | h :: hs', x :: l' =>
             instance_of h x && items_conform h x && go hs' l'
         | _, _ => false
         end) hs l
  | TDict k h, VDict d =>
      forallb (fun kv => instance_of k (VStr (fst kv))
                         && instance_of h (snd kv) && items_conform h (snd kv)) d
  | _, _ => true
  end.

(** The value has the type of the hint, through and through. *)
Definition conforms (t : hint) (v : value) : bool :=
  instance_of t v && items_conform t v.

(** The check of the argument of a method that is annotated
    [data: dict[str, Any]]: the methods of a decorated class are checked as
    its constructor is.  The keys of a dict are strings here. *)
Definition dict_arg (data : value) : result unit :=
  match data with
  | VDict _ => Ok tt
  | _ => Raise SerdeError
  end.

End serde.

(** The classes of [places] are decorated with [serde.serde]: the arguments
    of their constructors are checked against the annotations of the
    fields (with [beartype]), and [SerdeError] is raised for one that fails
    the check.  The check looks at the class of the argument and, in a
    container, at some of its items; it is taken as given, with what is
    sure of it: a value that conforms to the hint passes, and a value that
    is no instance of the class the hint starts with does not. *)
Class Serde : Type := {
  type_check : hint -> value -> bool;
  type_check_accepts :
    forall t v, serde.conforms t v = true -> type_check t v = true;
  type_check_rejects :
    forall t v, serde.instance_of t v = false -> type_check t v = false
}.

(** One possible check: the one that looks at every item. *)
Definition check_every_item : Serde :=
  {| type_check := serde.conforms;
     type_check_accepts := fun _ _ H => H;
     type_check_rejects :=
       fun t v H => f_equal (fun b : bool => b && serde.items_conform t v) H |}.

(* ------------------------------------------------------------------------- *)
(** ** dataclasses and datetime *)
(* ------------------------------------------------------------------------- *)

Module dataclasses.

(** A field of a dataclass: its name, its annotation and its default value,
    if any. *)
Record field : Type := mk_field {
  f_name : string;
  f_type : hint;
  f_default : option value
}.

Definition field_names (fs : list field) : list string := map f_name fs.

(** The check of the keyword arguments that are fields against the
    annotations. *)
Definition checked `{Serde} (fs : list field) (kwargs : list (string * value))
  : bool :=
  forallb (fun kv =>
             match find (fun f => String.eqb (f_name f) (fst kv)) fs with
             | Some f => type_check (f_type f) (snd kv)
             | None => true
             end) kwargs.

(** The call of a dataclass [cls] on the keyword arguments [kwargs] (the
    source unpacks a dict into the call), without [__post_init__].  The
    arguments are checked first: [SerdeError].  Then a key that is no
    field, or a field without default that is no key, is a [TypeError]. *)
Definition init `{Serde} (cls : string) (fs : list field)
           (kwargs : list (string * value)) : result value :=
  if checked fs kwargs then
    if forallb (fun kv => Str.mem (fst kv) (field_names fs)) kwargs
    then
      vals <- mapM (fun f : field =>
                      match Py.dict_get (f_name f) kwargs, f_default f with
                      | Some v, _ => Ok (f_name f, v)
                      | None, Some dflt => Ok (f_name f, dflt)
                      | None, None => Raise TypeError
                      end) fs ;;
      Ok (VInst cls vals)
    else Raise TypeError
  else Raise SerdeError.

(** [_asdict_inner]: dataclass instances become dicts, recursively through
    lists, tuples and dicts; anything else is copied. *)
Fixpoint asdict_inner (v : value) : value :=
  match v with
  | VInst _ fs => VDict (map (fun kv => (fst kv, asdict_inner (snd kv))) fs)
  | VList l => VList (map asdict_inner l)
  | VTuple l => VTuple (map asdict_inner l)
  | VDict d => VDict (map (fun kv => (fst kv, asdict_inner (snd kv))) d)
  | _ => v
  end.

(** [dataclasses.asdict(obj)] *)
Definition asdict (obj : value) : result (list (string * value)) :=
  match obj with
  | VInst _ fs => Ok (map (fun kv => (fst kv, asdict_inner (snd kv))) fs)
  | _ => Raise TypeError
  end.

End dataclasses.

Module datetime.

(** The conversion of an argument to a C [int]. *)
Definition c_int (v : value) : result Z :=
  match Py.as_int v with
  | Some n =>
      if (- 2147483648 <=? n) && (n <=? 2147483647) then Ok n
      else Raise OverflowError
  | None => Raise TypeError
  end.

(** [datetime.time(hour, minute)] *)
Definition time (hour minute : value) : result value :=
  h <- c_int hour ;;
  m <- c_int minute ;;
  if negb ((0 <=? h) && (h <=? 23)) then
    Raise (ValueError "hour must be in 0..23")
  else if negb ((0 <=? m) && (m <=? 59)) then
    Raise (ValueError "minute must be in 0..59")
  else Ok (VTime h m).

End datetime.

(** [dateutil.parser.parse] on a string: a third-party parser, taken as given. *)
Class DateUtil : Type := {
  dateutil_parse : string -> result datetime_t
}.

(** The order in which a [set] of strings is iterated is not specified; all
    the package can rely on is that every element comes once.  A set is
    embedded as a duplicate-free list, and [set_iter] puts it in iteration
    order. *)
Class SetOrder : Type := {
  set_iter : list string -> list string;
  set_iter_perm : forall l, Permutation (set_iter l) l
}.

(** A parser that accepts no string. *)
Definition parse_nothing : DateUtil :=
  {| dateutil_parse := fun _ => Raise (ValueError "Unknown string format") |}.

(** A parser that reads every string as the first instant of 2024, UTC. *)
Definition parse_new_year : DateUtil :=
  {| dateutil_parse := fun _ => Ok (mk_datetime 2024 1 1 0 0 0 0 (Some 0)) |}.

(** One possible iteration order: the order of insertion. *)
Definition insertion_order : SetOrder :=
  {| set_iter := fun l => l; set_iter_perm := @Permutation_refl string |}.

(* ------------------------------------------------------------------------- *)
(** ** places.py *)
(* ------------------------------------------------------------------------- *)

Module places.

Module PriceLevel.

Definition members : list PriceLevel_t :=
  [UNSPECIFIED; FREE; INEXPENSIVE; MODERATE; EXPENSIVE; VERY_EXPENSIVE].

(** [cls(value)]: the member with that value, or the [ValueError] of
    [enum], which shows the value with [%r]. *)
Definition of_value (v : string) : result PriceLevel_t :=
  match find (fun m => String.eqb (PriceLevel_value m) v) members with
  | Some m => Ok m
  | None =>
      Raise (ValueError (Py.repr_str v ++ " is not a valid PriceLevel")%string)
  end.

Definition from_api_format (value : value) : result PriceLevel_t :=
  match value with
  | VStr value =>
      let value := Str.removeprefix "PRICE_LEVEL_" value in
      of_value (Str.lower value)
  | _ => Raise AttributeError
  end.

Definition to_api_format (self : PriceLevel_t) : string :=
  ("PRICE_LEVEL_" ++ PriceLevel_name self)%string.

End PriceLevel.

Module BusinessStatus.

Definition members : list BusinessStatus_t :=
  [OPERATIONAL; CLOSED_TEMPORARILY; CLOSED_PERMANENTLY].

Definition of_value (v : string) : result BusinessStatus_t :=
  match find (fun m => String.eqb (BusinessStatus_value m) v) members with
  | Some m => Ok m
  | None =>
      Raise (ValueError (Py.repr_str v ++ " is not a valid BusinessStatus")%string)
  end.

Definition from_api_format (value : value) : result BusinessStatus_t :=
  match value with
  | VStr value => of_value (Str.lower value)
  | _ => Raise AttributeError
  end.

Definition to_api_format (self : BusinessStatus_t) : string :=
  BusinessStatus_name self.

End BusinessStatus.

(** [LatLng: TypeAlias = tuple[float, float]] *)
Definition LatLng : hint := TTuple [TFloat; TFloat].

Module CircularArea.

(** [__post_init__]: [if not 0 < self.radius <= 50_000: raise ...] *)
Definition post_init (radius : value) : result unit :=
  match Py.as_num radius with
  | Some r =>
      if negb (negb (Qle_bool r 0) && Qle_bool r 50000)
      then Raise (ValueError "Radius must be between 1 and 50,000 meters.")
      else Ok tt
  | None => Raise TypeError
  end.

(** [cls(center, radius)]: the check of the arguments against
    [center: LatLng] and [radius: int], then [__post_init__]. *)
Definition new `{Serde} (center radius : value) : result value :=
  if type_check LatLng center && type_check TInt radius then
    post_init radius ;;;
    Ok (VInst "CircularArea" [("center", center); ("radius", radius)])
  else Raise SerdeError.

Definition from_api_format `{Serde} (data : value) : result value :=
  serde.dict_arg data ;;;
  c <- Py.getitem data "center" ;;
  latitude <- Py.getitem c "latitude" ;;
  c <- Py.getitem data "center" ;;
  longitude <- Py.getitem c "longitude" ;;
  let center := VTuple [latitude; longitude] in
  radius <- Py.getitem data "radius" ;;
  new center radius.

Definition to_api_format (self : value) : result value :=
  center <- Py.getattr self "center" ;;
  latitude <- Py.getitem_int center 0 ;;
  center <- Py.getattr self "center" ;;
  longitude <- Py.getitem_int center 1 ;;
  radius <- Py.getattr self "radius" ;;
  Ok (VDict [("center", VDict [("latitude", latitude);
                               ("longitude", longitude)]);
             ("radius", radius)]).

End CircularArea.

Module RectangularArea.

(** [cls(south_west, north_east)], both annotated [LatLng] *)
Definition new `{Serde} (south_west north_east : value) : result value :=
  if type_check LatLng south_west && type_check LatLng north_east then
    Ok (VInst "RectangularArea"
              [("south_west", south_west); ("north_east", north_east)])
  else Raise SerdeError.

Definition from_api_format `{Serde} (data : value) : result value :=
  serde.dict_arg data ;;;
  low <- Py.getitem data "low" ;;
  low_latitude <- Py.getitem low "latitude" ;;
  low <- Py.getitem data "low" ;;
  low_longitude <- Py.getitem low "longitude" ;;
  let south_west := VTuple [low_latitude; low_longitude] in
  high <- Py.getitem data "high" ;;
  high_latitude <- Py.getitem high "latitude" ;;
  high <- Py.getitem data "high" ;;
  high_longitude <- Py.getitem high "longitude" ;;
  let north_east := VTuple [high_latitude; high_longitude] in
  new south_west north_east.

Definition to_api_format (self : value) : result value :=
  south_west <- Py.getattr self "south_west" ;;
  low_latitude <- Py.getitem_int south_west 0 ;;
  south_west <- Py.getattr self "south_west" ;;
  low_longitude <- Py.getitem_int south_west 1 ;;
  north_east <- Py.getattr self "north_east" ;;
  high_latitude <- Py.getitem_int north_east 0 ;;
  north_east <- Py.getattr self "north_east" ;;
  high_longitude <- Py.getitem_int north_east 1 ;;
  Ok (VDict [("low", VDict [("latitude", low_latitude);
                            ("longitude", low_longitude)]);
             ("high", VDict [("latitude", high_latitude);
                             ("longitude", high_longitude)])]).

End RectangularArea.

Module LocalizedString.

Definition fields : list dataclasses.field :=
  [dataclasses.mk_field "text" TStr None; dataclasses.mk_field "language_code" TStr None].

Definition from_api_format `{Casefy} `{Serde} (data : value) : result value :=
  serde.dict_arg data ;;;
  items <- Py.items data ;;
  let data := Py.rename_keys casefy.snakecase items in
  dataclasses.init "LocalizedString" fields data.

Definition to_api_format `{Casefy} (self : value) : result value :=
  data <- dataclasses.asdict self ;;
  Ok (VDict (Py.rename_keys casefy.camelcase data)).

End LocalizedString.

Module AddressComponent.

Definition fields : list dataclasses.field :=
  [dataclasses.mk_field "long_text" TStr None; dataclasses.mk_field "short_text" TStr None;
   dataclasses.mk_field "types" (TList TStr) None;
   dataclasses.mk_field "language_code" TStr None].

Definition from_api_format `{Casefy} `{Serde} (data : value) : result value :=
  serde.dict_arg data ;;;
  items <- Py.items data ;;
  let data := Py.rename_keys casefy.snakecase items in
  dataclasses.init "AddressComponent" fields data.

Definition to_api_format `{Casefy} (self : value) : result value :=
  data <- dataclasses.asdict self ;;
  Ok (VDict (Py.rename_keys casefy.camelcase data)).

End AddressComponent.

Module PlusCode.

(** [cls(global_code, compound_code)], both annotated [str] *)
Definition new `{Serde} (global_code compound_code : value) : result value :=
  if type_check TStr global_code && type_check TStr compound_code then
    Ok (VInst "PlusCode"
              [("global_code", global_code); ("compound_code", compound_code)])
  else Raise SerdeError.

Definition from_api_format `{Serde} (data : value) : result value :=
  serde.dict_arg data ;;;
  global_code <- Py.getitem data "globalCode" ;;
  compound_code <- Py.getitem data "compoundCode" ;;
  new global_code compound_code.

Definition to_api_format (self : value) : result value :=
  global_code <- Py.getattr self "global_code" ;;
  compound_code <- Py.getattr self "compound_code" ;;
  Ok (VDict [("globalCode", global_code); ("compoundCode", compound_code)]).

End PlusCode.

Module OpeningHours.

(** [cls(periods, weekday_descriptions)]; [periods] is a list of lists of
    pairs, which the decoder builds itself; the descriptions are passed on
    as the wire has them, and are taken to be the list of strings of the
    annotation. *)
Definition new (periods : list (list value)) (weekday_descriptions : value)
  : value :=
  VInst "OpeningHours"
        [("periods", VList (map VList periods));
         ("weekday_descriptions", weekday_descriptions)].

(** How the body of the loop over the periods ends: it falls through to
    the next period, or it leaves the loop with [break]. *)
Inductive flow : Type := Next | Break.

(** [datetime.time(point["hour"], point["minute"])] *)
Definition time_of (point : value) : result value :=
  hour <- Py.getitem point "hour" ;;
  minute <- Py.getitem point "minute" ;;
  datetime.time hour minute.

(** The body of [for i in range(start_day, end_day + 1)]. *)
Definition span_body (start end_ : value) (start_day end_day : Z)
           (periods : list (list value)) (i : Z)
  : result (list (list value)) :=
  se <- (if i =? start_day then
           s <- time_of start ;; Ok (s, VNone)
         else if i =? end_day then
           e <- time_of end_ ;; Ok (VNone, e)
         else Ok (VNone, VNone)) ;;
  Py.append_at periods (VInt i) (VTuple [fst se; snd se]).

(** The body of [for period in data["periods"]]. *)
Definition period_body (data : value) (periods : list (list value))
           (period : value) : result (flow * list (list value)) :=
  start <- Py.getitem period "open" ;;
  end_ <- Py.get period "close" ;;
  if Py.is_none end_ then
    all <- Py.getitem data "periods" ;;
    n <- Py.len all ;;
    if 1 <? n then
      Raise (RuntimeError "If you see this message, please report it as a bug.")
    else
      (* the place is open 24/7 *)
      periods <- foldM (fun periods i =>
                          Py.append_at periods (VInt i) (VTuple [VNone; VNone]))
                       (Py.range 0 7) periods ;;
      Ok (Break, periods)
  else
    start_day <- Py.getitem start "day" ;;
    end_day <- Py.getitem end_ "day" ;;
    if Py.eq start_day end_day then
      s <- time_of start ;;
      e <- time_of end_ ;;
      periods <- Py.append_at periods start_day (VTuple [s; e]) ;;
      Ok (Next, periods)
    else
      match Py.as_int start_day, Py.as_int end_day with
      | Some a, Some b =>
          periods <- foldM (span_body start end_ a b)
                           (Py.range a (b + 1)) periods ;;
          Ok (Next, periods)
      | _, _ => Raise TypeError
      end.

Fixpoint for_periods (data : value) (l : list value)
         (periods : list (list value)) : result (list (list value)) :=
  match l with
  | [] => Ok periods
  | period :: rest =>
      r <- period_body data periods period ;;
      match r with
      | (Break, periods) => Ok periods
      | (Next, periods) => for_periods data rest periods
      end
  end.

Definition from_api_format (data : value) : result value :=
  serde.dict_arg data ;;;
  weekday_descriptions <- Py.getitem data "weekdayDescriptions" ;;
  let periods : list (list value) := map (fun _ => []) (Py.range 0 7) in
  all <- Py.getitem data "periods" ;;
  l <- Py.iter all ;;
  periods <- for_periods data l periods ;;
  (* move from Sunday-based to Monday-based *)
  match periods with
  | first :: others => Ok (new (others ++ [first]) weekday_descriptions)
  | [] => Raise IndexError
  end.

End OpeningHours.

Module AuthorAttribution.

Definition fields : list dataclasses.field :=
  [dataclasses.mk_field "display_name" TStr None;
   dataclasses.mk_field "uri" (TOptional TStr) (Some VNone);
   dataclasses.mk_field "photo_uri" (TOptional TStr) (Some VNone)].

Definition from_api_format `{Casefy} `{Serde} (data : value) : result value :=
  serde.dict_arg data ;;;
  items <- Py.items data ;;
  let data := Py.rename_keys casefy.snakecase items in
  dataclasses.init "AuthorAttribution" fields data.

Definition to_api_format `{Casefy} (self : value) : result value :=
  data <- dataclasses.asdict self ;;
  Ok (VDict (Py.rename_keys casefy.camelcase data)).

End AuthorAttribution.

(** [obj.to_api_format()]: the method is looked up on the class of [obj].
    This is the lookup among the classes defined so far. *)
Definition component_to_api_format `{Casefy} (obj : value) : result value :=
  match obj with
  | VPriceLevel p => Ok (VStr (PriceLevel.to_api_format p))
  | VBusinessStatus b => Ok (VStr (BusinessStatus.to_api_format b))
  | VInst cls _ =>
      if String.eqb cls "CircularArea" then CircularArea.to_api_format obj
      else if String.eqb cls "RectangularArea" then RectangularArea.to_api_format obj
      else if String.eqb cls "LocalizedString" then LocalizedString.to_api_format obj
      else if String.eqb cls "AddressComponent" then AddressComponent.to_api_format obj
      else if String.eqb cls "PlusCode" then PlusCode.to_api_format obj
      else if String.eqb cls "AuthorAttribution" then AuthorAttribution.to_api_format obj
      else Raise AttributeError
  | _ => Raise AttributeError
  end.

Module Photo.

(** [cls(name, height, width, authors)], annotated [str], [int], [int] and
    [list[AuthorAttribution]]; the last field is spelt as in the source. *)
Definition new `{Serde} (name height width authors : value) : result value :=
  if type_check TStr name && type_check TInt height && type_check TInt width
     && type_check (TList (TInst "AuthorAttribution")) authors
  then
    Ok (VInst "Photo" [("name", name); ("height", height); ("width", width);
                       ("authot_attributions", authors)])
  else Raise SerdeError.

Definition from_api_format `{Casefy} `{Serde} (data : value) : result value :=
  serde.dict_arg data ;;;
  name <- Py.getitem data "name" ;;
  width <- Py.getitem data "widthPx" ;;
  height <- Py.getitem data "heightPx" ;;
  attributions <- Py.getitem data "authorAttributions" ;;
  l <- Py.iter attributions ;;
  authors <- mapM AuthorAttribution.from_api_format l ;;
  new name height width (VList authors).

Definition to_api_format `{Casefy} (self : value) : result value :=
  name <- Py.getattr self "name" ;;
  width <- Py.getattr self "width" ;;
  height <- Py.getattr self "height" ;;
  attributions <- Py.getattr self "authot_attributions" ;;
  l <- Py.iter attributions ;;
  authors <- mapM component_to_api_format l ;;
  Ok (VDict [("name", name); ("widthPx", width); ("heightPx", height);
             ("authorAttributions", VList authors)]).

End Photo.

(** [obj.to_api_format()] among the classes defined above [Review]. *)
Definition call_to_api_format `{Casefy} (obj : value) : result value :=
  match obj with
  | VInst cls _ =>
      if String.eqb cls "Photo" then Photo.to_api_format obj
      else component_to_api_format obj
  | _ => component_to_api_format obj
  end.

(** [obj.isoformat()] *)
Definition digit (n : Z) : string :=
  String (ascii_of_nat (48 + Z.to_nat (n mod 10))) EmptyString.

Fixpoint zero_padded (width : nat) (n : Z) : string :=
  match width with
  | O => EmptyString
  | S w => (zero_padded w (n / 10) ++ digit n)%string
  end.

Definition utcoffset_format (off : Z) : string :=
  let sign := if off <? 0 then "-" else "+" in
  let off := Z.abs off in
  let hh := off / 3600 in
  let mm := (off mod 3600) / 60 in
  let ss := off mod 60 in
  (sign ++ zero_padded 2 hh ++ ":" ++ zero_padded 2 mm ++
   (if Z.eqb ss 0 then "" else ":" ++ zero_padded 2 ss))%string.

Definition call_isoformat (obj : value) : result value :=
  match obj with
  | VDateTime d =>
      Ok (VStr (zero_padded 4 (dt_year d) ++ "-" ++ zero_padded 2 (dt_month d) ++
                "-" ++ zero_padded 2 (dt_day d) ++ "T" ++
                zero_padded 2 (dt_hour d) ++ ":" ++ zero_padded 2 (dt_minute d) ++
                ":" ++ zero_padded 2 (dt_second d) ++
                (if Z.eqb (dt_microsecond d) 0 then ""
                 else "." ++ zero_padded 6 (dt_microsecond d)) ++
                match dt_tzoffset d with
                | Some off => utcoffset_format off
                | None => ""
                end)%string)
  | VTime h m =>
      Ok (VStr (zero_padded 2 h ++ ":" ++ zero_padded 2 m ++ ":00")%string)
  | _ => Raise AttributeError
  end.

(** [dateutil.parser.parse(timestr)] *)
Definition parse `{DateUtil} (timestr : value) : result value :=
  match timestr with
  | VStr s => d <- dateutil_parse s ;; Ok (VDateTime d)
  | _ => Raise TypeError
  end.

Module Review.

Definition fields : list dataclasses.field :=
  [dataclasses.mk_field "name" TStr None;
   dataclasses.mk_field "relative_publish_time_description" TStr None;
   dataclasses.mk_field "rating" TInt None;
   dataclasses.mk_field "text" (TInst "LocalizedString") None;
   dataclasses.mk_field "original_text" (TInst "LocalizedString") None;
   dataclasses.mk_field "author_attribution" (TInst "AuthorAttribution") None;
   dataclasses.mk_field "publish_time" TDateTime None].

Definition from_api_format `{Casefy} `{Serde} `{DateUtil} (data : value)
  : result value :=
  serde.dict_arg data ;;;
  items <- Py.items data ;;
  let data := Py.rename_keys casefy.snakecase items in
  text <- Py.getitem (VDict data) "text" ;;
  text <- LocalizedString.from_api_format text ;;
  let data := Py.dict_set "text" text data in
  original_text <- Py.getitem (VDict data) "original_text" ;;
  original_text <- LocalizedString.from_api_format original_text ;;
  let data := Py.dict_set "original_text" original_text data in
  author_attribution <- Py.getitem (VDict data) "author_attribution" ;;
  author_attribution <- AuthorAttribution.from_api_format author_attribution ;;
  let data := Py.dict_set "author_attribution" author_attribution data in
  publish_time <- Py.getitem (VDict data) "publish_time" ;;
  publish_time <- parse publish_time ;;
  let data := Py.dict_set "publish_time" publish_time data in
  dataclasses.init "Review" fields data.

Definition to_api_format `{Casefy} (self : value) : result value :=
  data <- dataclasses.asdict self ;;
  text <- Py.getitem (VDict data) "text" ;;
  text <- call_to_api_format text ;;
  let data := Py.dict_set "text" text data in
  original_text <- Py.getitem (VDict data) "original_text" ;;
  original_text <- call_to_api_format original_text ;;
  let data := Py.dict_set "original_text" original_text data in
  author_attribution <- Py.getitem (VDict data) "author_attribution" ;;
  author_attribution <- call_to_api_format author_attribution ;;
  let data := Py.dict_set "author_attribution" author_attribution data in
  publish_time <- Py.getitem (VDict data) "publish_time" ;;
  publish_time <- call_isoformat publish_time ;;
  let data := Py.dict_set "publish_time" publish_time data in
  Ok (VDict (Py.rename_keys casefy.camelcase data)).

End Review.

Module ParkingOptions.

Definition fields : list dataclasses.field :=
  [dataclasses.mk_field "free_garage_parking" (TOptional TBool) (Some VNone);
   dataclasses.mk_field "free_parking_lot" (TOptional TBool) (Some VNone);
   dataclasses.mk_field "free_street_parking" (TOptional TBool) (Some VNone);
   dataclasses.mk_field "paid_garage_parking" (TOptional TBool) (Some VNone);
   dataclasses.mk_field "paid_parking_lot" (TOptional TBool) (Some VNone);
   dataclasses.mk_field "paid_street_parking" (TOptional TBool) (Some VNone);
   dataclasses.mk_field "valet_parking" (TOptional TBool) (Some VNone)].

Definition from_api_format `{Casefy} `{Serde} (data : value) : result value :=
  serde.dict_arg data ;;;
  items <- Py.items data ;;
  let data := Py.rename_keys casefy.snakecase items in
  dataclasses.init "ParkingOptions" fields data.

Definition to_api_format `{Casefy} (self : value) : result value :=
  data <- dataclasses.asdict self ;;
  Ok (VDict (Py.rename_keys casefy.camelcase data)).

End ParkingOptions.

Module PaymentOptions.

Definition fields : list dataclasses.field :=
  [dataclasses.mk_field "accepts_cash_only" (TOptional TBool) (Some VNone);
   dataclasses.mk_field "accepts_credit_cards" (TOptional TBool) (Some VNone);
   dataclasses.mk_field "accepts_debit_cards" (TOptional TBool) (Some VNone);
   dataclasses.mk_field "accepts_nfc" (TOptional TBool) (Some VNone)].

Definition from_api_format `{Casefy} `{Serde} (data : value) : result value :=
  serde.dict_arg data ;;;
  items <- Py.items data ;;
  let data := Py.rename_keys casefy.snakecase items in
  dataclasses.init "PaymentOptions" fields data.

Definition to_api_format `{Casefy} (self : value) : result value :=
  data <- dataclasses.asdict self ;;
  Ok (VDict (Py.rename_keys casefy.camelcase data)).

End PaymentOptions.

Definition _from_api_format `{Casefy} `{Serde} `{DateUtil}
           (key : string) (value_ : value)
  : result (string * value) :=
  let key := casefy.snakecase key in
  value_ <-
    (if String.eqb key "accessibility_options" then
       items <- Py.items value_ ;;
       Ok (VDict (Py.rename_keys casefy.snakecase items))
     else if String.eqb key "address_components" then
       l <- Py.iter value_ ;;
       r <- mapM AddressComponent.from_api_format l ;; Ok (VList r)
     else if String.eqb key "business_status" then
       b <- BusinessStatus.from_api_format value_ ;; Ok (VBusinessStatus b)
     else if String.eqb key "display_name" then
       LocalizedString.from_api_format value_
     else if String.eqb key "location" then
       latitude <- Py.getitem value_ "latitude" ;;
       longitude <- Py.getitem value_ "longitude" ;;
       Ok (VTuple [latitude; longitude])
     else if String.eqb key "photos" then
       l <- Py.iter value_ ;;
       r <- mapM Photo.from_api_format l ;; Ok (VList r)
     else if String.eqb key "plus_code" then
       PlusCode.from_api_format value_
     else if String.eqb key "primary_type_display_name" then
       LocalizedString.from_api_format value_
     else if String.eqb key "viewport" then
       RectangularArea.from_api_format value_
     else if String.eqb key "current_opening_hours"
             || String.eqb key "current_secondary_opening_hours"
             || String.eqb key "regular_opening_hours"
             || String.eqb key "regular_secondary_opening_hours" then
       OpeningHours.from_api_format value_
     else if String.eqb key "price_level" then
       p <- PriceLevel.from_api_format value_ ;; Ok (VPriceLevel p)
     else if String.eqb key "parking_options" then
       ParkingOptions.from_api_format value_
     else if String.eqb key "payment_options" then
       PaymentOptions.from_api_format value_
     else if String.eqb key "reviews" then
       l <- Py.iter value_ ;;
       r <- mapM Review.from_api_format l ;; Ok (VList r)
     else Ok value_) ;;
  Ok (key, value_).

Module Place.

(** The annotations of the fields, in declaration order; a field
    annotated [T] here is declared [T | None = None]. *)
Definition annotations : list (string * hint) :=
  [("id", TStr);
   ("name", TStr);
   (* basic fields *)
   ("accessibility_options", (TDict TStr TBool));
   ("address_components", (TList (TInst "AddressComponent")));
   ("adr_format_address", TStr);
   ("business_status", TBusinessStatus);
   ("display_name", (TInst "LocalizedString"));
   ("formatted_address", TStr);
   ("google_maps_uri", TStr);
   ("icon_background_color", TStr);
   ("icon_mask_base_uri", TStr);
   ("location", LatLng);
   ("photos", (TList (TInst "Photo")));
   ("plus_code", (TInst "PlusCode"));
   ("primary_type", TStr);
   ("primary_type_display_name", (TInst "LocalizedString"));
   ("short_formatted_address", TStr);
   ("types", (TList TStr));
   ("utc_offset_minutes", TInt);
   ("viewport", (TInst "RectangularArea"));
   (* advanced fields *)
   ("current_opening_hours", (TInst "OpeningHours"));
   ("current_secondary_opening_hours", (TInst "OpeningHours"));
   ("international_phone_number", TStr);
   ("national_phone_number", TStr);
   ("price_level", TPriceLevel);
   ("rating", TFloat);
   ("regular_opening_hours", (TInst "OpeningHours"));
   ("regular_secondary_opening_hours", (TInst "OpeningHours"));
   ("user_rating_count", TInt);
   ("website_uri", TStr);
   (* preferred fields *)
   ("allows_dogs", TBool);
   ("curbside_pickup", TBool);
   ("delivery", TBool);
   ("dine_in", TBool);
   ("good_for_children", TBool);
   ("good_for_groups", TBool);
   ("good_for_watching_sports", TBool);
   ("live_music", TBool);
   ("menu_for_children", TBool);
   ("parking_options", (TInst "ParkingOptions"));
   ("payment_options", (TInst "PaymentOptions"));
   ("outdoor_seating", TBool);
   ("reservable", TBool);
   ("restroom", TBool);
   ("reviews", (TList (TInst "Review")));
   ("serves_beer", TBool);
   ("serves_breakfast", TBool);
   ("serves_brunch", TBool);
   ("serves_cocktails", TBool);
   ("serves_coffee", TBool);
   ("serves_desserts", TBool);
   ("serves_dinner", TBool);
   ("serves_lunch", TBool);
   ("serves_vegetarian_food", TBool);
   ("serves_wine", TBool);
   ("takeout", TBool)].

(** The names of the fields, in declaration order; every field has the
    default [None]. *)
Definition field_names : list string :=
  ["id"; "name";
   (* basic fields *)
   "accessibility_options"; "address_components"; "adr_format_address";
   "business_status"; "display_name"; "formatted_address";
   "google_maps_uri"; "icon_background_color"; "icon_mask_base_uri";
   "location"; "photos"; "plus_code"; "primary_type";
   "primary_type_display_name"; "short_formatted_address"; "types";
   "utc_offset_minutes"; "viewport";
   (* advanced fields *)
   "current_opening_hours"; "current_secondary_opening_hours";
   "international_phone_number"; "national_phone_number"; "price_level";
   "rating"; "regular_opening_hours"; "regular_secondary_opening_hours";
   "user_rating_count"; "website_uri";
   (* preferred fields *)
   "allows_dogs"; "curbside_pickup"; "delivery"; "dine_in";
   "good_for_children"; "good_for_groups"; "good_for_watching_sports";
   "live_music"; "menu_for_children"; "parking_options";
   "payment_options"; "outdoor_seating"; "reservable"; "restroom";
   "reviews"; "serves_beer"; "serves_breakfast"; "serves_brunch";
   "serves_cocktails"; "serves_coffee"; "serves_desserts";
   "serves_dinner"; "serves_lunch"; "serves_vegetarian_food";
   "serves_wine"; "takeout"].

Definition fields : list dataclasses.field :=
  map (fun a => dataclasses.mk_field (fst a) (TOptional (snd a)) (Some VNone))
      annotations.

(** The body of [for key, value in data.items()]. *)
Definition item_body `{Casefy} `{Serde} `{DateUtil}
           (valid_fields : list string)
           (values : list (string * value)) (item : string * value)
  : result (list (string * value)) :=
  kv <- _from_api_format (fst item) (snd item) ;;
  if Str.mem (fst kv) valid_fields
  then Ok (Py.dict_set (fst kv) (snd kv) values)
  else Ok values.

Definition from_api_format `{Casefy} `{Serde} `{DateUtil} (data : value)
  : result value :=
  serde.dict_arg data ;;;
  let values : list (string * value) := [] in
  let valid_fields := dataclasses.field_names fields in
  items <- Py.items data ;;
  values <- foldM (item_body valid_fields) items values ;;
  dataclasses.init "Place" fields values.

End Place.

Definition _to_api_name `{Casefy} (field : string) (add_prefix : bool)
  : string :=
  (* transform from snake_case to camelCase *)
  let field := casefy.camelcase field in
  let field := if add_prefix then ("places." ++ field)%string else field in
  field.

(** [set(fields)] before it is put in iteration order. *)
Fixpoint dedup (l : list string) : list string :=
  match l with
  | [] => []
  | x :: l' => if Str.mem x l' then dedup l' else x :: dedup l'
  end.

Definition create_field_mask `{Casefy} `{SetOrder} (fields : list string)
           (add_prefix : bool) : result string :=
  let fields := set_iter (dedup fields) in
  if Nat.eqb (length fields) 0 then
    Raise (ValueError "At least one field must be provided.")
  else
    let valid_fields := dataclasses.field_names Place.fields in
    if Str.mem "*" fields then Ok "*"
    else
      let invalid_fields :=
        set_iter (filter (fun f => negb (Str.mem f valid_fields)) fields) in
      if Nat.ltb 0 (length invalid_fields) then
        Raise (ValueError ("Invalid field(s): " ++ Str.join ", " invalid_fields)%string)
      else
        Ok (Str.join "," (map (fun field => _to_api_name field add_prefix) fields)).

End places.

(* ------------------------------------------------------------------------- *)
(** ** _exceptions.py *)
(* ------------------------------------------------------------------------- *)

(** The built-in [str()] on a value that is not a string, taken as given. *)
Class StrBuiltin : Type := {
  py_str : value -> string
}.

Module _exceptions.

Module APIError.

Definition from_api_response (code : Z) (response : value)
  : result APIError_t :=
  message <- Py.get response "message" ;;
  status <- Py.get response "status" ;;
  details <- Py.get response "details" ;;
  Ok {| status_code := code; message := message; status := status;
        details := details |}.

(** [f"{value}"] *)
Definition format `{StrBuiltin} (v : value) : string :=
  match v with
  | VStr s => s
  | _ => py_str v
  end.

Definition __str__ `{StrBuiltin} (self : APIError_t) : string :=
  let message :=
    if Py.truthy (message self) then message self else VStr "Unknown error" in
  ("APIError" ++ ": " ++ format message)%string.

End APIError.

End _exceptions.

(* ------------------------------------------------------------------------- *)
(** ** _client.py *)
(* ------------------------------------------------------------------------- *)

Module _client.

(** What [session.get] or [session.post] is called with. *)
Record request : Type := mk_request {
  http_method : string;
  url : string;
  headers : list (string * value);
  params : option (list (string * value));
  json : option value
}.

(** An [async] method of the client awaits the transport once.  Its
    embedding is either finished before anything is sent ([Done]), or it
    is the request it sends together with what it does with the status and
    the decoded body of the response ([Send]). *)
Inductive call (A : Type) : Type :=
| Done (r : result A)
| Send (req : request) (k : Z -> value -> result A).

Arguments Done {A} r.
Arguments Send {A} req k.

Definition await {A : Type} (prepared : result request)
           (k : Z -> value -> result A) : call A :=
  match prepared with
  | Ok req => Send req k
  | Raise e => Done (Raise e)
  end.

(** [isinstance(v, cls)] for a dataclass [cls] *)
Definition isinstance (v : value) (cls : string) : bool :=
  match v with
  | VInst c _ => String.eqb c cls
  | _ => false
  end.

Definition is_some {A : Type} (o : option A) : bool :=
  match o with Some _ => true | None => false end.

(** The method ended with a [ValueError] before anything was sent. *)
Definition raises_ValueError {A : Type} (c : call A) : Prop :=
  exists msg, c = Done (Raise (ValueError msg)).

Definition not_ValueError (e : exn) : Prop :=
  match e with ValueError _ => False | _ => True end.

(** [if cond: raise e] *)
Definition raise_if (cond : bool) (e : exn) : result unit :=
  if cond then Raise e else Ok tt.

Module Client.

Record t : Type := mk_Client { _api_key : string }.

Definition search_places_by_text `{Casefy} `{Serde} `{SetOrder} `{DateUtil}
           (self : t)
           (query : string) (fields : list string)
           (included_type : option string) (language_code : string)
           (bias_area restrict_area : option value) (page_size : Z)
           (next_page_token : option string) (min_rating : option Q)
           (open_now : bool) (price_levels : option (list PriceLevel_t))
           (rank_by : string) : call value :=
  await
    (raise_if (Nat.eqb (String.length query) 0)
              (ValueError "The query must not be empty.") ;;;
     raise_if (is_some bias_area && is_some restrict_area)
              (ValueError "You can't specify both a bias area and a restrict area.") ;;;
     raise_if (negb ((0 <? page_size) && (page_size <=? 20)))
              (ValueError "The maximum number of results must be between in the range [1, 20].") ;;;
     raise_if (match min_rating with
               | Some r => negb (Qle_bool 0 r && Qle_bool r 5)
               | None => false
               end)
              (ValueError "The minimum rating must be between 0 and 5.") ;;;
     raise_if (existsb (Py.PriceLevel_eqb FREE)
                       (match price_levels with Some l => l | None => [] end))
              (ValueError "The FREE price level cannot be used in the price_levels argument.") ;;;
     let url := "https://places.googleapis.com/v1/places:searchText" in
     mask <- places.create_field_mask fields true ;;
     let headers := [("X-Goog-Api-Key", VStr (_api_key self));
                     ("X-Goog-FieldMask", VStr mask)] in
     let body := [("textQuery", VStr query);
                  ("languageCode", VStr language_code);
                  ("pageSize", VInt page_size);
                  ("rankPreference", VStr (Str.upper rank_by));
                  ("openNow", VBool open_now)] in
     let body :=
       match included_type with
       | Some ty =>
           (* here we assume that if the user provides an include_type,
              they want to filter by that type strictly *)
           Py.dict_set "strictTypeFiltering" (VBool true)
                       (Py.dict_set "includedType" (VStr ty) body)
       | None => body
       end in
     let body :=
       match next_page_token with
       | Some token => Py.dict_set "pageToken" (VStr token) body
       | None => body
       end in
     body <-
       match bias_area with
       | Some area =>
           if isinstance area "CircularArea" then
             w <- places.CircularArea.to_api_format area ;;
             Ok (Py.dict_set "locationBias" (VDict [("circle", w)]) body)
           else if isinstance area "RectangularArea" then
             w <- places.RectangularArea.to_api_format area ;;
             Ok (Py.dict_set "locationBias" (VDict [("rectangle", w)]) body)
           else Ok body
       | None => Ok body
       end ;;
     body <-
       match restrict_area with
       | Some area =>
           raise_if (negb (isinstance area "RectangularArea"))
                    (ValueError "The restrict area must be a rectangular area.") ;;;
           w <- places.RectangularArea.to_api_format area ;;
           Ok (Py.dict_set "locationRestriction" (VDict [("rectangle", w)]) body)
       | None => Ok body
       end ;;
     let body :=
       match min_rating with
       | Some r => Py.dict_set "minRating" (VFloat r) body
       | None => body
       end in
     let body :=
       match price_levels with
       | Some (level :: levels) =>
           Py.dict_set "priceLevels"
             (VList (map (fun level => VStr (places.PriceLevel.to_api_format level))
                         (level :: levels))) body
       | _ => body
       end in
     Ok (mk_request "POST" url headers None (Some (VDict body))))
    (fun status data =>
       if negb (status =? 200) then
         e <- _exceptions.APIError.from_api_response status data ;;
         Raise (APIError e)
       else
         next_page_token <- Py.get data "nextPageToken" ;;
         found <- Py.getitem data "places" ;;
         l <- Py.iter found ;;
         results <- mapM places.Place.from_api_format l ;;
         Ok (VTuple [VList results; next_page_token])).

Definition get_photo_uri (self : t) (photo : value)
           (max_width max_height : option Z) : call value :=
  await
    (raise_if (negb (is_some max_width) && negb (is_some max_height))
              (ValueError "At least one of max_width and max_height must be provided.") ;;;
     raise_if (match max_width with
               | Some w => negb ((1 <=? w) && (w <=? 4800))
               | None => false
               end)
              (ValueError "The maximum width must be between 1 and 4800.") ;;;
     raise_if (match max_height with
               | Some h => negb ((1 <=? h) && (h <=? 4800))
               | None => false
               end)
              (ValueError "The maximum height must be between 1 and 4800.") ;;;
     name <- Py.getattr photo "name" ;;
     name <- match name with
             | VStr s => Ok (Str.strip "/" s)
             | _ => Raise AttributeError
             end ;;
     let url := ("https://places.googleapis.com/v1/" ++ name ++ "/media")%string in
     let headers := [("X-Goog-Api-Key", VStr (_api_key self))] in
     let parameters := [("skipHttpRedirect", VStr "true")] in
     let parameters :=
       match max_width, max_height with
       | Some w, _ => Py.dict_set "maxWidthPx" (VInt w) parameters
       | None, Some h => Py.dict_set "maxHeightPx" (VInt h) parameters
       | None, None => parameters
       end in
     Ok (mk_request "GET" url headers (Some parameters) None))
    (fun status data =>
       if negb (status =? 200) then
         e <- _exceptions.APIError.from_api_response status data ;;
         Raise (APIError e)
       else Py.getitem data "photoUri").

(** [Client(api_key)].  [environ] is what the environment has for
    [GOOGLE_MAPS_API_KEY], if anything.  The session the constructor opens
    belongs to the transport and has no embedding. *)
Definition __init__ (environ : option string) (api_key : option string)
  : result t :=
  let key :=
    match api_key with
    | Some s => if String.eqb s "" then environ else Some s
    | None => environ
    end in
  match key with
  | None =>
      Raise (ValueError "An API key must be provided either as an argument or through the GOOGLE_MAPS_API_KEY environment variable.")
  | Some key =>
      raise_if (negb (String.prefix "AIza" key))
               (ValueError "The provided API key is invalid.") ;;;
      Ok (mk_Client key)
  end.

(** [types or []] *)
Definition or_empty (types : option (list string)) : value :=
  match types with
  | Some (x :: l) => VList (map VStr (x :: l))
  | _ => VList []
  end.

Definition search_nearby_places `{Casefy} `{Serde} `{SetOrder} `{DateUtil}
           (self : t)
           (area : value) (fields : list string)
           (included_types excluded_types : option (list string))
           (included_primary_types excluded_primary_types : option (list string))
           (language_code : string) (max_num_results : Z) (rank_by : string)
  : call value :=
  await
    (raise_if (negb ((0 <? max_num_results) && (max_num_results <=? 20)))
              (ValueError "The maximum number of results must be between in the range [1, 20].") ;;;
     let url := "https://places.googleapis.com/v1/places:searchNearby" in
     mask <- places.create_field_mask fields true ;;
     let headers := [("X-Goog-Api-Key", VStr (_api_key self));
                     ("X-Goog-FieldMask", VStr mask)] in
     circle <- places.call_to_api_format area ;;
     let body := [("locationRestriction", VDict [("circle", circle)]);
                  ("languageCode", VStr language_code);
                  ("maxResultCount", VInt max_num_results);
                  ("rankPreference", VStr (Str.upper rank_by));
                  ("includedTypes", or_empty included_types);
                  ("excludedTypes", or_empty excluded_types);
                  ("includedPrimaryTypes", or_empty included_primary_types);
                  ("excludedPrimaryTypes", or_empty excluded_primary_types)] in
     Ok (mk_request "POST" url headers None (Some (VDict body))))
    (fun status data =>
       if negb (status =? 200) then
         e <- _exceptions.APIError.from_api_response status data ;;
         Raise (APIError e)
       else
         found <- Py.getitem data "places" ;;
         l <- Py.iter found ;;
         results <- mapM places.Place.from_api_format l ;;
         Ok (VList results)).

Definition get_place_details `{Casefy} `{Serde} `{SetOrder} `{DateUtil}
           (self : t)
           (place_id : string) (fields : list string) (language_code : string)
  : call value :=
  await
    (raise_if (Nat.eqb (String.length place_id) 0)
              (ValueError "The place ID must not be empty.") ;;;
     let url := ("https://places.googleapis.com/v1/places/" ++ place_id)%string in
     mask <- places.create_field_mask fields false ;;
     let headers := [("X-Goog-Api-Key", VStr (_api_key self));
                     ("X-Goog-FieldMask", VStr mask)] in
     let params := [("languageCode", VStr language_code)] in
     Ok (mk_request "GET" url headers (Some params) None))
    (fun status data =>
       if negb (status =? 200) then
         e <- _exceptions.APIError.from_api_response status data ;;
         Raise (APIError e)
       else places.Place.from_api_format data).

End Client.

End _client.

(* ------------------------------------------------------------------------- *)
(** ** The codec of the flat records *)
(* ------------------------------------------------------------------------- *)

(** [LocalizedString], [AddressComponent], [AuthorAttribution],
    [ParkingOptions] and [PaymentOptions] each spell out the same two
    methods; this is their common text, with the class as a parameter. *)
Module Flat.

Definition from_api_format `{Casefy} `{Serde} (cls : string)
           (fields : list dataclasses.field) (data : value) : result value :=
  serde.dict_arg data ;;;
  items <- Py.items data ;;
  let data := Py.rename_keys casefy.snakecase items in
  dataclasses.init cls fields data.

Definition to_api_format `{Casefy} (self : value) : result value :=
  data <- dataclasses.asdict self ;;
  Ok (VDict (Py.rename_keys casefy.camelcase data)).

(** The keys [to_api_format] writes. *)
Definition wire_keys `{Casefy} (fields : list dataclasses.field) : list string :=
  map casefy.camelcase (dataclasses.field_names fields).

(** The object is not decoded: the call of the class raises [TypeError],
    or [SerdeError] when an argument fails the check of its type; it is
    [TypeError] when the arguments pass the check. *)
Definition refused `{Casefy} `{Serde} (from_api_format : value -> result value)
           (fields : list dataclasses.field) (d : list (string * value))
  : Prop :=
  (dataclasses.checked fields (Py.rename_keys casefy.snakecase d) = true ->
   from_api_format (VDict d) = Raise TypeError)
  /\ (from_api_format (VDict d) = Raise TypeError
      \/ from_api_format (VDict d) = Raise SerdeError).

(** A decoder is strict when it refuses every object with a key that is,
    in snake case, no field of the class, and every object that has no key
    for a field without default. *)
Definition strict `{Casefy} `{Serde} (from_api_format : value -> result value)
           (fields : list dataclasses.field) : Prop :=
  (forall d k,
      In k (map fst d) ->
      ~ In (casefy.snakecase k) (dataclasses.field_names fields) ->
      refused from_api_format fields d)
  /\ (forall d f,
        In f fields -> dataclasses.f_default f = None ->
        (forall k, In k (map fst d) ->
                   casefy.snakecase k <> dataclasses.f_name f) ->
        refused from_api_format fields d).

(** [d[k]], with [None] for a key that is not there. *)
Definition lookup (k : string) (d : list (string * value)) : value :=
  match Py.dict_get k d with
  | Some v => v
  | None => VNone
  end.

End Flat.

(* ------------------------------------------------------------------------- *)
(** ** Typed values *)
(* ------------------------------------------------------------------------- *)

(** The values of the domain types, as their field annotations type them,
    and the run-time value each of them is.  The properties that range over
    "every value of a type" range over these records. *)
Module Typed.

Definition of_option_str (o : option string) : value :=
  match o with Some s => VStr s | None => VNone end.

Definition of_option_bool (o : option bool) : value :=
  match o with Some b => VBool b | None => VNone end.

(** [LatLng]: a pair of floats. *)
Definition LatLng : Type := (Q * Q)%type.

Definition of_LatLng (p : LatLng) : value := VTuple [VFloat (fst p); VFloat (snd p)].

Record CircularArea : Type := {
  ca_center : LatLng;
  ca_radius : Z
}.


Definition of_CircularArea (x : CircularArea) : value :=
  VInst "CircularArea"
        [("center", of_LatLng (ca_center x)); ("radius", VInt (ca_radius x))].

Record RectangularArea : Type := {
  ra_south_west : LatLng;
  ra_north_east : LatLng
}.

Definition of_RectangularArea (x : RectangularArea) : value :=
  VInst "RectangularArea"
        [("south_west", of_LatLng (ra_south_west x));
         ("north_east", of_LatLng (ra_north_east x))].

Record LocalizedString : Type := {
  ls_text : string;
  ls_language_code : string
}.

Definition of_LocalizedString (x : LocalizedString) : value :=
  VInst "LocalizedString"
        [("text", VStr (ls_text x)); ("language_code", VStr (ls_language_code x))].

Record AddressComponent : Type := {
  ac_long_text : string;
  ac_short_text : string;
  ac_types : list string;
  ac_language_code : string
}.


Record PlusCode : Type := {
  pc_global_code : string;
  pc_compound_code : string
}.


Record AuthorAttribution : Type := {
  aa_display_name : string;
  aa_uri : option string;
  aa_photo_uri : option string
}.

Definition of_AuthorAttribution (x : AuthorAttribution) : value :=
  VInst "AuthorAttribution"
        [("display_name", VStr (aa_display_name x));
         ("uri", of_option_str (aa_uri x));
         ("photo_uri", of_option_str (aa_photo_uri x))].

Record ParkingOptions : Type := {
  po_free_garage_parking : option bool;
  po_free_parking_lot : option bool;
  po_free_street_parking : option bool;
  po_paid_garage_parking : option bool;
  po_paid_parking_lot : option bool;
  po_paid_street_parking : option bool;
  po_valet_parking : option bool
}.

Definition of_ParkingOptions (x : ParkingOptions) : value :=
  VInst "ParkingOptions"
        [("free_garage_parking", of_option_bool (po_free_garage_parking x));
         ("free_parking_lot", of_option_bool (po_free_parking_lot x));
         ("free_street_parking", of_option_bool (po_free_street_parking x));
         ("paid_garage_parking", of_option_bool (po_paid_garage_parking x));
         ("paid_parking_lot", of_option_bool (po_paid_parking_lot x));
         ("paid_street_parking", of_option_bool (po_paid_street_parking x));
         ("valet_parking", of_option_bool (po_valet_parking x))].

Record PaymentOptions : Type := {
  pay_accepts_cash_only : option bool;
  pay_accepts_credit_cards : option bool;
  pay_accepts_debit_cards : option bool;
  pay_accepts_nfc : option bool
}.

Definition of_PaymentOptions (x : PaymentOptions) : value :=
  VInst "PaymentOptions"
        [("accepts_cash_only", of_option_bool (pay_accepts_cash_only x));
         ("accepts_credit_cards", of_option_bool (pay_accepts_credit_cards x));
         ("accepts_debit_cards", of_option_bool (pay_accepts_debit_cards x));
         ("accepts_nfc", of_option_bool (pay_accepts_nfc x))].

Record Review : Type := {
  rv_name : string;
  rv_relative_publish_time_description : string;
  rv_rating : Z;
  rv_text : LocalizedString;
  rv_original_text : LocalizedString;
  rv_author_attribution : AuthorAttribution;
  rv_publish_time : datetime_t
}.

Definition of_Review (x : Review) : value :=
  VInst "Review"
        [("name", VStr (rv_name x));
         ("relative_publish_time_description",
          VStr (rv_relative_publish_time_description x));
         ("rating", VInt (rv_rating x));
         ("text", of_LocalizedString (rv_text x));
         ("original_text", of_LocalizedString (rv_original_text x));
         ("author_attribution", of_AuthorAttribution (rv_author_attribution x));
         ("publish_time", VDateTime (rv_publish_time x))].

(** The [Place] with every field absent: [Place()]. *)
Definition empty_Place : value :=
  VInst "Place" (map (fun name => (name, VNone)) places.Place.field_names).

(** A [Photo] with the given resource name. *)
Definition of_Photo (name : string) (height width : Z)
           (authors : list AuthorAttribution) : value :=
  VInst "Photo"
        [("name", VStr name); ("height", VInt height); ("width", VInt width);
         ("authot_attributions", VList (map of_AuthorAttribution authors))].

(** What the annotation of [OpeningHours.periods] asks for: a side of a
    pair is [None] or a time of day, *)
Definition time_or_none (v : value) : bool :=
  match v with
  | VNone => true
  | VTime h m => (0 <=? h) && (h <=? 23) && (0 <=? m) && (m <=? 59)
  | _ => false
  end.

(** a period is a pair of such sides, *)
Definition opening_pair (v : value) : bool :=
  match v with
  | VTuple [s; e] => time_or_none s && time_or_none e
  | _ => false
  end.

(** and there is one list of periods for each of the seven days. *)
Definition week (periods : list (list value)) : bool :=
  Nat.eqb (length periods) 7 && forallb (forallb opening_pair) periods.

End Typed.

(* ------------------------------------------------------------------------- *)
(** ** Wire values *)
(* ------------------------------------------------------------------------- *)

(** The wire objects of the opening hours, as the API sends them. *)
Module Wire.

(** [{"day": day, "hour": hour, "minute": minute}] *)
Definition point (day hour minute : Z) : value :=
  VDict [("day", VInt day); ("hour", VInt hour); ("minute", VInt minute)].

(** [{"open": open, "close": close}] *)
Definition period (open close : value) : value :=
  VDict [("open", open); ("close", close)].

(** [{"open": open}]: a period with no [close] key. *)
Definition open_only (open : value) : value :=
  VDict [("open", open)].

(** [{"weekdayDescriptions": descriptions, "periods": periods}] *)
Definition opening_hours (descriptions : value) (periods : list value) : value :=
  VDict [("weekdayDescriptions", descriptions); ("periods", VList periods)].

(** Seven buckets, Monday first, empty but for those [fill] fills. *)
Definition buckets (fill : Z -> list value) : list (list value) :=
  map fill (Py.range 0 7).

(** A JSON object with the keys [ks] and no other. *)
Definition record (ks : list string) (w : value) : bool :=
  Py.json_value w &&
  match w with
  | VDict d => Py.has_keys ks d
  | _ => false
  end.

(** A JSON object with the keys [ks] and no other, each with a value of the
    type given with the key. *)
Definition typed_record (ks : list (string * hint)) (w : value) : bool :=
  record (map fst ks) w &&
  match w with
  | VDict d =>
      forallb (fun kh => serde.conforms (snd kh) (Flat.lookup (fst kh) d)) ks
  | _ => false
  end.

(** [{"latitude": ..., "longitude": ...}], two floats *)
Definition lat_lng (w : value) : bool :=
  typed_record [("latitude", TFloat); ("longitude", TFloat)] w.



(** A wire author attribution with all its keys: a string for the name, a
    string or null for the two others. *)
Definition author_attribution (w : value) : bool :=
  typed_record [("displayName", TStr); ("uri", TOptional TStr);
                ("photoUri", TOptional TStr)] w.

(** A wire photo: its four keys, a string for the name and integers for
    the sizes, the last key with a list of author attributions that have
    all their keys. *)
Definition photo (w : value) : bool :=
  record ["name"; "widthPx"; "heightPx"; "authorAttributions"] w &&
  match Py.getitem w "name", Py.getitem w "widthPx", Py.getitem w "heightPx" with
  | Ok name, Ok width, Ok height =>
      serde.conforms TStr name && serde.conforms TInt width
      && serde.conforms TInt height
  | _, _, _ => false
  end &&
  match Py.getitem w "authorAttributions" with
  | Ok (VList authors) => forallb author_attribution authors
  | _ => false
  end.

(** The keys the API has for the fields of a [Place], in the order of the
    fields. *)
Definition place_keys : list string :=
  ["id"; "name";
   "accessibilityOptions"; "addressComponents"; "adrFormatAddress";
   "businessStatus"; "displayName"; "formattedAddress"; "googleMapsUri";
   "iconBackgroundColor"; "iconMaskBaseUri"; "location"; "photos";
   "plusCode"; "primaryType"; "primaryTypeDisplayName";
   "shortFormattedAddress"; "types"; "utcOffsetMinutes"; "viewport";
   "currentOpeningHours"; "currentSecondaryOpeningHours";
   "internationalPhoneNumber"; "nationalPhoneNumber"; "priceLevel";
   "rating"; "regularOpeningHours"; "regularSecondaryOpeningHours";
   "userRatingCount"; "websiteUri";
   "allowsDogs"; "curbsidePickup"; "delivery"; "dineIn"; "goodForChildren";
   "goodForGroups"; "goodForWatchingSports"; "liveMusic"; "menuForChildren";
   "parkingOptions"; "paymentOptions"; "outdoorSeating"; "reservable";
   "restroom"; "reviews"; "servesBeer"; "servesBreakfast"; "servesBrunch";
   "servesCocktails"; "servesCoffee"; "servesDesserts"; "servesDinner";
   "servesLunch"; "servesVegetarianFood"; "servesWine"; "takeout"].

(** The wire review that carries the fields of [r], with the publication
    time written as [publish_time]. *)
Definition review (r : Typed.Review) (publish_time : string) : value :=
  VDict [("name", VStr (Typed.rv_name r));
         ("relativePublishTimeDescription",
          VStr (Typed.rv_relative_publish_time_description r));
         ("rating", VInt (Typed.rv_rating r));
         ("text",
          VDict [("text", VStr (Typed.ls_text (Typed.rv_text r)));
                 ("languageCode",
                  VStr (Typed.ls_language_code (Typed.rv_text r)))]);
         ("originalText",
          VDict [("text", VStr (Typed.ls_text (Typed.rv_original_text r)));
                 ("languageCode",
                  VStr (Typed.ls_language_code (Typed.rv_original_text r)))]);
         ("authorAttribution",
          VDict [("displayName",
                  VStr (Typed.aa_display_name (Typed.rv_author_attribution r)));
                 ("uri",
                  Typed.of_option_str (Typed.aa_uri (Typed.rv_author_attribution r)));
                 ("photoUri",
                  Typed.of_option_str
                    (Typed.aa_photo_uri (Typed.rv_author_attribution r)))]);
         ("publishTime", VStr publish_time)].

(** The names the API has for the price levels and the business statuses. *)
Definition price_levels : list string :=
  ["PRICE_LEVEL_UNSPECIFIED"; "PRICE_LEVEL_FREE"; "PRICE_LEVEL_INEXPENSIVE";
   "PRICE_LEVEL_MODERATE"; "PRICE_LEVEL_EXPENSIVE"; "PRICE_LEVEL_VERY_EXPENSIVE"].


(** The period has no [close] key, or has [None] there. *)
Definition lacks_close (period : value) : bool :=
  match Py.get period "close" with
  | Ok VNone => true
  | _ => false
  end.

(** The place is open around the clock: every bucket holds the one pair
    [(None, None)]. *)
Definition always_open : list (list value) :=
  buckets (fun _ => [VTuple [VNone; VNone]]).

(** What the decoder raises when a period without [close] is not alone. *)
Definition report_bug : exn :=
  RuntimeError "If you see this message, please report it as a bug.".

(** A time of day that [datetime.time] accepts. *)
Definition valid_time (hour minute : Z) : Prop :=
  0 <= hour <= 23 /\ 0 <= minute <= 59.

End Wire.

(* ------------------------------------------------------------------------- *)
(** ** Responses *)
(* ------------------------------------------------------------------------- *)

Module Response.

(** What a method does with a response that is not a 200: it raises the
    [APIError] made of the status code and of the [message], [status] and
    [details] of the body, when the body is an object; a body that is a
    list has no [get]. *)
Definition raises_APIError (k : Z -> value -> result value) : Prop :=
  forall status, status <> 200 ->
    (forall d, k status (VDict d)
               = Raise (APIError {| status_code := status;
                                    message := Flat.lookup "message" d;
                                    status := Flat.lookup "status" d;
                                    details := Flat.lookup "details" d |}))
    /\ (forall l, k status (VList l) = Raise AttributeError).

End Response.

(* ------------------------------------------------------------------------- *)
(** ** Round trips *)
(* ------------------------------------------------------------------------- *)

(** [from_api_format(to_api_format(x)) == x] for every value [x] of a type:
    the value is encoded, and the wire value decodes to the same value. *)
Definition domain_round_trip {T : Type} (embed : T -> value) (valid : T -> Prop)
           (to_api_format from_api_format : value -> result value) : Prop :=
  forall x, valid x ->
    exists w, to_api_format (embed x) = Ok w /\ from_api_format w = Ok (embed x).

(** [to_api_format(from_api_format(w)) == w] for every wire value [w] that
    is well formed: the wire value is decoded, and the value is encoded to
    an equal wire value. *)
Definition wire_round_trip (well_formed : value -> bool)
           (from_api_format to_api_format : value -> result value) : Prop :=
  forall w, well_formed w = true ->
    exists x w',
      from_api_format w = Ok x /\ to_api_format x = Ok w' /\ Py.eq w' w = true.

Definition any {T : Type} (x : T) : Prop := True.

(* ------------------------------------------------------------------------- *)
(** * Properties *)
(* ------------------------------------------------------------------------- *)

(** A value that conforms to the hint passes the check of [pyserde]. *)
Ltac accept_checks :=
  repeat match goal with
         | |- context [type_check ?t ?v] =>
             rewrite (type_check_accepts t v) by (vm_compute; reflexivity)
         end.

(** Computing through the checks of values that conform. *)
Ltac compute_checked :=
  repeat (cbv -[type_check]; progress accept_checks); cbv -[type_check].

(** ** casefy on the names of the wire format *)

Example snakecase_languageCode `{Casefy} : casefy.snakecase "languageCode" = "language_code".
Proof. reflexivity. Qed.

Example camelcase_language_code `{Casefy} : casefy.camelcase "language_code" = "languageCode".
Proof. reflexivity. Qed.

Example camelcase_accepts_nfc `{Casefy} : casefy.camelcase "accepts_nfc" = "acceptsNfc".
Proof. reflexivity. Qed.

Example snakecase_futureField `{Casefy} : casefy.snakecase "futureField" = "future_field".
Proof. reflexivity. Qed.

Example camelcase_fields `{Casefy} :
  map casefy.camelcase
      ["display_name"; "photo_uri"; "long_text"; "free_garage_parking"; "rating"]
  = ["displayName"; "photoUri"; "longText"; "freeGarageParking"; "rating"].
Proof. reflexivity. Qed.

Example snakecase_keys `{Casefy} :
  map casefy.snakecase
      ["displayName"; "photoUri"; "longText"; "freeGarageParking"; "rating";
       "primaryTypeDisplayName"]
  = ["display_name"; "photo_uri"; "long_text"; "free_garage_parking"; "rating";
     "primary_type_display_name"].
Proof. reflexivity. Qed.

(** ** The decoders at work *)

Example CircularArea_radius_checked `{Serde} :
  places.CircularArea.new (VTuple [VFloat (45 # 1); VFloat (9 # 1)]) (VInt 0)
  = Raise (ValueError "Radius must be between 1 and 50,000 meters.")
  /\ places.CircularArea.new (VTuple [VFloat (45 # 1); VFloat (9 # 1)]) (VInt 50001)
     = Raise (ValueError "Radius must be between 1 and 50,000 meters.")
  /\ places.CircularArea.new (VTuple [VFloat (45 # 1); VFloat (9 # 1)]) (VInt 50000)
     = Ok (VInst "CircularArea"
             [("center", VTuple [VFloat (45 # 1); VFloat (9 # 1)]);
              ("radius", VInt 50000)]).
Proof. repeat split; compute_checked; reflexivity. Qed.

Example OpeningHours_two_periods :
  places.OpeningHours.from_api_format
    (Wire.opening_hours (VList [VStr "Monday: 9-12, 14-18"])
       [Wire.period (Wire.point 1 9 0) (Wire.point 1 12 0);
        Wire.period (Wire.point 1 14 0) (Wire.point 1 18 0);
        Wire.period (Wire.point 5 22 0) (Wire.point 6 3 30)])
  = Ok (places.OpeningHours.new
          [[VTuple [VTime 9 0; VTime 12 0]; VTuple [VTime 14 0; VTime 18 0]];
           []; []; [];
           [VTuple [VTime 22 0; VNone]];
           [VTuple [VNone; VTime 3 30]];
           []]
          (VList [VStr "Monday: 9-12, 14-18"])).
Proof. vm_compute. reflexivity. Qed.

Example OpeningHours_bad_hour :
  places.OpeningHours.from_api_format
    (Wire.opening_hours (VList [])
       [Wire.period (Wire.point 1 24 0) (Wire.point 1 12 0)])
  = Raise (ValueError "hour must be in 0..23").
Proof. vm_compute. reflexivity. Qed.

Example Place_decoded `{Casefy} `{Serde} :
  exists fs,
    @places.Place.from_api_format _ _ parse_nothing
      (VDict [("id", VStr "ChIJ");
              ("displayName",
               VDict [("text", VStr "Duomo"); ("languageCode", VStr "it")]);
              ("businessStatus", VStr "OPERATIONAL");
              ("priceLevel", VStr "PRICE_LEVEL_MODERATE");
              ("location",
               VDict [("latitude", VFloat (45 # 1)); ("longitude", VFloat (9 # 1))]);
              ("dineIn", VBool true)])
    = Ok (VInst "Place" fs)
    /\ Py.dict_get "id" fs = Some (VStr "ChIJ")
    /\ Py.dict_get "display_name" fs
       = Some (VInst "LocalizedString"
                 [("text", VStr "Duomo"); ("language_code", VStr "it")])
    /\ Py.dict_get "business_status" fs = Some (VBusinessStatus OPERATIONAL)
    /\ Py.dict_get "price_level" fs = Some (VPriceLevel MODERATE)
    /\ Py.dict_get "location" fs
       = Some (VTuple [VFloat (45 # 1); VFloat (9 # 1)])
    /\ Py.dict_get "dine_in" fs = Some (VBool true)
    /\ Py.dict_get "rating" fs = Some VNone.
Proof.
  eexists. split; [compute_checked; reflexivity |].
  repeat split; vm_compute; reflexivity.
Qed.

Example Place_bad_value `{Casefy} `{Serde} :
  @places.Place.from_api_format _ _ parse_nothing
    (VDict [("businessStatus", VStr "OPEN")])
  = Raise (ValueError "'open' is not a valid BusinessStatus").
Proof. vm_compute. reflexivity. Qed.

(** ** APIError *)

(** C8: [APIError.from_api_response] built from the status code 400 and the
    body [{"message": "Invalid argument", "status": "INVALID_ARGUMENT"}]
    carries the code, the message and the status unchanged (and so for any
    code, message and status); built from any code and the empty body it has
    [message], [status] and [details] all [None], nothing is raised, and its
    rendering is ["APIError: Unknown error"], which contains
    ["Unknown error"]. *)
Theorem APIError_from_api_response_fields `{StrBuiltin} :
  _exceptions.APIError.from_api_response 400
    (VDict [("message", VStr "Invalid argument");
            ("status", VStr "INVALID_ARGUMENT")])
  = Ok {| status_code := 400; message := VStr "Invalid argument";
          status := VStr "INVALID_ARGUMENT"; details := VNone |}
  /\ (forall (code : Z) (msg st : value),
        _exceptions.APIError.from_api_response code
          (VDict [("message", msg); ("status", st)])
        = Ok {| status_code := code; message := msg; status := st;
                details := VNone |})
  /\ (forall code : Z,
        exists e,
          _exceptions.APIError.from_api_response code (VDict []) = Ok e
          /\ status_code e = code
          /\ message e = VNone /\ status e = VNone /\ details e = VNone
          /\ _exceptions.APIError.__str__ e = "APIError: Unknown error"
          /\ Str.contains "Unknown error" (_exceptions.APIError.__str__ e) = true).
Proof.
  split; [reflexivity | split].
  - intros code msg st. reflexivity.
  - intros code.
    exists {| status_code := code; message := VNone; status := VNone;
              details := VNone |}.
    repeat split; reflexivity.
Qed.

(** ** The field mask *)

Lemma mem_In (s : string) (l : list string) : Str.mem s l = true <-> In s l.
Proof.
  unfold Str.mem. rewrite existsb_exists. split.
  - intros (x & Hin & Heq). apply String.eqb_eq in Heq. subst. exact Hin.
  - intros Hin. exists s. split; [exact Hin | apply String.eqb_refl].
Qed.

Lemma mem_false (s : string) (l : list string) : Str.mem s l = false <-> ~ In s l.
Proof.
  destruct (Str.mem s l) eqn:E.
  - split; [discriminate | intros Hn; exfalso; apply Hn, mem_In, E].
  - split; [intros _ Hin; apply mem_In in Hin; congruence | reflexivity].
Qed.

Lemma dedup_In (x : string) (l : list string) : In x (places.dedup l) <-> In x l.
Proof.
  induction l as [|a l IH]; simpl; [tauto|].
  destruct (Str.mem a l) eqn:E.
  - rewrite IH. apply mem_In in E. split; [tauto|].
    intros [-> | Hin]; assumption.
  - simpl. rewrite IH. tauto.
Qed.

Lemma dedup_NoDup (l : list string) : NoDup (places.dedup l).
Proof.
  induction l as [|a l IH]; simpl; [constructor|].
  destruct (Str.mem a l) eqn:E; [exact IH|].
  constructor; [|exact IH].
  rewrite dedup_In. apply mem_false. exact E.
Qed.

Section SetOrderFacts.
Context {CF : Casefy} `{SetOrder}.

Lemma set_iter_nil : set_iter [] = [].
Proof.
  apply Permutation_nil. apply Permutation_sym. apply set_iter_perm.
Qed.

Lemma set_iter_singleton (x : string) : set_iter [x] = [x].
Proof.
  apply Permutation_length_1_inv. apply Permutation_sym. apply set_iter_perm.
Qed.

Lemma set_iter_In (x : string) (l : list string) : In x (set_iter l) <-> In x l.
Proof.
  split; apply Permutation_in;
    [apply set_iter_perm | apply Permutation_sym, set_iter_perm].
Qed.

Lemma set_iter_NoDup (l : list string) : NoDup l -> NoDup (set_iter l).
Proof.
  apply Permutation_NoDup. apply Permutation_sym, set_iter_perm.
Qed.

Lemma valid_fields_eq : dataclasses.field_names places.Place.fields = places.Place.field_names.
Proof. reflexivity. Qed.

(** What [create_field_mask] can do. *)
Lemma create_field_mask_cases (fields : list string) (add_prefix : bool) :
  let fs := set_iter (places.dedup fields) in
  let bad := set_iter (filter (fun f => negb (Str.mem f places.Place.field_names)) fs) in
  places.create_field_mask fields add_prefix =
  match fs with
  | [] => Raise (ValueError "At least one field must be provided.")
  | _ =>
      if Str.mem "*" fs then Ok "*"
      else match bad with
           | [] => Ok (Str.join "," (map (fun f => places._to_api_name f add_prefix) fs))
           | _ => Raise (ValueError ("Invalid field(s): " ++ Str.join ", " bad)%string)
           end
  end.
Proof.
  intros fs bad. unfold places.create_field_mask. fold fs.
  rewrite valid_fields_eq. fold bad.
  destruct fs as [|f fs']; [reflexivity|]. cbn [length Nat.eqb].
  destruct (Str.mem "*" (f :: fs')); [reflexivity|].
  destruct bad; reflexivity.
Qed.
End SetOrderFacts.

Section FieldMask.
Context {CF : Casefy} `{SetOrder}.

Lemma create_field_mask_rating :
  places.create_field_mask ["rating"] true = Ok "places.rating".
Proof.
  rewrite create_field_mask_cases. cbn [places.dedup Str.mem existsb].
  rewrite set_iter_singleton. cbn. rewrite set_iter_nil. reflexivity.
Qed.

(** C3: [create_field_mask] raises a [ValueError] on no field at all; gives
    ["*"] back for the set [{"*"}] (and whenever ["*"] is among the fields);
    raises a [ValueError] whose message lists, after ["Invalid field(s): "]
    and joined by [", "], exactly the requested names that are no field of
    [Place], each once, when there is such a name and no ["*"]; gives
    ["places.rating"] for [{"rating"}] with the prefix; and for known fields
    gives the comma-joined API names of the fields, in the order the set is
    iterated.  The API name of a field is its name in camel case, after
    [places.] with the prefix: the API names of the 56 fields are the keys
    the API has for them, so the mask of [display_name] is
    ["places.displayName"], and the mask of [display_name] and [rating] is
    ["places.displayName,places.rating"] or
    ["places.rating,places.displayName"]. *)
Theorem create_field_mask_spec :
  (forall add_prefix,
      places.create_field_mask [] add_prefix
      = Raise (ValueError "At least one field must be provided."))
  /\ places.create_field_mask ["*"] true = Ok "*"
  /\ (forall fields add_prefix,
        In "*" fields -> places.create_field_mask fields add_prefix = Ok "*")
  /\ (forall fields add_prefix,
        ~ In "*" fields ->
        (exists f, In f fields /\ ~ In f places.Place.field_names) ->
        exists names,
          places.create_field_mask fields add_prefix
          = Raise (ValueError ("Invalid field(s): " ++ Str.join ", " names)%string)
          /\ NoDup names
          /\ forall f, In f names <-> In f fields /\ ~ In f places.Place.field_names)
  /\ (forall add_prefix,
        places.create_field_mask ["unknown_field"] add_prefix
        = Raise (ValueError "Invalid field(s): unknown_field"))
  /\ places.create_field_mask ["rating"] true = Ok "places.rating"
  /\ (forall fields add_prefix,
        fields <> [] ->
        (forall f, In f fields -> In f places.Place.field_names) ->
        exists order,
          Permutation order (places.dedup fields)
          /\ places.create_field_mask fields add_prefix
             = Ok (Str.join ","
                     (map (fun f => places._to_api_name f add_prefix) order)))
  /\ map (fun f => places._to_api_name f false) places.Place.field_names
     = Wire.place_keys
  /\ map (fun f => places._to_api_name f true) places.Place.field_names
     = map (fun key => ("places." ++ key)%string) Wire.place_keys
  /\ places.create_field_mask ["display_name"] true = Ok "places.displayName"
  /\ places.create_field_mask ["display_name"] false = Ok "displayName"
  /\ (places.create_field_mask ["display_name"; "rating"] true
      = Ok "places.displayName,places.rating"
      \/ places.create_field_mask ["display_name"; "rating"] true
         = Ok "places.rating,places.displayName").
Proof.
  assert (Hstar : forall fields add_prefix,
             In "*" fields -> places.create_field_mask fields add_prefix = Ok "*").
  { intros fields add_prefix Hin. rewrite create_field_mask_cases. cbv zeta.
    assert (Hin' : In "*" (set_iter (places.dedup fields)))
      by (apply set_iter_In, dedup_In, Hin).
    destruct (set_iter (places.dedup fields)) as [|f fs] eqn:E; [contradiction|].
    apply mem_In in Hin'. rewrite Hin'. reflexivity. }
  assert (Hone : forall f add_prefix,
             Str.mem f places.Place.field_names = true ->
             places.create_field_mask [f] add_prefix
             = Ok (places._to_api_name f add_prefix)).
  { intros f add_prefix Hf. rewrite create_field_mask_cases.
    cbn [places.dedup Str.mem existsb]. rewrite set_iter_singleton.
    assert (Hs : Str.mem "*" [f] = false).
    { apply mem_false. intros [-> | []]. vm_compute in Hf. discriminate. }
    rewrite Hs. cbn [filter]. rewrite Hf. cbn [negb].
    rewrite set_iter_nil. reflexivity. }
  split; [| split; [| split; [| split; [| split; [| split; [| split; [| split; [| split; [| split; [| split]]]]]]]]]].
  - intros add_prefix. rewrite create_field_mask_cases. cbn [places.dedup].
    rewrite set_iter_nil. reflexivity.
  - apply Hstar. left. reflexivity.
  - exact Hstar.
  - intros fields add_prefix Hnostar (f & Hf & Hbad).
    rewrite create_field_mask_cases. cbv zeta.
    set (fs := set_iter (places.dedup fields)).
    set (bad := set_iter (filter (fun f => negb (Str.mem f places.Place.field_names)) fs)).
    assert (Hfs : forall x, In x fs <-> In x fields).
    { intros x. unfold fs. rewrite set_iter_In, dedup_In. tauto. }
    assert (Hbad_iff : forall x, In x bad <-> In x fields /\ ~ In x places.Place.field_names).
    { intros x. unfold bad. rewrite set_iter_In, filter_In, Hfs.
      rewrite negb_true_iff, mem_false. tauto. }
    assert (Hnd : NoDup bad).
    { unfold bad. apply set_iter_NoDup, NoDup_filter.
      unfold fs. apply set_iter_NoDup, dedup_NoDup. }
    destruct fs as [|f0 fs'] eqn:Efs.
    { exfalso. apply (Hfs f). exact Hf. }
    assert (Hm : Str.mem "*" (f0 :: fs') = false).
    { apply mem_false. rewrite Hfs. exact Hnostar. }
    rewrite Hm.
    destruct bad as [|b0 bad'] eqn:Eb.
    { exfalso. apply (Hbad_iff f). split; assumption. }
    exists (b0 :: bad'). split; [reflexivity | split; assumption].
  - intros add_prefix. rewrite create_field_mask_cases.
    cbn [places.dedup Str.mem existsb]. rewrite set_iter_singleton. cbn.
    rewrite set_iter_singleton. reflexivity.
  - exact create_field_mask_rating.
  - intros fields add_prefix Hne Hvalid.
    rewrite create_field_mask_cases. cbv zeta.
    set (fs := set_iter (places.dedup fields)).
    assert (Hfs : forall x, In x fs <-> In x fields).
    { intros x. unfold fs. rewrite set_iter_In, dedup_In. tauto. }
    exists fs. split; [apply set_iter_perm|].
    destruct fs as [|f0 fs'] eqn:Efs.
    { exfalso. destruct fields as [|x xs]; [congruence|].
      apply (Hfs x). left. reflexivity. }
    assert (Hm : Str.mem "*" (f0 :: fs') = false).
    { apply mem_false. rewrite Hfs. intros Hin. apply Hvalid in Hin.
      apply mem_In in Hin. vm_compute in Hin. discriminate. }
    rewrite Hm.
    assert (Hnil : filter (fun f => negb (Str.mem f places.Place.field_names)) (f0 :: fs') = []).
    { assert (Hall : forall l, (forall x, In x l -> In x fields) ->
                filter (fun f => negb (Str.mem f places.Place.field_names)) l = []).
      { induction l as [|x xs IH]; intros Hl; [reflexivity|].
        cbn [filter].
        assert (Hx : Str.mem x places.Place.field_names = true).
        { apply mem_In, Hvalid, Hl. left. reflexivity. }
        rewrite Hx. cbn [negb]. apply IH. intros y Hy. apply Hl. right. exact Hy. }
      apply Hall. intros x Hx. apply Hfs. exact Hx. }
    rewrite Hnil, set_iter_nil. reflexivity.
  - vm_compute. reflexivity.
  - vm_compute. reflexivity.
  - rewrite Hone by reflexivity. reflexivity.
  - rewrite Hone by reflexivity. reflexivity.
  - rewrite create_field_mask_cases. cbv zeta.
    change (places.dedup ["display_name"; "rating"])
      with ["display_name"; "rating"].
    pose proof (set_iter_perm ["display_name"; "rating"]) as Hp.
    apply Permutation_sym, Permutation_length_2_inv in Hp.
    destruct Hp as [-> | ->]; [left | right];
      cbn [Str.mem existsb String.eqb Ascii.eqb Bool.eqb orb filter negb];
      change (Str.mem "display_name" places.Place.field_names) with true;
      change (Str.mem "rating" places.Place.field_names) with true;
      cbn [negb]; rewrite set_iter_nil; reflexivity.
Qed.

End FieldMask.

Lemma create_field_mask_spec_witness :
  In "*" ["rating"; "*"]
  /\ @places.create_field_mask other_strings_kept insertion_order
       ["rating"; "*"] true = Ok "*".
Proof.
  split; [right; left; reflexivity |].
  apply (proj1 (proj2 (proj2 (@create_field_mask_spec other_strings_kept
                                insertion_order)))).
  right; left; reflexivity.
Defined.

(** ** The client *)

Lemma andb_range_false (lo hi x : Z) :
  ~ (lo <= x <= hi) -> (lo <=? x) && (x <=? hi) = false.
Proof.
  intros Hout. destruct (lo <=? x) eqn:E1; destruct (x <=? hi) eqn:E2;
    try reflexivity.
  exfalso. apply Hout. split; [apply Z.leb_le | apply Z.leb_le]; assumption.
Qed.

Lemma andb_range_true (lo hi x : Z) :
  lo <= x <= hi -> (lo <=? x) && (x <=? hi) = true.
Proof.
  intros [H1 H2]. apply andb_true_intro.
  split; apply Z.leb_le; assumption.
Qed.

(** C6: [get_photo_uri] ends with a [ValueError] before anything is sent
    when neither bound is given, and when a given bound is outside
    [[1, 4800]] (so for [max_width=5000]); when both bounds are given and in
    range, the request it sends has the query parameters [skipHttpRedirect]
    and [maxWidthPx] only, and no [maxHeightPx] (so for [max_width=100],
    [max_height=200]). *)
Theorem get_photo_uri_bounds (self : _client.Client.t) :
  (forall photo,
      _client.Client.get_photo_uri self photo None None
      = _client.Done (Raise (ValueError
          "At least one of max_width and max_height must be provided.")))
  /\ (forall photo w max_height,
        ~ (1 <= w <= 4800) ->
        _client.Client.get_photo_uri self photo (Some w) max_height
        = _client.Done (Raise (ValueError
            "The maximum width must be between 1 and 4800.")))
  /\ (forall photo max_width h,
        ~ (1 <= h <= 4800) ->
        exists msg,
          _client.Client.get_photo_uri self photo max_width (Some h)
          = _client.Done (Raise (ValueError msg)))
  /\ (forall photo,
        _client.Client.get_photo_uri self photo (Some 5000) None
        = _client.Done (Raise (ValueError
            "The maximum width must be between 1 and 4800.")))
  /\ (forall name height width authors w h,
        1 <= w <= 4800 -> 1 <= h <= 4800 ->
        exists req k,
          _client.Client.get_photo_uri self
            (Typed.of_Photo name height width authors) (Some w) (Some h)
          = _client.Send req k
          /\ _client.params req
             = Some [("skipHttpRedirect", VStr "true"); ("maxWidthPx", VInt w)]
          /\ (forall ps, _client.params req = Some ps ->
                         Py.dict_get "maxHeightPx" ps = None))
  /\ (forall name height width authors,
        exists req k,
          _client.Client.get_photo_uri self
            (Typed.of_Photo name height width authors) (Some 100) (Some 200)
          = _client.Send req k
          /\ _client.params req
             = Some [("skipHttpRedirect", VStr "true"); ("maxWidthPx", VInt 100)]).
Proof.
  assert (Hboth : forall name height width authors w h,
             1 <= w <= 4800 -> 1 <= h <= 4800 ->
             exists req k,
               _client.Client.get_photo_uri self
                 (Typed.of_Photo name height width authors) (Some w) (Some h)
               = _client.Send req k
               /\ _client.params req
                  = Some [("skipHttpRedirect", VStr "true");
                          ("maxWidthPx", VInt w)]).
  { intros name height width authors w h Hw Hh.
    unfold _client.Client.get_photo_uri. cbn.
    rewrite (andb_range_true _ _ _ Hw), (andb_range_true _ _ _ Hh). cbn.
    eexists. eexists. split; reflexivity. }
  split; [| split; [| split; [| split; [| split]]]].
  - intros photo. reflexivity.
  - intros photo w max_height Hw.
    unfold _client.Client.get_photo_uri. cbn.
    rewrite (andb_range_false _ _ _ Hw). reflexivity.
  - intros photo max_width h Hh.
    unfold _client.Client.get_photo_uri.
    destruct max_width as [w|]; cbn.
    + destruct ((1 <=? w) && (w <=? 4800)); cbn.
      * rewrite (andb_range_false _ _ _ Hh). cbn. eexists. reflexivity.
      * eexists. reflexivity.
    + rewrite (andb_range_false _ _ _ Hh). cbn. eexists. reflexivity.
  - intros photo. reflexivity.
  - intros name height width authors w h Hw Hh.
    destruct (Hboth name height width authors w h Hw Hh) as (req & k & Heq & Hps).
    exists req, k. repeat split; try assumption.
    intros ps Hps'. rewrite Hps in Hps'. injection Hps' as <-. reflexivity.
  - intros name height width authors.
    apply (Hboth name height width authors 100 200); lia.
Qed.

Lemma get_photo_uri_bounds_witness :
  1 <= 100 <= 4800 /\ 1 <= 200 <= 4800 /\
  exists req k,
    _client.Client.get_photo_uri (_client.Client.mk_Client "AIzaKey")
      (Typed.of_Photo "places/p/photos/q" 300 400 []) (Some 100) (Some 200)
    = _client.Send req k
    /\ _client.params req
       = Some [("skipHttpRedirect", VStr "true"); ("maxWidthPx", VInt 100)]
    /\ (forall ps, _client.params req = Some ps ->
                   Py.dict_get "maxHeightPx" ps = None).
Proof.
  split; [lia | split; [lia |]].
  apply (proj1 (proj2 (proj2 (proj2 (proj2
           (get_photo_uri_bounds (_client.Client.mk_Client "AIzaKey")))))));
    lia.
Defined.


Section TextSearch.
Context {CF : Casefy} {SD : Serde} `{SetOrder} `{DateUtil}.
Variable self : _client.Client.t.
Variables (fields : list string) (included_type : option string)
          (language_code : string) (next_page_token : option string)
          (open_now : bool) (rank_by : string).

(** The method with the arguments that no check reads held fixed. *)
Local Abbreviation search query bias_area restrict_area page_size min_rating
      price_levels :=
  (_client.Client.search_places_by_text self query fields included_type
     language_code bias_area restrict_area page_size next_page_token min_rating
     open_now price_levels rank_by).

Lemma create_field_mask_outcome (fs : list string) (p : bool) :
  (exists m, places.create_field_mask fs p = Ok m)
  \/ places.create_field_mask fs p
     = Raise (ValueError "At least one field must be provided.")
  \/ (exists names, places.create_field_mask fs p
        = Raise (ValueError ("Invalid field(s): " ++ names)%string)).
Proof.
  rewrite create_field_mask_cases. cbv zeta.
  destruct (set_iter (places.dedup fs)) as [|f fs']; [right; left; reflexivity|].
  destruct (Str.mem "*" (f :: fs')); [left; eexists; reflexivity|].
  destruct (set_iter _); [left | right; right]; eexists; reflexivity.
Qed.

Lemma PriceLevel_FREE_in (l : list PriceLevel_t) :
  In FREE l -> existsb (Py.PriceLevel_eqb FREE) l = true.
Proof.
  intros Hin. apply existsb_exists. exists FREE. split; [exact Hin | reflexivity].
Qed.

Lemma rating_range_false (r : Q) :
  ~ (0 <= r /\ r <= 5)%Q -> Qle_bool 0 r && Qle_bool r 5 = false.
Proof.
  intros Hout. destruct (Qle_bool 0 r) eqn:E1; destruct (Qle_bool r 5) eqn:E2;
    try reflexivity.
  exfalso. apply Hout. split; apply Qle_bool_iff; assumption.
Qed.

Lemma rating_range_true (r : Q) :
  (0 <= r /\ r <= 5)%Q -> Qle_bool 0 r && Qle_bool r 5 = true.
Proof.
  intros [H1 H2]. apply andb_true_intro. split; apply Qle_bool_iff; assumption.
Qed.

Ltac search_cases :=
  unfold _client.raises_ValueError, _client.Client.search_places_by_text,
    _client.raise_if;
  repeat match goal with
         | |- context [Nat.eqb (String.length ?q) 0] =>
             destruct (Nat.eqb (String.length q) 0) eqn:?; cbn
         | |- context [_client.is_some ?o] => destruct o; cbn
         | |- context [negb ((0 <? ?p) && (?p <=? 20))] =>
             destruct (negb ((0 <? p) && (p <=? 20))) eqn:?; cbn
         | |- context [Qle_bool 0 ?r && Qle_bool ?r 5] =>
             destruct (Qle_bool 0 r && Qle_bool r 5) eqn:?; cbn
         | |- context [existsb (Py.PriceLevel_eqb FREE) ?l] =>
             destruct (existsb (Py.PriceLevel_eqb FREE) l) eqn:?; cbn
         | |- context [match ?o with Some _ => _ | None => _ end] =>
             is_var o; destruct o; cbn
         end.

Lemma getattr_raises (v : value) (n : string) (e : exn) :
  Py.getattr v n = Raise e -> e = AttributeError.
Proof.
  unfold Py.getattr. destruct v; try (intros [= <-]; reflexivity).
  - destruct (String.eqb n "name"); [discriminate|].
    destruct (String.eqb n "value"); [discriminate|]. intros [= <-]. reflexivity.
  - destruct (String.eqb n "name"); [discriminate|].
    destruct (String.eqb n "value"); [discriminate|]. intros [= <-]. reflexivity.
  - destruct (Py.dict_get n fields0); [discriminate|]. intros [= <-]. reflexivity.
Qed.

Lemma index_raises (n : nat) (i : Z) (e : exn) :
  Py.index n i = Raise e -> e = IndexError.
Proof.
  unfold Py.index. destruct ((0 <=? i) && (i <? Z.of_nat n)); [discriminate|].
  destruct ((- Z.of_nat n <=? i) && (i <? 0)); [discriminate|].
  intros [= <-]. reflexivity.
Qed.

Lemma getitem_int_raises (v : value) (i : Z) (e : exn) :
  Py.getitem_int v i = Raise e -> _client.not_ValueError e.
Proof.
  unfold Py.getitem_int. destruct v; try (intros [= <-]; exact I).
  - destruct (Py.index (String.length s) i) eqn:E; cbn.
    + destruct (String.get a s); [discriminate|]. intros [= <-]. exact I.
    + intros [= <-]. apply index_raises in E. subst. exact I.
  - destruct (Py.index (length l) i) eqn:E; cbn.
    + destruct (nth_error l a); [discriminate|]. intros [= <-]. exact I.
    + intros [= <-]. apply index_raises in E. subst. exact I.
  - destruct (Py.index (length l) i) eqn:E; cbn.
    + destruct (nth_error l a); [discriminate|]. intros [= <-]. exact I.
    + intros [= <-]. apply index_raises in E. subst. exact I.
Qed.

Ltac raise_step :=
  match goal with
  | |- bind (Py.getattr ?v ?n) _ = Raise _ -> _ =>
      let E := fresh "E" in
      destruct (Py.getattr v n) eqn:E; cbn [bind];
      [| intros [= <-]; apply getattr_raises in E; subst; exact I]
  | |- bind (Py.getitem_int ?v ?n) _ = Raise _ -> _ =>
      let E := fresh "E" in
      destruct (Py.getitem_int v n) eqn:E; cbn [bind];
      [| intros [= <-]; apply getitem_int_raises in E; exact E]
  end.

Lemma CircularArea_to_api_format_raises (v : value) (e : exn) :
  places.CircularArea.to_api_format v = Raise e -> _client.not_ValueError e.
Proof.
  unfold places.CircularArea.to_api_format. repeat raise_step. discriminate.
Qed.

Lemma RectangularArea_to_api_format_raises (v : value) (e : exn) :
  places.RectangularArea.to_api_format v = Raise e -> _client.not_ValueError e.
Proof.
  unfold places.RectangularArea.to_api_format. repeat raise_step. discriminate.
Qed.


Lemma page_size_range_false (page_size : Z) :
  ~ (1 <= page_size <= 20) -> negb ((0 <? page_size) && (page_size <=? 20)) = true.
Proof.
  intros Hout. apply negb_true_iff.
  destruct (0 <? page_size) eqn:E1; destruct (page_size <=? 20) eqn:E2;
    try reflexivity.
  apply Z.ltb_lt in E1. apply Z.leb_le in E2. lia.
Qed.

Ltac field_mask_cases :=
  destruct (create_field_mask_outcome fields true) as [[? Hm] | [Hm | [? Hm]]];
  rewrite Hm; cbn.

Ltac area_cases :=
  repeat match goal with
         | |- context [_client.isinstance ?v ?c] =>
             destruct (_client.isinstance v c) eqn:?; cbn
         | |- context [places.CircularArea.to_api_format ?v] =>
             let E := fresh "E" in
             destruct (places.CircularArea.to_api_format v) as [?|[]] eqn:E; cbn;
             try (apply CircularArea_to_api_format_raises in E; destruct E)
         | |- context [places.RectangularArea.to_api_format ?v] =>
             let E := fresh "E" in
             destruct (places.RectangularArea.to_api_format v) as [?|[]] eqn:E; cbn;
             try (apply RectangularArea_to_api_format_raises in E; destruct E)
         end.

(** With [min_rating=5.0] and the other arguments in order, the request is
    sent, and its body carries the rating. *)
Lemma search_places_by_text_rating_5 :
  exists k,
    _client.Client.search_places_by_text self "pizza" ["rating"] None "en"
      None None 20 None (Some 5%Q) false None "relevance"
    = _client.Send
        (_client.mk_request "POST"
           "https://places.googleapis.com/v1/places:searchText"
           [("X-Goog-Api-Key", VStr (_client.Client._api_key self));
            ("X-Goog-FieldMask", VStr "places.rating")]
           None
           (Some (VDict [("textQuery", VStr "pizza");
                         ("languageCode", VStr "en");
                         ("pageSize", VInt 20);
                         ("rankPreference", VStr "RELEVANCE");
                         ("openNow", VBool false);
                         ("minRating", VFloat 5%Q)])))
        k.
Proof.
  unfold _client.Client.search_places_by_text.
  rewrite create_field_mask_rating. cbn. eexists. reflexivity.
Qed.

(** C5: [search_places_by_text] ends with a [ValueError], and nothing is
    sent, when the query is empty; when both [bias_area] and [restrict_area]
    are given; when [page_size] is outside [[1, 20]]; when [min_rating] is
    outside [[0, 5]] (so for 5.5); when [price_levels] contains [FREE]; and
    when [restrict_area] is not a [RectangularArea] (so when it is a
    [CircularArea]).  A [min_rating] inside [[0, 5]] (so 5.0) never gives
    the error of the rating check; with [min_rating=5.0], the query
    ["pizza"], the field [rating] and the defaults for the rest, the request
    is sent and its body carries [minRating]. *)
Theorem search_places_by_text_validation :
  (forall bias_area restrict_area page_size min_rating price_levels,
      _client.raises_ValueError
        (search "" bias_area restrict_area page_size min_rating price_levels))
  /\ (forall query a b page_size min_rating price_levels,
        _client.raises_ValueError
          (search query (Some a) (Some b) page_size min_rating price_levels))
  /\ (forall query bias_area restrict_area page_size min_rating price_levels,
        ~ (1 <= page_size <= 20) ->
        _client.raises_ValueError
          (search query bias_area restrict_area page_size min_rating price_levels))
  /\ (forall query bias_area restrict_area page_size r price_levels,
        ~ (0 <= r /\ r <= 5)%Q ->
        _client.raises_ValueError
          (search query bias_area restrict_area page_size (Some r) price_levels))
  /\ (forall query bias_area restrict_area page_size price_levels,
        _client.raises_ValueError
          (search query bias_area restrict_area page_size (Some (11 # 2)%Q)
                  price_levels))
  /\ (forall query bias_area restrict_area page_size min_rating l,
        In FREE l ->
        _client.raises_ValueError
          (search query bias_area restrict_area page_size min_rating (Some l)))
  /\ (forall query bias_area area page_size min_rating price_levels,
        _client.isinstance area "RectangularArea" = false ->
        _client.raises_ValueError
          (search query bias_area (Some area) page_size min_rating price_levels))
  /\ (forall query bias_area c page_size min_rating price_levels,
        _client.raises_ValueError
          (search query bias_area (Some (Typed.of_CircularArea c)) page_size
                  min_rating price_levels))
  /\ (forall query bias_area restrict_area page_size r price_levels,
        (0 <= r /\ r <= 5)%Q ->
        search query bias_area restrict_area page_size (Some r) price_levels
        <> _client.Done (Raise (ValueError
             "The minimum rating must be between 0 and 5.")))
  /\ (forall query bias_area restrict_area page_size price_levels,
        search query bias_area restrict_area page_size (Some 5%Q) price_levels
        <> _client.Done (Raise (ValueError
             "The minimum rating must be between 0 and 5.")))
  /\ (exists req k,
        _client.Client.search_places_by_text self "pizza" ["rating"] None "en"
          None None 20 None (Some 5%Q) false None "relevance"
        = _client.Send req k
        /\ _client.json req
           = Some (VDict [("textQuery", VStr "pizza");
                          ("languageCode", VStr "en");
                          ("pageSize", VInt 20);
                          ("rankPreference", VStr "RELEVANCE");
                          ("openNow", VBool false);
                          ("minRating", VFloat 5%Q)])).
Proof.
  assert (Hout : forall query bias_area restrict_area page_size r price_levels,
             ~ (0 <= r /\ r <= 5)%Q ->
             _client.raises_ValueError
               (search query bias_area restrict_area page_size (Some r)
                       price_levels)).
  { intros query bias_area restrict_area page_size r price_levels Hr.
    apply rating_range_false in Hr.
    search_cases; try (eexists; reflexivity); congruence. }
  assert (Hrect : forall query bias_area area page_size min_rating price_levels,
             _client.isinstance area "RectangularArea" = false ->
             _client.raises_ValueError
               (search query bias_area (Some area) page_size min_rating
                       price_levels)).
  { intros query bias_area area page_size min_rating price_levels Harea.
    search_cases; try (eexists; reflexivity).
    all: field_mask_cases; try rewrite Harea; cbn; eexists; reflexivity. }
  assert (Hin : forall query bias_area restrict_area page_size r price_levels,
             (0 <= r /\ r <= 5)%Q ->
             search query bias_area restrict_area page_size (Some r) price_levels
             <> _client.Done (Raise (ValueError
                  "The minimum rating must be between 0 and 5."))).
  { intros query bias_area restrict_area page_size r price_levels Hr.
    apply rating_range_true in Hr.
    search_cases; try discriminate; try congruence.
    all: field_mask_cases; try discriminate.
    all: area_cases; discriminate. }
  split; [| split; [| split; [| split; [| split; [| split; [| split;
    [| split; [| split; [| split]]]]]]]]].
  - intros. unfold _client.raises_ValueError. cbn. eexists. reflexivity.
  - intros. search_cases; eexists; reflexivity.
  - intros query bias_area restrict_area page_size min_rating price_levels Hps.
    apply page_size_range_false in Hps.
    search_cases; try (eexists; reflexivity); congruence.
  - exact Hout.
  - intros. apply Hout. intros [_ Hle]. revert Hle. unfold Qle. cbn. lia.
  - intros query bias_area restrict_area page_size min_rating l Hfree.
    apply PriceLevel_FREE_in in Hfree.
    search_cases; try (eexists; reflexivity); congruence.
  - exact Hrect.
  - intros. apply Hrect. reflexivity.
  - exact Hin.
  - intros. apply Hin. split; unfold Qle; cbn; lia.
  - destruct search_places_by_text_rating_5 as [k Hk].
    eexists. exists k. split; [exact Hk | reflexivity].
Qed.

End TextSearch.

Lemma search_places_by_text_validation_witness :
  ~ (0 <= 11 # 2 /\ 11 # 2 <= 5)%Q
  /\ _client.raises_ValueError
       (@_client.Client.search_places_by_text other_strings_kept
          check_every_item insertion_order parse_nothing
          (_client.Client.mk_Client "AIzaKey") "pizza" ["rating"] None "en"
          None None 20 None (Some (11 # 2)%Q) false None "relevance").
Proof.
  split.
  - intros [_ Hle]. revert Hle. unfold Qle. cbn. lia.
  - apply (proj1 (proj2 (proj2 (proj2
             (@search_places_by_text_validation other_strings_kept
                check_every_item insertion_order parse_nothing
                (_client.Client.mk_Client "AIzaKey") ["rating"] None "en" None
                false "relevance"))))).
    intros [_ Hle]. revert Hle. unfold Qle. cbn. lia.
Defined.

(** ** Opening hours *)

Lemma time_valid (h m : Z) :
  Wire.valid_time h m -> datetime.time (VInt h) (VInt m) = Ok (VTime h m).
Proof.
  intros [Hh Hm]. unfold datetime.time, datetime.c_int. cbn [Py.as_int].
  rewrite (andb_range_true _ _ h) by lia. cbn [bind].
  rewrite (andb_range_true _ _ m) by lia. cbn [bind].
  rewrite (andb_range_true 0 23 h) by lia.
  rewrite (andb_range_true 0 59 m) by lia. reflexivity.
Qed.

Lemma time_of_point (d h m : Z) :
  Wire.valid_time h m ->
  places.OpeningHours.time_of (Wire.point d h m) = Ok (VTime h m).
Proof.
  intros Hv. unfold places.OpeningHours.time_of. cbn. apply time_valid, Hv.
Qed.

Lemma Qeq_bool_inject_Z (a b : Z) : Qeq_bool (inject_Z a) (inject_Z b) = (a =? b).
Proof.
  destruct (Z.eqb_spec a b) as [-> | Hne].
  - apply Qeq_bool_refl.
  - destruct (Qeq_bool (inject_Z a) (inject_Z b)) eqn:E; [|reflexivity].
    apply Qeq_bool_eq in E. unfold Qeq in E. cbn in E. lia.
Qed.

Lemma range_empty (a b : Z) : b <= a -> Py.range a b = [].
Proof.
  intros Hle. unfold Py.range.
  replace (Z.to_nat (b - a)) with 0%nat by lia. reflexivity.
Qed.

(** A period that opens on a later day of the week than it closes is
    skipped whole: the loop body reads neither its hours nor its minutes,
    appends nothing and goes on. *)
Lemma period_body_wrapping (data : value) (periods : list (list value))
      (a h1 m1 b h2 m2 : Z) :
  b < a ->
  places.OpeningHours.period_body data periods
    (Wire.period (Wire.point a h1 m1) (Wire.point b h2 m2))
  = Ok (places.OpeningHours.Next, periods).
Proof.
  intros Hlt. unfold places.OpeningHours.period_body.
  cbn -[Py.range Qeq_bool inject_Z]. rewrite Qeq_bool_inject_Z.
  replace (a =? b) with false by (symmetry; apply Z.eqb_neq; lia).
  rewrite range_empty by lia. reflexivity.
Qed.

Lemma for_periods_app (data : value) (pre post : list value)
      (periods : list (list value)) (p : value) :
  (forall b, places.OpeningHours.period_body data b p
             = Ok (places.OpeningHours.Next, b)) ->
  places.OpeningHours.for_periods data (pre ++ p :: post) periods
  = places.OpeningHours.for_periods data (pre ++ post) periods.
Proof.
  intros Hp. revert periods.
  induction pre as [|q pre IH]; intros periods; cbn [app places.OpeningHours.for_periods].
  - rewrite Hp. reflexivity.
  - destruct (places.OpeningHours.period_body data periods q) as [[[|] b]|e];
      cbn [bind]; [apply IH | reflexivity | reflexivity].
Qed.



(** With a period that has a [close], the loop body does not look at the
    whole object. *)
Lemma period_body_data (data1 data2 : value) (b : list (list value)) (q : value) :
  Wire.lacks_close q = false ->
  places.OpeningHours.period_body data1 b q
  = places.OpeningHours.period_body data2 b q.
Proof.
  unfold places.OpeningHours.period_body, Wire.lacks_close.
  destruct (Py.getitem q "open") as [start|e]; cbn [bind]; [|reflexivity].
  destruct (Py.get q "close") as [end_|e]; cbn [bind]; [|reflexivity].
  destruct end_; cbn [Py.is_none]; try reflexivity. discriminate.
Qed.

(** All the loop body reads of the whole object is whether it has more than
    one period. *)
Lemma period_body_count (wd1 wd2 : value) (l1 l2 : list value)
      (b : list (list value)) (q : value) :
  (1 <? Z.of_nat (length l1)) = (1 <? Z.of_nat (length l2)) ->
  places.OpeningHours.period_body (Wire.opening_hours wd1 l1) b q
  = places.OpeningHours.period_body (Wire.opening_hours wd2 l2) b q.
Proof.
  intros Hn. unfold places.OpeningHours.period_body.
  destruct (Py.getitem q "open") as [start|e]; cbn [bind]; [|reflexivity].
  destruct (Py.get q "close") as [end_|e]; cbn [bind]; [|reflexivity].
  destruct (Py.is_none end_); [|reflexivity].
  cbn -[Z.ltb Z.of_nat Py.range]. rewrite Hn. reflexivity.
Qed.

Lemma for_periods_data (wd1 wd2 : value) (l1 l2 l : list value)
      (b : list (list value)) :
  (1 <? Z.of_nat (length l1)) = (1 <? Z.of_nat (length l2))
  \/ forallb (fun q => negb (Wire.lacks_close q)) l = true ->
  places.OpeningHours.for_periods (Wire.opening_hours wd1 l1) l b
  = places.OpeningHours.for_periods (Wire.opening_hours wd2 l2) l b.
Proof.
  intros Hc. revert b.
  induction l as [|q l IH]; intros b; cbn [places.OpeningHours.for_periods];
    [reflexivity|].
  assert (Hq : places.OpeningHours.period_body (Wire.opening_hours wd1 l1) b q
               = places.OpeningHours.period_body (Wire.opening_hours wd2 l2) b q).
  { destruct Hc as [Hn | Hall].
    - apply period_body_count, Hn.
    - cbn [forallb] in Hall. apply andb_true_iff in Hall. destruct Hall as [Hq _].
      apply period_body_data. apply negb_true_iff, Hq. }
  rewrite Hq.
  destruct (places.OpeningHours.period_body (Wire.opening_hours wd2 l2) b q)
    as [[[|] b']|e]; cbn [bind]; try reflexivity.
  apply IH. destruct Hc as [Hn | Hall]; [left; exact Hn | right].
  cbn [forallb] in Hall. apply andb_true_iff in Hall. apply Hall.
Qed.









(** C10, as stated, fails: with the wrapping period the list has two
    periods and the one without [close] raises; without it that period is
    alone and the place is open around the clock. *)
Lemma wrapping_period_counterexample :
  let p := Wire.period (Wire.point 6 22 0) (Wire.point 0 2 0) in
  let q := Wire.open_only (Wire.point 0 0 0) in
  places.OpeningHours.from_api_format (Wire.opening_hours (VList []) [p; q])
  = Raise Wire.report_bug
  /\ places.OpeningHours.from_api_format (Wire.opening_hours (VList []) [q])
     = Ok (places.OpeningHours.new Wire.always_open (VList [])).
Proof. cbv zeta. split; reflexivity. Qed.

(** C10, amended: a period whose [close] is present and whose open day is
    strictly greater than its close day is appended to no bucket (the loop
    body leaves the buckets as they are and goes on); and unless what is
    left without it is exactly one period with no [close], decoding the
    object gives the same as decoding it with that period removed. *)
Theorem wrapping_period_skipped (wd : value) (pre post : list value) (a h1 m1 b h2 m2 : Z) :
  b < a ->
  let p := Wire.period (Wire.point a h1 m1) (Wire.point b h2 m2) in
  (forall data periods,
      places.OpeningHours.period_body data periods p
      = Ok (places.OpeningHours.Next, periods))
  /\ (length (pre ++ post) <> 1%nat
      \/ forallb (fun q => negb (Wire.lacks_close q)) (pre ++ post) = true ->
      places.OpeningHours.from_api_format (Wire.opening_hours wd (pre ++ p :: post))
      = places.OpeningHours.from_api_format (Wire.opening_hours wd (pre ++ post))).
Proof.
  intros Hlt p. split.
  - intros data periods. apply period_body_wrapping, Hlt.
  - intros Hc. unfold places.OpeningHours.from_api_format.
    cbn -[places.OpeningHours.for_periods].
    fold (Wire.opening_hours wd (pre ++ p :: post)).
    fold (Wire.opening_hours wd (pre ++ post)).
    rewrite for_periods_app
      by (intros b0; apply period_body_wrapping, Hlt).
    rewrite (for_periods_data wd wd (pre ++ p :: post) (pre ++ post)); [reflexivity|].
    destruct Hc as [Hlen | Hall]; [|right; exact Hall].
    destruct (pre ++ post) as [|x [|y l]] eqn:E.
    + right. reflexivity.
    + cbn [length] in Hlen. congruence.
    + left. rewrite length_app. cbn [length]. 
      assert (Hl : (length pre + length post = S (S (length l)))%nat).
      { rewrite <- length_app, E. reflexivity. }
      transitivity true; [apply Z.ltb_lt; lia | symmetry; apply Z.ltb_lt; lia].
Qed.

Lemma wrapping_period_skipped_witness :
  0 < 6
  /\ places.OpeningHours.from_api_format
       (Wire.opening_hours (VList [])
          ([] ++ Wire.period (Wire.point 6 22 0) (Wire.point 0 2 0)
              :: [Wire.period (Wire.point 1 9 0) (Wire.point 1 17 0)]))
     = places.OpeningHours.from_api_format
         (Wire.opening_hours (VList [])
            ([] ++ [Wire.period (Wire.point 1 9 0) (Wire.point 1 17 0)])).
Proof.
  split; [lia |].
  apply (proj2 (wrapping_period_skipped (VList []) []
                  [Wire.period (Wire.point 1 9 0) (Wire.point 1 17 0)]
                  6 22 0 0 2 0 ltac:(lia))).
  right. reflexivity.
Defined.

(** ** Review *)

(** C9 fails on the code: for every [Review], [to_api_format] raises
    [AttributeError].  [dataclasses.asdict] has already turned the nested
    [LocalizedString] into a dict when the method calls [to_api_format] on
    it; the nested value itself encodes without error. *)
Theorem Review_to_api_format_raises `{Casefy} (r : Typed.Review) :
  places.Review.to_api_format (Typed.of_Review r) = Raise AttributeError
  /\ (exists d data,
        dataclasses.asdict (Typed.of_Review r) = Ok data
        /\ Py.getitem (VDict data) "text" = Ok (VDict d))
  /\ places.LocalizedString.to_api_format
       (Typed.of_LocalizedString (Typed.rv_text r))
     = Ok (VDict [("text", VStr (Typed.ls_text (Typed.rv_text r)));
                  ("languageCode",
                   VStr (Typed.ls_language_code (Typed.rv_text r)))]).
Proof.
  split; [reflexivity | split; [| reflexivity]].
  eexists. eexists. split; reflexivity.
Qed.

(** ** Place *)

Lemma foldM_skip {A S : Type} (f : S -> A -> result S) (pre post : list A)
      (x : A) (s : S) :
  (forall s', f s' x = Ok s') ->
  foldM f (pre ++ x :: post) s = foldM f (pre ++ post) s.
Proof.
  intros Hx. revert s.
  induction pre as [|y pre IH]; intros s; cbn [app foldM].
  - rewrite Hx. reflexivity.
  - destruct (f s y) as [s'|e]; cbn [bind]; [apply IH | reflexivity].
Qed.

Lemma foldM_all_skip {A S : Type} (f : S -> A -> result S) (l : list A) (s : S) :
  (forall x s', In x l -> f s' x = Ok s') -> foldM f l s = Ok s.
Proof.
  induction l as [|y l IH]; intros Hl; cbn [foldM]; [reflexivity|].
  rewrite Hl by (left; reflexivity). cbn [bind].
  apply IH. intros x s' Hin. apply Hl. right. exact Hin.
Qed.

Section PlaceDecoder.
Context {CF : Casefy} {SD : Serde} `{DateUtil}.

(** A key that is no field of [Place] once in snake case is passed through
    by the dispatch, value untouched. *)
Lemma _from_api_format_unknown (k : string) (v : value) :
  ~ In (casefy.snakecase k) places.Place.field_names ->
  places._from_api_format k v = Ok (casefy.snakecase k, v).
Proof.
  intros Hk. unfold places._from_api_format.
  remember (casefy.snakecase k) as key eqn:Ekey. clear Ekey. cbv zeta.
  repeat match goal with
         | |- context [String.eqb key ?s] =>
             destruct (String.eqb_spec key s) as [-> | ?];
             [exfalso; apply Hk; apply mem_In; reflexivity |]
         end.
  reflexivity.
Qed.

Lemma item_body_unknown (values : list (string * value)) (k : string) (v : value) :
  ~ In (casefy.snakecase k) places.Place.field_names ->
  places.Place.item_body (dataclasses.field_names places.Place.fields)
                         values (k, v) = Ok values.
Proof.
  intros Hk. unfold places.Place.item_body. cbn [fst snd].
  rewrite (_from_api_format_unknown k v Hk). cbn [bind fst snd].
  replace (Str.mem (casefy.snakecase k) (dataclasses.field_names places.Place.fields))
    with false; [reflexivity|].
  symmetry. apply mem_false. exact Hk.
Qed.

(** C7: a key of the wire object that is no field of [Place] (once in snake
    case) is dropped without error: decoding the object gives the same as
    decoding it without that key, whatever the other keys are; an object
    with only such keys ([{"futureField": 1}], or the empty object) decodes
    to the [Place] with every field absent; and [{"rating": 4.5,
    "futureField": 1}] decodes to a [Place] with the rating and with no field
    for the unknown key. *)
Theorem Place_from_api_format_unknown_key :
  (forall pre post k v,
      ~ In (casefy.snakecase k) places.Place.field_names ->
      places.Place.from_api_format (VDict (pre ++ (k, v) :: post))
      = places.Place.from_api_format (VDict (pre ++ post)))
  /\ (forall items,
        (forall kv, In kv items ->
                    ~ In (casefy.snakecase (fst kv)) places.Place.field_names) ->
        places.Place.from_api_format (VDict items) = Ok Typed.empty_Place)
  /\ places.Place.from_api_format (VDict [("futureField", VInt 1)])
     = Ok Typed.empty_Place
  /\ places.Place.from_api_format (VDict []) = Ok Typed.empty_Place
  /\ places.Place.from_api_format
       (VDict [("rating", VFloat (9 # 2)); ("futureField", VInt 1)])
     = places.Place.from_api_format (VDict [("rating", VFloat (9 # 2))])
  /\ (exists fs,
        places.Place.from_api_format
          (VDict [("rating", VFloat (9 # 2)); ("futureField", VInt 1)])
        = Ok (VInst "Place" fs)
        /\ Py.dict_get "rating" fs = Some (VFloat (9 # 2))
        /\ Py.dict_get "future_field" fs = None
        /\ Py.dict_get "futureField" fs = None).
Proof.
  assert (Hall : forall items,
             (forall kv, In kv items ->
                         ~ In (casefy.snakecase (fst kv)) places.Place.field_names) ->
             places.Place.from_api_format (VDict items) = Ok Typed.empty_Place).
  { intros items Hitems. unfold places.Place.from_api_format.
    cbn [Py.items bind]. rewrite foldM_all_skip; [reflexivity|].
    intros [k v] s' Hin. apply item_body_unknown. apply (Hitems (k, v) Hin). }
  split; [| split; [| split; [| split; [| split]]]].
  - intros pre post k v Hk. unfold places.Place.from_api_format.
    cbn [Py.items bind]. rewrite foldM_skip; [reflexivity|].
    intros s'. apply item_body_unknown, Hk.
  - exact Hall.
  - apply Hall. intros kv [<- | []]. cbn [fst]. apply mem_false. reflexivity.
  - apply Hall. intros kv [].
  - reflexivity.
  - eexists. split; [compute_checked; reflexivity | split; [| split]];
      reflexivity.
Qed.

End PlaceDecoder.

Lemma Place_from_api_format_unknown_key_witness :
  ~ In (@casefy.snakecase other_strings_kept "futureField")
       places.Place.field_names
  /\ @places.Place.from_api_format other_strings_kept check_every_item
       parse_nothing
       (VDict ([("rating", VFloat (9 # 2))] ++ ("futureField", VInt 1) :: []))
     = @places.Place.from_api_format other_strings_kept check_every_item
         parse_nothing
         (VDict ([("rating", VFloat (9 # 2))] ++ [])).
Proof.
  assert (Hk : ~ In (@casefy.snakecase other_strings_kept "futureField")
                    places.Place.field_names)
    by (apply mem_false; reflexivity).
  split; [exact Hk |].
  apply (proj1 (@Place_from_api_format_unknown_key other_strings_kept
                  check_every_item parse_nothing)
               [("rating", VFloat (9 # 2))] [] "futureField" (VInt 1) Hk).
Defined.

(** ** Round trips *)

Lemma unique_NoDup (l : list string) : Py.unique l = true <-> NoDup l.
Proof.
  induction l as [|k l IH]; cbn [Py.unique].
  - split; [constructor | reflexivity].
  - rewrite andb_true_iff, negb_true_iff, mem_false, IH. split.
    + intros [Hk Hl]. constructor; assumption.
    + intros Hnd. inversion Hnd; subst. split; assumption.
Qed.

Lemma eq_dict (d d' : list (string * value)) :
  Py.eq (VDict d) (VDict d')
  = Nat.eqb (length d) (length d') &&
    forallb (fun kv => match Py.dict_get (fst kv) d' with
                       | Some v' => Py.eq (snd kv) v'
                       | None => false
                       end) d.
Proof.
  cbn [Py.eq]. f_equal. induction d as [|[k v] d IH]; [reflexivity|].
  cbn [forallb fst snd]. rewrite <- IH. reflexivity.
Qed.

Lemma dict_get_In {A : Type} (k : string) (v : A) (d : list (string * A)) :
  NoDup (map fst d) -> In (k, v) d -> Py.dict_get k d = Some v.
Proof.
  induction d as [|[k' v'] d IH]; cbn [map fst Py.dict_get]; intros Hnd Hin;
    [contradiction|].
  inversion Hnd as [|? ? Hk Hd]; subst.
  destruct Hin as [[= -> ->] | Hin].
  - rewrite String.eqb_refl. reflexivity.
  - destruct (String.eqb_spec k k') as [-> | Hne]; [|apply IH; assumption].
    exfalso. apply Hk. apply (in_map fst) in Hin. exact Hin.
Qed.

Lemma dict_get_Some_In {A : Type} (k : string) (v : A) (d : list (string * A)) :
  Py.dict_get k d = Some v -> In (k, v) d.
Proof.
  induction d as [|[k' v'] d IH]; cbn [Py.dict_get]; [discriminate|].
  destruct (String.eqb_spec k k') as [-> | Hne].
  - intros [= ->]. left. reflexivity.
  - intros Hget. right. apply IH, Hget.
Qed.

(** On a JSON value [==] is reflexive. *)
Lemma json_eq_refl (v : value) : Py.json_value v = true -> Py.eq v v = true.
Proof.
  induction v using value_ind; intros Hj; try discriminate; try reflexivity.
  - cbn. destruct b; reflexivity.
  - cbn. apply Qeq_bool_refl.
  - cbn. apply Qeq_bool_refl.
  - cbn. apply String.eqb_refl.
  - cbn [Py.json_value] in Hj. cbn [Py.eq].
    induction H as [|x l Hx Hl IH]; [reflexivity|].
    cbn [forallb] in Hj. apply andb_true_iff in Hj. destruct Hj as [Hjx Hjl].
    rewrite (Hx Hjx). cbn [andb]. apply IH, Hjl.
  - cbn [Py.json_value] in Hj. apply andb_true_iff in Hj.
    destruct Hj as [Hu Hj]. apply unique_NoDup in Hu.
    rewrite eq_dict, Nat.eqb_refl. cbn [andb].
    apply forallb_forall. intros [k x] Hin. cbn [fst snd].
    rewrite (dict_get_In k x d Hu Hin).
    rewrite Forall_forall in H. apply (H (k, x) Hin).
    rewrite forallb_forall in Hj. apply (Hj (k, x) Hin).
Qed.

(** [asdict] copies a JSON value as it is. *)
Lemma json_asdict_inner (v : value) :
  Py.json_value v = true -> dataclasses.asdict_inner v = v.
Proof.
  induction v using value_ind; intros Hj; try discriminate; try reflexivity.
  - cbn [Py.json_value] in Hj. cbn [dataclasses.asdict_inner]. f_equal.
    induction H as [|x l Hx Hl IH]; [reflexivity|].
    cbn [forallb] in Hj. apply andb_true_iff in Hj. destruct Hj as [Hjx Hjl].
    cbn [map]. rewrite (Hx Hjx), (IH Hjl). reflexivity.
  - cbn [Py.json_value] in Hj. apply andb_true_iff in Hj. destruct Hj as [_ Hj].
    cbn [dataclasses.asdict_inner]. f_equal.
    induction H as [|[k x] l Hx Hl IH]; [reflexivity|].
    cbn [forallb snd] in Hj. apply andb_true_iff in Hj. destruct Hj as [Hjx Hjl].
    cbn [map fst snd]. cbn [snd] in Hx. rewrite (Hx Hjx), (IH Hjl). reflexivity.
Qed.

Lemma dict_set_fresh {A : Type} (k : string) (v : A) (d : list (string * A)) :
  ~ In k (map fst d) -> Py.dict_set k v d = d ++ [(k, v)].
Proof.
  induction d as [|[k' v'] d IH]; cbn [map fst Py.dict_set app]; intros Hk;
    [reflexivity|].
  destruct (String.eqb_spec k k') as [-> | Hne].
  - exfalso. apply Hk. left. reflexivity.
  - rewrite IH; [reflexivity|]. intros Hin. apply Hk. right. exact Hin.
Qed.

(** A comprehension whose keys are distinct keeps all its items, in order. *)
Lemma dict_of_items_distinct {A : Type} (l : list (string * A)) :
  NoDup (map fst l) -> Py.dict_of_items l = l.
Proof.
  unfold Py.dict_of_items.
  assert (Hgen : forall acc : list (string * A),
             NoDup (map fst (acc ++ l)) ->
             fold_left (fun d kv => Py.dict_set (fst kv) (snd kv) d) l acc
             = acc ++ l).
  { induction l as [|[k v] l IH]; intros acc Hnd; cbn [fold_left fst snd].
    - rewrite app_nil_r. reflexivity.
    - rewrite dict_set_fresh.
      + rewrite IH; rewrite <- app_assoc; [reflexivity | exact Hnd].
      + rewrite map_app in Hnd. cbn [map fst] in Hnd.
        apply NoDup_remove_2 in Hnd. intros Hin. apply Hnd.
        apply in_or_app. left. exact Hin. }
  intros Hnd. apply (Hgen [] Hnd).
Qed.

Lemma mapM_map {A B : Type} (f : A -> result B) (g : A -> B) (l : list A) :
  (forall x, In x l -> f x = Ok (g x)) -> mapM f l = Ok (map g l).
Proof.
  induction l as [|x l IH]; intros Hl; cbn [mapM map]; [reflexivity|].
  rewrite Hl by (left; reflexivity). cbn [bind].
  rewrite IH by (intros y Hy; apply Hl; right; exact Hy). reflexivity.
Qed.

Lemma has_keys_spec {A : Type} (ks : list string) (d : list (string * A)) :
  Py.has_keys ks d = true ->
  length d = length ks /\ forall k, In k ks -> exists v, Py.dict_get k d = Some v.
Proof.
  unfold Py.has_keys. rewrite andb_true_iff, Nat.eqb_eq, forallb_forall.
  intros [Hlen Hall]. split; [exact Hlen|].
  intros k Hk. specialize (Hall k Hk).
  destruct (Py.dict_get k d) as [v|]; [exists v; reflexivity | discriminate].
Qed.

(** The keys of a dict that has the distinct keys [ks], and as many keys as
    that, are all among [ks]. *)
Lemma has_keys_incl {A : Type} (ks : list string) (d : list (string * A)) :
  NoDup ks -> Py.has_keys ks d = true -> incl (map fst d) ks.
Proof.
  intros Hnd Hk. apply has_keys_spec in Hk. destruct Hk as [Hlen Hall].
  apply NoDup_length_incl; [exact Hnd | rewrite length_map; lia |].
  intros k Hin. destruct (Hall k Hin) as [v Hv].
  apply dict_get_Some_In in Hv. apply (in_map fst) in Hv. exact Hv.
Qed.

Lemma json_dict_inv (d : list (string * value)) :
  Py.json_value (VDict d) = true ->
  NoDup (map fst d) /\ forall k v, In (k, v) d -> Py.json_value v = true.
Proof.
  cbn [Py.json_value]. rewrite andb_true_iff, unique_NoDup, forallb_forall.
  intros [Hnd Hall]. split; [exact Hnd|].
  intros k v Hin. apply (Hall (k, v) Hin).
Qed.

Lemma json_lookup (k : string) (d : list (string * value)) :
  Py.json_value (VDict d) = true -> Py.json_value (Flat.lookup k d) = true.
Proof.
  intros Hj. unfold Flat.lookup. destruct (Py.dict_get k d) as [v|] eqn:E;
    [|reflexivity].
  apply json_dict_inv in Hj. destruct Hj as [_ Hall].
  apply (Hall k v). apply dict_get_Some_In, E.
Qed.

(** A dict written afresh from the keys [ks] of a JSON object that has
    those keys and no other is equal to the object. *)
Lemma eq_rebuilt (ks : list string) (d : list (string * value)) :
  Wire.record ks (VDict d) = true ->
  Py.eq (VDict (map (fun k => (k, Flat.lookup k d)) ks)) (VDict d) = true.
Proof.
  unfold Wire.record. rewrite andb_true_iff. intros [Hj Hk].
  apply has_keys_spec in Hk. destruct Hk as [Hlen Hall].
  rewrite eq_dict, length_map, Hlen, Nat.eqb_refl. cbn [andb].
  apply forallb_forall. intros [k v] Hin. cbn [fst snd].
  apply in_map_iff in Hin. destruct Hin as (k' & [= <- <-] & Hk').
  destruct (Hall k' Hk') as [v Hv]. unfold Flat.lookup. rewrite Hv.
  apply json_eq_refl. apply json_dict_inv in Hj. destruct Hj as [_ Hvals].
  apply (Hvals k' v). apply dict_get_Some_In, Hv.
Qed.

Lemma find_field (fs : list dataclasses.field) (f : dataclasses.field) :
  NoDup (dataclasses.field_names fs) -> In f fs ->
  find (fun g => String.eqb (dataclasses.f_name g) (dataclasses.f_name f)) fs
  = Some f.
Proof.
  unfold dataclasses.field_names.
  induction fs as [|g fs IH]; cbn [map find In]; intros Hnd Hin; [contradiction|].
  inversion Hnd as [|? ? Hg Hfs]; subst.
  destruct Hin as [-> | Hin].
  - rewrite String.eqb_refl. reflexivity.
  - destruct (String.eqb_spec (dataclasses.f_name g) (dataclasses.f_name f))
      as [Heq | Hne].
    + exfalso. apply Hg. rewrite Heq. apply (in_map dataclasses.f_name), Hin.
    + apply IH; assumption.
Qed.

Lemma typed_record_inv (ks : list (string * hint)) (d : list (string * value)) :
  Wire.typed_record ks (VDict d) = true ->
  Wire.record (map fst ks) (VDict d) = true
  /\ forall k h, In (k, h) ks -> serde.conforms h (Flat.lookup k d) = true.
Proof.
  unfold Wire.typed_record. rewrite andb_true_iff, forallb_forall.
  intros [Hr Hall]. split; [exact Hr|]. intros k h Hin. apply (Hall (k, h) Hin).
Qed.

Lemma typed_record_dict (ks : list (string * hint)) (w : value) :
  Wire.typed_record ks w = true -> exists d, w = VDict d.
Proof.
  unfold Wire.typed_record. destruct w; try (rewrite andb_false_r; discriminate).
  intros _. eexists. reflexivity.
Qed.



Section FlatCodec.

Context {CF : Casefy} {SD : Serde}.
Variable cls : string.
Variable fields : list dataclasses.field.

Let names : list string := dataclasses.field_names fields.
Let keys : list string := Flat.wire_keys fields.

(** The keys of the wire object, each with the annotation of its field. *)
Let hints : list (string * hint) :=
  map (fun f => (casefy.camelcase (dataclasses.f_name f), dataclasses.f_type f))
      fields.

Hypothesis names_distinct : NoDup names.
Hypothesis snake_camel :
  forall f, In f names -> casefy.snakecase (casefy.camelcase f) = f.

Lemma snake_keys : map casefy.snakecase keys = names.
Proof.
  unfold keys, Flat.wire_keys. fold names. rewrite map_map.
  rewrite <- (map_id names) at 2. apply map_ext_in. exact snake_camel.
Qed.

Lemma keys_distinct : NoDup keys.
Proof.
  apply (NoDup_map_inv casefy.snakecase). rewrite snake_keys.
  exact names_distinct.
Qed.

Lemma key_inv (k : string) :
  In k keys -> exists f, In f names /\ k = casefy.camelcase f.
Proof.
  unfold keys, Flat.wire_keys. fold names. rewrite in_map_iff.
  intros (f & <- & Hf). exists f. split; [exact Hf | reflexivity].
Qed.

Lemma hints_keys : map fst hints = keys.
Proof.
  unfold hints, keys, Flat.wire_keys, dataclasses.field_names.
  rewrite !map_map. reflexivity.
Qed.

Lemma dict_get_snake (f : string) (d : list (string * value)) :
  In f names -> incl (map fst d) keys ->
  Py.dict_get f (map (fun kv => (casefy.snakecase (fst kv), snd kv)) d)
  = Py.dict_get (casefy.camelcase f) d.
Proof.
  intros Hf. induction d as [|[k v] d IH]; cbn [map fst snd Py.dict_get];
    intros Hincl; [reflexivity|].
  assert (Hk : In k keys) by (apply Hincl; left; reflexivity).
  destruct (key_inv k Hk) as (g & Hg & ->). rewrite (snake_camel g Hg).
  assert (Hd : incl (map fst d) keys)
    by (intros x Hx; apply Hincl; right; exact Hx).
  destruct (String.eqb_spec f g) as [-> | Hne].
  - rewrite String.eqb_refl. reflexivity.
  - destruct (String.eqb_spec (casefy.camelcase f) (casefy.camelcase g))
      as [Heq | _]; [|apply IH, Hd].
    exfalso. apply Hne.
    rewrite <- (snake_camel f Hf), <- (snake_camel g Hg), Heq. reflexivity.
Qed.

(** The arguments made of a wire object with values of the annotated types
    pass the check of the constructor. *)
Lemma checked_typed (d : list (string * value)) :
  Wire.typed_record hints (VDict d) = true ->
  dataclasses.checked
    fields (map (fun kv : string * value => (casefy.snakecase (fst kv), snd kv)) d)
  = true.
Proof.
  intros Hw. apply typed_record_inv in Hw. destruct Hw as [Hr Hty].
  rewrite hints_keys in Hr. pose proof Hr as Hr'. unfold Wire.record in Hr'.
  apply andb_true_iff in Hr'. destruct Hr' as [Hj Hk].
  pose proof (has_keys_incl keys d keys_distinct Hk) as Hincl.
  apply json_dict_inv in Hj. destruct Hj as [Hnd _].
  unfold dataclasses.checked. apply forallb_forall. intros kv Hin.
  apply in_map_iff in Hin. destruct Hin as ([k v] & <- & Hin). cbn [fst snd].
  assert (Hkin : In k keys).
  { apply Hincl. apply (in_map fst) in Hin. exact Hin. }
  unfold keys, Flat.wire_keys, dataclasses.field_names in Hkin.
  rewrite map_map in Hkin. apply in_map_iff in Hkin.
  destruct Hkin as (f & <- & Hf).
  rewrite snake_camel by (apply (in_map dataclasses.f_name), Hf).
  rewrite (find_field fields f names_distinct Hf).
  apply type_check_accepts.
  specialize (Hty (casefy.camelcase (dataclasses.f_name f)) (dataclasses.f_type f)).
  unfold Flat.lookup in Hty. rewrite (dict_get_In _ v d Hnd Hin) in Hty.
  apply Hty. unfold hints.
  apply (in_map (fun f => (casefy.camelcase (dataclasses.f_name f),
                           dataclasses.f_type f))), Hf.
Qed.

(** Decoding a wire object that has exactly the keys of the class, with
    values of the annotated types. *)
Lemma flat_decode (d : list (string * value)) :
  Wire.typed_record hints (VDict d) = true ->
  Flat.from_api_format cls fields (VDict d)
  = Ok (VInst cls (map (fun f : dataclasses.field =>
                          (dataclasses.f_name f,
                           Flat.lookup (casefy.camelcase (dataclasses.f_name f)) d))
                       fields)).
Proof.
  intros Hty. pose proof (checked_typed d Hty) as Hchecked.
  apply typed_record_inv in Hty. destruct Hty as [Hw _].
  rewrite hints_keys in Hw. pose proof Hw as Hw'. unfold Wire.record in Hw'.
  apply andb_true_iff in Hw'. destruct Hw' as [Hj Hk].
  pose proof (has_keys_incl keys d keys_distinct Hk) as Hincl.
  apply has_keys_spec in Hk. destruct Hk as [Hlen Hall].
  apply json_dict_inv in Hj. destruct Hj as [Hnd _].
  unfold Flat.from_api_format. cbn [Py.items bind]. unfold Py.rename_keys.
  assert (Hsn : map fst (map (fun kv : string * value =>
                                (casefy.snakecase (fst kv), snd kv)) d)
                = map casefy.snakecase (map fst d)).
  { rewrite !map_map. reflexivity. }
  assert (Hperm : Permutation keys (map fst d)).
  { apply NoDup_Permutation_bis; [apply keys_distinct | rewrite length_map; lia |].
    intros k Hin. destruct (Hall k Hin) as [v Hv].
    apply dict_get_Some_In in Hv. apply (in_map fst) in Hv. exact Hv. }
  pose proof snake_keys as Hnames.
  rewrite dict_of_items_distinct.
  2:{ rewrite Hsn. apply (Permutation_NoDup (l := names)); [|exact names_distinct].
      rewrite <- Hnames. apply Permutation_map, Hperm. }
  unfold dataclasses.init. rewrite Hchecked.
  replace (forallb _ _) with true.
  2:{ symmetry. apply forallb_forall. intros [k v] Hin. cbn [fst].
      apply mem_In. fold names. apply (in_map fst) in Hin. rewrite Hsn in Hin.
      cbn [fst] in Hin. rewrite <- Hnames.
      apply (Permutation_in (l := map casefy.snakecase (map fst d)));
        [apply Permutation_map, Permutation_sym, Hperm | exact Hin]. }
  rewrite (mapM_map _ (fun f : dataclasses.field =>
                         (dataclasses.f_name f,
                          Flat.lookup (casefy.camelcase (dataclasses.f_name f)) d))).
  - reflexivity.
  - intros f Hin.
    assert (Hf : In (dataclasses.f_name f) names)
      by (apply (in_map dataclasses.f_name), Hin).
    rewrite (dict_get_snake _ d Hf Hincl).
    destruct (Hall (casefy.camelcase (dataclasses.f_name f))) as [v Hv].
    { unfold keys, Flat.wire_keys. fold names. apply in_map. exact Hf. }
    unfold Flat.lookup. rewrite Hv. reflexivity.
Qed.

(** Encoding an instance whose fields hold JSON values. *)
Lemma flat_encode (vals : string -> value) :
  (forall f, In f names -> Py.json_value (vals f) = true) ->
  Flat.to_api_format
    (VInst cls (map (fun f : dataclasses.field =>
                       (dataclasses.f_name f, vals (dataclasses.f_name f))) fields))
  = Ok (VDict (map (fun k => (casefy.camelcase k, vals k)) names)).
Proof.
  intros Hj. unfold Flat.to_api_format. cbn [dataclasses.asdict bind].
  unfold Py.rename_keys. rewrite !map_map. cbn [fst snd].
  rewrite dict_of_items_distinct.
  - f_equal. f_equal. unfold names, dataclasses.field_names. rewrite map_map.
    apply map_ext_in. intros f Hin. f_equal.
    apply json_asdict_inner, Hj. apply (in_map dataclasses.f_name), Hin.
  - rewrite map_map. cbn [fst].
    pose proof keys_distinct as Hk. unfold keys, Flat.wire_keys in Hk.
    unfold dataclasses.field_names in Hk. rewrite map_map in Hk. exact Hk.
Qed.

(** For a wire object with exactly the keys of the class, and with values
    of the annotated types, decoding and encoding again gives an equal
    object. *)
Lemma flat_wire_round_trip (w : value) :
  Wire.typed_record hints w = true ->
  exists x w',
    Flat.from_api_format cls fields w = Ok x
    /\ Flat.to_api_format x = Ok w'
    /\ Py.eq w' w = true.
Proof.
  intros Hty. destruct (typed_record_dict _ w Hty) as [d ->].
  pose proof (proj1 (typed_record_inv _ d Hty)) as Hw. rewrite hints_keys in Hw.
  pose proof Hw as Hw'. unfold Wire.record in Hw'.
  apply andb_true_iff in Hw'. destruct Hw' as [Hj _].
  eexists. eexists. split; [apply flat_decode, Hty | split].
  - apply (flat_encode (fun f => Flat.lookup (casefy.camelcase f) d)).
    intros f _. apply json_lookup, Hj.
  - pose proof (eq_rebuilt keys d Hw) as He.
    unfold keys, Flat.wire_keys in He. fold names in He. rewrite map_map in He.
    exact He.
Qed.

End FlatCodec.

Ltac finite_names Hf :=
  cbn in Hf;
  repeat match type of Hf with
         | _ \/ _ => destruct Hf as [<- | Hf]
         end;
  try reflexivity; try contradiction.

Lemma record_dict (ks : list string) (w : value) :
  Wire.record ks w = true -> exists d, w = VDict d.
Proof.
  unfold Wire.record. destruct w; try (rewrite andb_false_r; discriminate).
  intros _. eexists. reflexivity.
Qed.

Lemma record_getitem (ks : list string) (d : list (string * value)) (k : string) :
  Wire.record ks (VDict d) = true -> In k ks ->
  Py.getitem (VDict d) k = Ok (Flat.lookup k d)
  /\ Py.dict_get k d = Some (Flat.lookup k d)
  /\ Py.json_value (Flat.lookup k d) = true.
Proof.
  intros Hw Hk. pose proof Hw as Hw'. unfold Wire.record in Hw'.
  apply andb_true_iff in Hw'. destruct Hw' as [Hj Hh].
  apply has_keys_spec in Hh. destruct Hh as [_ Hall].
  destruct (Hall k Hk) as [v Hv].
  unfold Py.getitem, Flat.lookup. rewrite Hv.
  split; [reflexivity | split; [reflexivity |]].
  apply json_dict_inv in Hj. destruct Hj as [_ Hvals].
  apply (Hvals k v). apply dict_get_Some_In, Hv.
Qed.

Lemma Qle_bool_inject_Z (a b : Z) : Qle_bool (inject_Z a) (inject_Z b) = (a <=? b).
Proof. unfold Qle_bool. cbn. rewrite !Z.mul_1_r. reflexivity. Qed.


Section RoundTrips.

Context {CF : Casefy} {SD : Serde}.

(** *** The flat records *)



Lemma AuthorAttribution_wire :
  wire_round_trip Wire.author_attribution
                  places.AuthorAttribution.from_api_format
                  places.AuthorAttribution.to_api_format.
Proof.
  intros w Hw.
  apply (flat_wire_round_trip "AuthorAttribution" places.AuthorAttribution.fields).
  - apply unique_NoDup. reflexivity.
  - intros f Hf. finite_names Hf.
  - exact Hw.
Qed.





Lemma AuthorAttribution_domain :
  domain_round_trip Typed.of_AuthorAttribution any
                    places.AuthorAttribution.to_api_format
                    places.AuthorAttribution.from_api_format.
Proof.
  intros [n [u|] [p|]] _; (eexists; split; [reflexivity|]);
    compute_checked; reflexivity.
Qed.





(** *** PlusCode and the areas *)









End RoundTrips.



(* ------------------------------------------------------------------------- *)
(** * Further properties *)
(* ------------------------------------------------------------------------- *)

(** ** The client: construction *)

(** X1: a client is only ever built around a key that starts with ["AIza"];
    a non-empty [api_key] argument decides alone, whatever the environment
    holds; an empty argument is the same as no argument, and then the key
    of the environment is the one that is checked; and with no key anywhere
    the constructor raises its [ValueError]. *)
Theorem Client_init_key :
  (forall environ api_key c,
      _client.Client.__init__ environ api_key = Ok c ->
      String.prefix "AIza" (_client.Client._api_key c) = true)
  /\ (forall environ key,
        key <> "" ->
        _client.Client.__init__ environ (Some key)
        = if String.prefix "AIza" key
          then Ok (_client.Client.mk_Client key)
          else Raise (ValueError "The provided API key is invalid."))
  /\ (forall environ,
        _client.Client.__init__ environ (Some "")
        = _client.Client.__init__ environ None)
  /\ (forall key,
        _client.Client.__init__ (Some key) None
        = if String.prefix "AIza" key
          then Ok (_client.Client.mk_Client key)
          else Raise (ValueError "The provided API key is invalid."))
  /\ _client.Client.__init__ None None
     = Raise (ValueError "An API key must be provided either as an argument or through the GOOGLE_MAPS_API_KEY environment variable.")
  /\ (forall c, _client.Client.__init__ None (Some "")
                <> Ok c).
Proof.
  assert (Hkey : forall key,
             (raise_unit <- _client.raise_if (negb (String.prefix "AIza" key))
                              (ValueError "The provided API key is invalid.") ;;
              Ok (_client.Client.mk_Client key))
             = if String.prefix "AIza" key
               then Ok (_client.Client.mk_Client key)
               else Raise (ValueError "The provided API key is invalid.")).
  { intros key. destruct (String.prefix "AIza" key); reflexivity. }
  split; [| split; [| split; [| split; [| split]]]].
  - intros environ api_key c. unfold _client.Client.__init__.
    set (key := match api_key with
                | Some s => if String.eqb s "" then environ else Some s
                | None => environ
                end).
    destruct key as [key|]; [|discriminate].
    rewrite Hkey. destruct (String.prefix "AIza" key) eqn:E; [|discriminate].
    intros [= <-]. exact E.
  - intros environ key Hne. unfold _client.Client.__init__.
    destruct (String.eqb_spec key "") as [-> | _]; [congruence|].
    apply Hkey.
  - intros environ. reflexivity.
  - intros key. unfold _client.Client.__init__. apply Hkey.
  - reflexivity.
  - intros c. discriminate.
Qed.

Lemma Client_init_key_witness :
  "AIzaSyExample" <> ""
  /\ _client.Client.__init__ (Some "other") (Some "AIzaSyExample")
     = Ok (_client.Client.mk_Client "AIzaSyExample").
Proof.
  assert (Hne : "AIzaSyExample" <> "") by discriminate.
  split; [exact Hne |].
  apply (proj1 (proj2 Client_init_key) (Some "other") "AIzaSyExample" Hne).
Defined.

(** ** The client: what is sent *)

Lemma await_Send {A : Type} (r : result _client.request)
      (k k' : Z -> value -> result A) (req : _client.request) :
  _client.await r k = _client.Send req k' -> r = Ok req /\ k' = k.
Proof.
  destruct r as [req0|e]; cbn [_client.await]; [|discriminate].
  intros [= -> ->]. split; reflexivity.
Qed.

Lemma bind_Ok {A B : Type} (r : result A) (k : A -> result B) (b : B) :
  bind r k = Ok b -> exists a, r = Ok a /\ k a = Ok b.
Proof.
  destruct r as [a|e]; cbn [bind]; [|discriminate].
  intros Hk. exists a. split; [reflexivity | exact Hk].
Qed.

Lemma raise_if_Ok (c : bool) (e : exn) (u : unit) :
  _client.raise_if c e = Ok u -> c = false.
Proof. destruct c; [discriminate | reflexivity]. Qed.

Lemma negb_range_false (lo hi x : Z) :
  negb ((lo <? x) && (x <=? hi)) = false -> lo < x <= hi.
Proof.
  rewrite negb_false_iff, andb_true_iff, Z.ltb_lt, Z.leb_le. tauto.
Qed.

Ltac open_bind H :=
  let a := fresh "a" in
  let Ha := fresh "Ha" in
  apply bind_Ok in H; destruct H as (a & Ha & H).

(** [types or []] is the list given, when there is one. *)
Lemma or_empty_given (types : option (list string)) :
  _client.Client.or_empty types
  = VList (map VStr (match types with Some l => l | None => [] end)).
Proof. destruct types as [[|x l]|]; reflexivity. Qed.

Section NearbySearch.
Context {CF : Casefy} {SD : Serde} `{SetOrder} `{DateUtil}.
Variable self : _client.Client.t.

(** X2: [search_nearby_places] ends with its [ValueError], and nothing is
    sent, when [max_num_results] is outside [[1, 20]].  Every request it
    sends is a POST to [places:searchNearby] without query parameters, made
    with a count in [[1, 20]]; its headers are the key and the prefixed field
    mask; its body has the encoded area under [locationRestriction.circle],
    the count, and for every type filter the whole list given, or [[]] when
    the filter is absent or empty.  With a [CircularArea], the field [rating]
    and no filter, a request is sent for every count in [[1, 20]]. *)
Theorem search_nearby_places_request :
  let given (types : option (list string)) :=
    VList (map VStr (match types with Some l => l | None => [] end)) in
  (forall area fields it et ipt ept language_code max_num_results rank_by,
      ~ (1 <= max_num_results <= 20) ->
      _client.Client.search_nearby_places self area fields it et ipt ept
        language_code max_num_results rank_by
      = _client.Done (Raise (ValueError
          "The maximum number of results must be between in the range [1, 20].")))
  /\ (forall area fields it et ipt ept language_code max_num_results rank_by
             req k,
        _client.Client.search_nearby_places self area fields it et ipt ept
          language_code max_num_results rank_by
        = _client.Send req k ->
        1 <= max_num_results <= 20
        /\ _client.http_method req = "POST"
        /\ _client.url req = "https://places.googleapis.com/v1/places:searchNearby"
        /\ _client.params req = None
        /\ exists mask circle body,
            places.create_field_mask fields true = Ok mask
            /\ places.call_to_api_format area = Ok circle
            /\ _client.headers req
               = [("X-Goog-Api-Key", VStr (_client.Client._api_key self));
                  ("X-Goog-FieldMask", VStr mask)]
            /\ _client.json req = Some (VDict body)
            /\ Py.dict_get "locationRestriction" body
               = Some (VDict [("circle", circle)])
            /\ Py.dict_get "maxResultCount" body = Some (VInt max_num_results)
            /\ Py.dict_get "includedTypes" body = Some (given it)
            /\ Py.dict_get "excludedTypes" body = Some (given et)
            /\ Py.dict_get "includedPrimaryTypes" body = Some (given ipt)
            /\ Py.dict_get "excludedPrimaryTypes" body = Some (given ept))
  /\ (forall c language_code max_num_results rank_by,
        1 <= max_num_results <= 20 ->
        exists req k,
          _client.Client.search_nearby_places self (Typed.of_CircularArea c)
            ["rating"] None None None None language_code max_num_results rank_by
          = _client.Send req k
          /\ _client.json req
             = Some (VDict
                 [("locationRestriction",
                   VDict [("circle",
                           VDict [("center",
                                   VDict [("latitude", VFloat (fst (Typed.ca_center c)));
                                          ("longitude", VFloat (snd (Typed.ca_center c)))]);
                                  ("radius", VInt (Typed.ca_radius c))])]);
                  ("languageCode", VStr language_code);
                  ("maxResultCount", VInt max_num_results);
                  ("rankPreference", VStr (Str.upper rank_by));
                  ("includedTypes", VList []);
                  ("excludedTypes", VList []);
                  ("includedPrimaryTypes", VList []);
                  ("excludedPrimaryTypes", VList [])])).
Proof.
  intros given. split; [| split].
  - intros area fields it et ipt ept language_code n rank_by Hn.
    unfold _client.Client.search_nearby_places.
    replace (negb ((0 <? n) && (n <=? 20))) with true; [reflexivity|].
    symmetry. apply negb_true_iff.
    destruct (0 <? n) eqn:E1; destruct (n <=? 20) eqn:E2; try reflexivity.
    apply Z.ltb_lt in E1. apply Z.leb_le in E2. lia.
  - intros area fields it et ipt ept language_code n rank_by req k Hs.
    unfold _client.Client.search_nearby_places in Hs.
    apply await_Send in Hs. destruct Hs as [Hr _].
    open_bind Hr. apply raise_if_Ok, negb_range_false in Ha.
    cbv zeta in Hr. open_bind Hr. open_bind Hr. injection Hr as <-.
    split; [lia|]. cbn [_client.http_method _client.url _client.params].
    split; [reflexivity | split; [reflexivity | split; [reflexivity |]]].
    eexists. eexists. eexists.
    split; [eassumption | split; [eassumption |]].
    cbn [_client.headers _client.json].
    split; [reflexivity | split; [reflexivity |]].
    unfold given. rewrite <- !or_empty_given. repeat split; reflexivity.
  - intros c language_code n rank_by Hn.
    unfold _client.Client.search_nearby_places.
    replace (negb ((0 <? n) && (n <=? 20))) with false.
    2:{ symmetry. apply negb_false_iff, andb_true_iff.
        split; [apply Z.ltb_lt | apply Z.leb_le]; lia. }
    cbn [_client.raise_if bind]. rewrite create_field_mask_rating.
    destruct c as [[lat lng] r]. cbn. eexists. eexists. split; reflexivity.
Qed.

End NearbySearch.

Lemma existsb_FREE_false (l : list PriceLevel_t) :
  existsb (Py.PriceLevel_eqb FREE) l = false -> ~ In FREE l.
Proof.
  intros Hf Hin. apply PriceLevel_FREE_in in Hin. congruence.
Qed.

Lemma rating_range_inv (r : Q) :
  negb (Qle_bool 0 r && Qle_bool r 5) = false -> (0 <= r /\ r <= 5)%Q.
Proof.
  rewrite negb_false_iff, andb_true_iff, !Qle_bool_iff. tauto.
Qed.

Section TextSearchRequest.
Context {CF : Casefy} {SD : Serde} `{SetOrder} `{DateUtil}.
Variable self : _client.Client.t.

(** X3: every request [search_places_by_text] sends was made with a
    non-empty query, a page size in [[1, 20]], at most one of the two areas,
    a rating in [[0, 5]] if any, no [FREE] price level and a rectangular
    restrict area if any.  Its header carries the field mask of the fields,
    its body the query, the page size and [openNow]; the body never holds
    both [locationBias] and [locationRestriction], and it holds
    [locationRestriction] exactly when a restrict area is given. *)
Theorem search_places_by_text_sent
        (query : string) (fields : list string) (included_type : option string)
        (language_code : string) (bias_area restrict_area : option value)
        (page_size : Z) (next_page_token : option string)
        (min_rating : option Q) (open_now : bool)
        (price_levels : option (list PriceLevel_t)) (rank_by : string)
        (req : _client.request) (k : Z -> value -> result value) :
  _client.Client.search_places_by_text self query fields included_type
    language_code bias_area restrict_area page_size next_page_token min_rating
    open_now price_levels rank_by
  = _client.Send req k ->
  query <> ""
  /\ 1 <= page_size <= 20
  /\ (bias_area = None \/ restrict_area = None)
  /\ (forall r, min_rating = Some r -> (0 <= r /\ r <= 5)%Q)
  /\ (forall l, price_levels = Some l -> ~ In FREE l)
  /\ (forall area, restrict_area = Some area ->
                   _client.isinstance area "RectangularArea" = true)
  /\ (exists mask, places.create_field_mask fields true = Ok mask
                   /\ Py.dict_get "X-Goog-FieldMask" (_client.headers req)
                      = Some (VStr mask))
  /\ exists body,
      _client.json req = Some (VDict body)
      /\ Py.dict_get "textQuery" body = Some (VStr query)
      /\ Py.dict_get "pageSize" body = Some (VInt page_size)
      /\ Py.dict_get "openNow" body = Some (VBool open_now)
      /\ (Py.dict_get "locationBias" body = None
          \/ Py.dict_get "locationRestriction" body = None)
      /\ (bias_area = None -> Py.dict_get "locationBias" body = None)
      /\ (Py.dict_get "locationRestriction" body = None <-> restrict_area = None).
Proof.
  intros Hs. unfold _client.Client.search_places_by_text in Hs.
  apply await_Send in Hs. destruct Hs as [Hr _].
  open_bind Hr. apply raise_if_Ok in Ha. rename Ha into Hq.
  open_bind Hr. apply raise_if_Ok in Ha. rename Ha into Hboth.
  open_bind Hr. apply raise_if_Ok, negb_range_false in Ha. rename Ha into Hps.
  open_bind Hr. apply raise_if_Ok in Ha. rename Ha into Hmr.
  open_bind Hr. apply raise_if_Ok in Ha. rename Ha into Hfree.
  cbv zeta in Hr. open_bind Hr. rename Ha into Hmask.
  open_bind Hr. rename Ha into Hbias. open_bind Hr. rename Ha into Hrestr.
  injection Hr as <-.
  split.
  { intros ->. discriminate. }
  split; [lia|].
  split.
  { destruct bias_area, restrict_area; try discriminate; auto. }
  split.
  { intros r ->. apply rating_range_inv, Hmr. }
  split.
  { intros l ->. apply existsb_FREE_false, Hfree. }
  split.
  { intros area ->. cbn in Hrestr.
    destruct (_client.isinstance area "RectangularArea"); [reflexivity|].
    discriminate. }
  split.
  { eexists. split; [eassumption | reflexivity]. }
  destruct restrict_area as [ra|].
  - destruct bias_area as [ba|]; [discriminate|].
    injection Hbias as <-. cbn in Hrestr.
    destruct (_client.isinstance ra "RectangularArea"); [|discriminate].
    cbn in Hrestr.
    destruct (places.RectangularArea.to_api_format ra) as [w|e]; [|discriminate].
    injection Hrestr as <-.
    destruct included_type, next_page_token, min_rating,
      price_levels as [[|p l]|];
      (eexists; split; [reflexivity |];
       repeat split; try reflexivity; try (left; reflexivity); discriminate).
  - injection Hrestr as <-.
    assert (Hb : exists body0 : list (string * value),
               a5 = body0
               /\ Py.dict_get "locationRestriction" body0 = None
               /\ Py.dict_get "textQuery" body0 = Some (VStr query)
               /\ Py.dict_get "pageSize" body0 = Some (VInt page_size)
               /\ Py.dict_get "openNow" body0 = Some (VBool open_now)
               /\ Py.dict_get "minRating" body0 = None
               /\ Py.dict_get "priceLevels" body0 = None
               /\ (bias_area = None -> Py.dict_get "locationBias" body0 = None)).
    { destruct bias_area as [ba|].
      - destruct (_client.isinstance ba "CircularArea").
        + destruct (places.CircularArea.to_api_format ba) as [w|e];
            [|discriminate].
          injection Hbias as <-.
          destruct included_type, next_page_token;
            (eexists; split; [reflexivity |]; repeat split;
             try reflexivity; discriminate).
        + destruct (_client.isinstance ba "RectangularArea").
          * destruct (places.RectangularArea.to_api_format ba) as [w|e];
              [|discriminate].
            injection Hbias as <-.
            destruct included_type, next_page_token;
              (eexists; split; [reflexivity |]; repeat split;
               try reflexivity; discriminate).
          * injection Hbias as <-.
            destruct included_type, next_page_token;
              (eexists; split; [reflexivity |]; repeat split;
               try reflexivity; discriminate).
      - injection Hbias as <-.
        destruct included_type, next_page_token;
          (eexists; split; [reflexivity |]; repeat split; reflexivity). }
    destruct Hb as (body0 & -> & Hlr & Htq & Hpsz & Hon & Hmin & Hpl & Hlb).
    assert (Hset : forall (kk : string) (v : value) (d : list (string * value)) k0,
               kk <> k0 -> Py.dict_get k0 (Py.dict_set kk v d) = Py.dict_get k0 d).
    { intros kk v d k0 Hne. induction d as [|[k1 v1] d IH]; cbn.
      - destruct (String.eqb_spec k0 kk); [congruence | reflexivity].
      - destruct (String.eqb_spec kk k1) as [-> | Hk1]; cbn.
        + destruct (String.eqb_spec k0 k1); [congruence | reflexivity].
        + destruct (String.eqb_spec k0 k1); [reflexivity | exact IH]. }
    eexists. split; [reflexivity |].
    destruct min_rating, price_levels as [[|p l]|];
      rewrite ?Hset by discriminate;
      (repeat split; try assumption; try (right; assumption); try reflexivity;
       intros _; assumption).
Qed.

End TextSearchRequest.

Lemma dict_get_set_eq {A : Type} (k : string) (v : A) (d : list (string * A)) :
  Py.dict_get k (Py.dict_set k v d) = Some v.
Proof.
  induction d as [|[k1 v1] d IH]; cbn [Py.dict_set Py.dict_get].
  - rewrite String.eqb_refl. reflexivity.
  - destruct (String.eqb_spec k k1) as [-> | Hne]; cbn [Py.dict_get].
    + rewrite String.eqb_refl. reflexivity.
    + destruct (String.eqb_spec k k1); [congruence | exact IH].
Qed.

Lemma dict_get_set_ne {A : Type} (k k0 : string) (v : A) (d : list (string * A)) :
  k <> k0 -> Py.dict_get k0 (Py.dict_set k v d) = Py.dict_get k0 d.
Proof.
  intros Hne. induction d as [|[k1 v1] d IH]; cbn [Py.dict_set Py.dict_get].
  - destruct (String.eqb_spec k0 k); [congruence | reflexivity].
  - destruct (String.eqb_spec k k1) as [-> | Hk1]; cbn [Py.dict_get].
    + destruct (String.eqb_spec k0 k1); [congruence | reflexivity].
    + destruct (String.eqb_spec k0 k1); [reflexivity | exact IH].
Qed.

Ltac dict_lookups :=
  repeat first
    [ rewrite dict_get_set_eq
    | rewrite dict_get_set_ne by discriminate ];
  cbn [Py.dict_get String.eqb Ascii.eqb Bool.eqb].

Section TextSearchBody.
Context {CF : Casefy} {SD : Serde} `{SetOrder} `{DateUtil}.
Variable self : _client.Client.t.

(** X4: in the body of every request [search_places_by_text] sends, an
    optional argument shows exactly when it is given: [includedType] with
    [strictTypeFiltering] set to [True], [pageToken], [minRating], and
    [priceLevels] with the API names of all the levels, in their order (an
    empty list of levels leaves the key out); the language and the
    upper-cased rank preference are always there. *)
Theorem search_places_by_text_optional
        (query : string) (fields : list string) (included_type : option string)
        (language_code : string) (bias_area restrict_area : option value)
        (page_size : Z) (next_page_token : option string)
        (min_rating : option Q) (open_now : bool)
        (price_levels : option (list PriceLevel_t)) (rank_by : string)
        (req : _client.request) (k : Z -> value -> result value) :
  _client.Client.search_places_by_text self query fields included_type
    language_code bias_area restrict_area page_size next_page_token min_rating
    open_now price_levels rank_by
  = _client.Send req k ->
  exists body,
    _client.json req = Some (VDict body)
    /\ Py.dict_get "includedType" body
       = option_map VStr included_type
    /\ Py.dict_get "strictTypeFiltering" body
       = option_map (fun _ => VBool true) included_type
    /\ Py.dict_get "pageToken" body = option_map VStr next_page_token
    /\ Py.dict_get "minRating" body = option_map VFloat min_rating
    /\ Py.dict_get "priceLevels" body
       = match price_levels with
         | Some (level :: levels) =>
             Some (VList (map (fun p => VStr (places.PriceLevel.to_api_format p))
                              (level :: levels)))
         | _ => None
         end
    /\ Py.dict_get "languageCode" body = Some (VStr language_code)
    /\ Py.dict_get "rankPreference" body = Some (VStr (Str.upper rank_by)).
Proof.
  intros Hs. unfold _client.Client.search_places_by_text in Hs.
  apply await_Send in Hs. destruct Hs as [Hr _].
  do 5 (open_bind Hr; clear Ha).
  cbv zeta in Hr. open_bind Hr. clear Ha.
  open_bind Hr. rename Ha into Hbias. open_bind Hr. rename Ha into Hrestr.
  injection Hr as <-. cbn [_client.json].
  set (base := match next_page_token with
               | Some token => Py.dict_set "pageToken" (VStr token) _
               | None => _
               end) in Hbias.
  assert (Hbase : Py.dict_get "includedType" base = option_map VStr included_type
                  /\ Py.dict_get "strictTypeFiltering" base
                     = option_map (fun _ => VBool true) included_type
                  /\ Py.dict_get "pageToken" base = option_map VStr next_page_token
                  /\ Py.dict_get "minRating" base = None
                  /\ Py.dict_get "priceLevels" base = None
                  /\ Py.dict_get "languageCode" base = Some (VStr language_code)
                  /\ Py.dict_get "rankPreference" base
                     = Some (VStr (Str.upper rank_by))).
  { unfold base. destruct included_type, next_page_token;
      dict_lookups; repeat split; reflexivity. }
  assert (H5 : forall key, key <> "locationBias" ->
                           Py.dict_get key a5 = Py.dict_get key base).
  { intros key Hk. clearbody base. destruct bias_area as [ba|].
    - destruct (_client.isinstance ba "CircularArea").
      + destruct (places.CircularArea.to_api_format ba); [|discriminate].
        injection Hbias as <-. apply dict_get_set_ne. congruence.
      + destruct (_client.isinstance ba "RectangularArea").
        * destruct (places.RectangularArea.to_api_format ba); [|discriminate].
          injection Hbias as <-. apply dict_get_set_ne. congruence.
        * injection Hbias as <-. reflexivity.
    - injection Hbias as <-. reflexivity. }
  assert (H6 : forall key, key <> "locationBias" -> key <> "locationRestriction" ->
                           Py.dict_get key a6 = Py.dict_get key base).
  { intros key Hk Hk'. rewrite <- (H5 key Hk). destruct restrict_area as [ra|].
    - cbn in Hrestr.
      destruct (_client.isinstance ra "RectangularArea"); [|discriminate].
      cbn in Hrestr.
      destruct (places.RectangularArea.to_api_format ra); [|discriminate].
      injection Hrestr as <-. apply dict_get_set_ne. congruence.
    - injection Hrestr as <-. reflexivity. }
  destruct Hbase as (B1 & B2 & B3 & B4 & B5 & B6 & B7).
  eexists. split; [reflexivity |].
  destruct min_rating as [r|], price_levels as [[|p l]|]; cbn [option_map];
    dict_lookups; rewrite ?H6 by discriminate;
    repeat split; assumption.
Qed.

(** X5: in every request [search_places_by_text] sends, a circular bias
    area is under [locationBias.circle] and a rectangular one under
    [locationBias.rectangle], with no [locationRestriction]; a rectangular
    restrict area is under [locationRestriction.rectangle], with no
    [locationBias].  Each area is in its wire form. *)
Theorem search_places_by_text_areas
        (query : string) (fields : list string) (included_type : option string)
        (language_code : string) (page_size : Z)
        (next_page_token : option string) (min_rating : option Q)
        (open_now : bool) (price_levels : option (list PriceLevel_t))
        (rank_by : string) :
  let search bias_area restrict_area :=
    _client.Client.search_places_by_text self query fields included_type
      language_code bias_area restrict_area page_size next_page_token
      min_rating open_now price_levels rank_by in
  let lat_lng (p : Typed.LatLng) :=
    VDict [("latitude", VFloat (fst p)); ("longitude", VFloat (snd p))] in
  let circle c :=
    VDict [("center", lat_lng (Typed.ca_center c));
           ("radius", VInt (Typed.ca_radius c))] in
  let rectangle r :=
    VDict [("low", lat_lng (Typed.ra_south_west r));
           ("high", lat_lng (Typed.ra_north_east r))] in
  (forall c req k,
      search (Some (Typed.of_CircularArea c)) None = _client.Send req k ->
      exists body,
        _client.json req = Some (VDict body)
        /\ Py.dict_get "locationBias" body = Some (VDict [("circle", circle c)])
        /\ Py.dict_get "locationRestriction" body = None)
  /\ (forall r req k,
        search (Some (Typed.of_RectangularArea r)) None = _client.Send req k ->
        exists body,
          _client.json req = Some (VDict body)
          /\ Py.dict_get "locationBias" body
             = Some (VDict [("rectangle", rectangle r)])
          /\ Py.dict_get "locationRestriction" body = None)
  /\ (forall r req k,
        search None (Some (Typed.of_RectangularArea r)) = _client.Send req k ->
        exists body,
          _client.json req = Some (VDict body)
          /\ Py.dict_get "locationRestriction" body
             = Some (VDict [("rectangle", rectangle r)])
          /\ Py.dict_get "locationBias" body = None).
Proof.
  cbv zeta. split; [| split].
  - intros [[lat lng] rad] req k Hs.
    unfold _client.Client.search_places_by_text in Hs.
    apply await_Send in Hs. destruct Hs as [Hr _].
    do 5 (open_bind Hr; clear Ha). cbv zeta in Hr. open_bind Hr. clear Ha.
    cbn in Hr. injection Hr as <-. cbn [_client.json].
    eexists. split; [reflexivity |].
    destruct included_type, next_page_token, min_rating,
      price_levels as [[|p l]|]; dict_lookups; split; reflexivity.
  - intros [[lat1 lng1] [lat2 lng2]] req k Hs.
    unfold _client.Client.search_places_by_text in Hs.
    apply await_Send in Hs. destruct Hs as [Hr _].
    do 5 (open_bind Hr; clear Ha). cbv zeta in Hr. open_bind Hr. clear Ha.
    cbn in Hr. injection Hr as <-. cbn [_client.json].
    eexists. split; [reflexivity |].
    destruct included_type, next_page_token, min_rating,
      price_levels as [[|p l]|]; dict_lookups; split; reflexivity.
  - intros [[lat1 lng1] [lat2 lng2]] req k Hs.
    unfold _client.Client.search_places_by_text in Hs.
    apply await_Send in Hs. destruct Hs as [Hr _].
    do 5 (open_bind Hr; clear Ha). cbv zeta in Hr. open_bind Hr. clear Ha.
    cbn in Hr. injection Hr as <-. cbn [_client.json].
    eexists. split; [reflexivity |].
    destruct included_type, next_page_token, min_rating,
      price_levels as [[|p l]|]; dict_lookups; split; reflexivity.
Qed.

End TextSearchBody.

Lemma lstrip_idem (c : ascii) (s : string) :
  Str.lstrip c (Str.lstrip c s) = Str.lstrip c s.
Proof.
  induction s as [|a s IH]; cbn [Str.lstrip]; [reflexivity|].
  destruct (Ascii.eqb a c) eqn:E; [exact IH|].
  cbn [Str.lstrip]. rewrite E. reflexivity.
Qed.

Lemma rstrip_idem (c : ascii) (s : string) :
  Str.rstrip c (Str.rstrip c s) = Str.rstrip c s.
Proof.
  induction s as [|a s IH]; cbn [Str.rstrip]; [reflexivity|].
  destruct (Str.rstrip c s) as [|b r] eqn:E.
  - destruct (Ascii.eqb a c) eqn:Ea; [reflexivity|].
    cbn [Str.rstrip]. rewrite Ea. reflexivity.
  - cbn [Str.rstrip]. cbn [Str.rstrip] in IH.
    destruct (Str.rstrip c r) as [|b' r'] eqn:Er.
    + destruct (Ascii.eqb b c) eqn:Eb; [discriminate | f_equal; exact IH].
    + f_equal. exact IH.
Qed.

Lemma lstrip_rstrip (c : ascii) (s : string) :
  Str.lstrip c s = s -> Str.lstrip c (Str.rstrip c s) = Str.rstrip c s.
Proof.
  destruct s as [|a s]; [reflexivity|]. cbn [Str.lstrip].
  destruct (Ascii.eqb a c) eqn:Ea.
  - intros Hl. exfalso.
    assert (Hlen : (String.length (Str.lstrip c s) <= String.length s)%nat).
    { clear. induction s as [|b s IH]; cbn [Str.lstrip]; [lia|].
      destruct (Ascii.eqb b c); cbn [String.length]; lia. }
    rewrite Hl in Hlen. cbn [String.length] in Hlen. lia.
  - intros _. cbn [Str.rstrip].
    destruct (Str.rstrip c s) as [|b r]; rewrite ?Ea; cbn [Str.lstrip];
      rewrite Ea; reflexivity.
Qed.

(** [s.strip(c)] has no [c] left to strip at either end. *)
Lemma strip_stripped (c : ascii) (s : string) :
  Str.lstrip c (Str.strip c s) = Str.strip c s
  /\ Str.rstrip c (Str.strip c s) = Str.strip c s.
Proof.
  unfold Str.strip. split; [|apply rstrip_idem].
  apply lstrip_rstrip, lstrip_idem.
Qed.

Lemma get_dict (d : list (string * value)) (k : string) :
  Py.get (VDict d) k = Ok (Flat.lookup k d).
Proof.
  unfold Py.get, Flat.lookup. destruct (Py.dict_get k d); reflexivity.
Qed.

Lemma from_api_response_dict (code : Z) (d : list (string * value)) :
  _exceptions.APIError.from_api_response code (VDict d)
  = Ok {| status_code := code;
          message := Flat.lookup "message" d;
          status := Flat.lookup "status" d;
          details := Flat.lookup "details" d |}.
Proof.
  unfold _exceptions.APIError.from_api_response. rewrite !get_dict. reflexivity.
Qed.

Lemma not_200 (status : Z) : status <> 200 -> negb (status =? 200) = true.
Proof. intros Hs. apply negb_true_iff, Z.eqb_neq, Hs. Qed.

Lemma mapM_Forall2 {A B : Type} (f : A -> result B) (l : list A) (ys : list B) :
  mapM f l = Ok ys <-> Forall2 (fun x y => f x = Ok y) l ys.
Proof.
  revert ys. induction l as [|x l IH]; intros ys; cbn [mapM].
  - split.
    + intros [= <-]. constructor.
    + intros Hf. inversion Hf. reflexivity.
  - split.
    + intros Hm. destruct (f x) as [y|e] eqn:Ex; cbn [bind] in Hm; [|discriminate].
      destruct (mapM f l) as [ys'|e] eqn:El; cbn [bind] in Hm; [|discriminate].
      injection Hm as <-. constructor; [exact Ex | apply IH; reflexivity].
    + intros Hf. inversion Hf as [|x' y l' ys' Hx Hl]; subst.
      rewrite Hx. cbn [bind]. apply IH in Hl. rewrite Hl. reflexivity.
Qed.

Section Responses.
Context {CF : Casefy} {SD : Serde} `{SetOrder} `{DateUtil}.
Variable self : _client.Client.t.

Ltac error_response Hs :=
  apply await_Send in Hs; destruct Hs as [_ ->];
  intros status Hstatus; split; [intros d | intros l];
  cbv beta; rewrite (not_200 status Hstatus);
  [rewrite from_api_response_dict |]; reflexivity.

(** X8: whatever request one of the four methods has sent, a response
    whose status is not 200 makes it raise the [APIError] with that status
    code and with the [message], [status] and [details] of the body ([None]
    for those the body lacks); a body that is a list raises
    [AttributeError] instead. *)
Theorem error_response_raises_APIError :
  (forall area fields it et ipt ept language_code max_num_results rank_by req k,
      _client.Client.search_nearby_places self area fields it et ipt ept
        language_code max_num_results rank_by = _client.Send req k ->
      Response.raises_APIError k)
  /\ (forall query fields included_type language_code bias_area restrict_area
             page_size next_page_token min_rating open_now price_levels rank_by
             req k,
        _client.Client.search_places_by_text self query fields included_type
          language_code bias_area restrict_area page_size next_page_token
          min_rating open_now price_levels rank_by = _client.Send req k ->
        Response.raises_APIError k)
  /\ (forall place_id fields language_code req k,
        _client.Client.get_place_details self place_id fields language_code
        = _client.Send req k ->
        Response.raises_APIError k)
  /\ (forall photo max_width max_height req k,
        _client.Client.get_photo_uri self photo max_width max_height
        = _client.Send req k ->
        Response.raises_APIError k).
Proof.
  split; [| split; [| split]].
  - intros area fields it et ipt ept language_code n rank_by req k Hs.
    unfold _client.Client.search_nearby_places in Hs. error_response Hs.
  - intros query fields included_type language_code bias_area restrict_area
           page_size next_page_token min_rating open_now price_levels rank_by
           req k Hs.
    unfold _client.Client.search_places_by_text in Hs. error_response Hs.
  - intros place_id fields language_code req k Hs.
    unfold _client.Client.get_place_details in Hs. error_response Hs.
  - intros photo max_width max_height req k Hs.
    unfold _client.Client.get_photo_uri in Hs. error_response Hs.
Qed.

End Responses.

Section DetailsAndPhoto.
Context {CF : Casefy} {SD : Serde} `{SetOrder} `{DateUtil}.
Variable self : _client.Client.t.

(** X6: [get_place_details] ends with its [ValueError], and nothing is
    sent, for the empty place id.  Every request it sends is the GET of
    [/v1/places/] followed by the place id as it is, with the key and the
    field mask without prefix as headers and the language as the one query
    parameter; a 200 response is decoded whole as one [Place].  So the
    field [display_name] is asked for as [displayName]. *)
Theorem get_place_details_request :
  (forall fields language_code,
      _client.Client.get_place_details self "" fields language_code
      = _client.Done (Raise (ValueError "The place ID must not be empty.")))
  /\ (forall place_id fields language_code req k,
        _client.Client.get_place_details self place_id fields language_code
        = _client.Send req k ->
        place_id <> ""
        /\ exists mask,
            places.create_field_mask fields false = Ok mask
            /\ req = _client.mk_request "GET"
                       ("https://places.googleapis.com/v1/places/" ++ place_id)%string
                       [("X-Goog-Api-Key", VStr (_client.Client._api_key self));
                        ("X-Goog-FieldMask", VStr mask)]
                       (Some [("languageCode", VStr language_code)])
                       None
            /\ forall data, k 200 data = places.Place.from_api_format data)
  /\ (forall place_id language_code,
        place_id <> "" ->
        exists k,
          _client.Client.get_place_details self place_id ["display_name"]
            language_code
          = _client.Send
              (_client.mk_request "GET"
                 ("https://places.googleapis.com/v1/places/" ++ place_id)%string
                 [("X-Goog-Api-Key", VStr (_client.Client._api_key self));
                  ("X-Goog-FieldMask", VStr "displayName")]
                 (Some [("languageCode", VStr language_code)])
                 None)
              k).
Proof.
  split; [| split].
  - intros fields language_code. reflexivity.
  - intros place_id fields language_code req k Hs.
    unfold _client.Client.get_place_details in Hs.
    apply await_Send in Hs. destruct Hs as [Hr ->].
    open_bind Hr. apply raise_if_Ok in Ha.
    cbv zeta in Hr. open_bind Hr. injection Hr as <-.
    split.
    { intros ->. discriminate. }
    eexists. split; [eassumption | split; [reflexivity |]].
    intros data. reflexivity.
  - intros place_id language_code Hne.
    unfold _client.Client.get_place_details.
    destruct place_id as [|c s]; [congruence|].
    cbn [String.length Nat.eqb _client.raise_if bind].
    rewrite create_field_mask_cases. cbn [places.dedup Str.mem existsb].
    rewrite set_iter_singleton. cbn. rewrite set_iter_nil. cbn.
    eexists. reflexivity.
Qed.

(** X7: every request [get_photo_uri] sends carries exactly one size
    parameter with a value in [[1, 4800]]: [maxWidthPx] when a width is
    given, [maxHeightPx] only when no width is; both bounds, when given,
    are in range.  It is a GET with the key as only header, of [/v1/], the
    name of the photo without the slashes at its ends, and [/media].  A 200
    response gives the [photoUri] of the body, and raises [KeyError] when
    the body has none. *)
Theorem get_photo_uri_one_size (photo : value) (max_width max_height : option Z)
        (req : _client.request) (k : Z -> value -> result value) :
  _client.Client.get_photo_uri self photo max_width max_height
  = _client.Send req k ->
  (forall w, max_width = Some w -> 1 <= w <= 4800)
  /\ (forall h, max_height = Some h -> 1 <= h <= 4800)
  /\ (exists size,
        1 <= size <= 4800
        /\ ((max_width = Some size
             /\ _client.params req
                = Some [("skipHttpRedirect", VStr "true");
                        ("maxWidthPx", VInt size)])
            \/ (max_width = None /\ max_height = Some size
                /\ _client.params req
                   = Some [("skipHttpRedirect", VStr "true");
                           ("maxHeightPx", VInt size)])))
  /\ (exists name,
        Py.getattr photo "name" = Ok (VStr name)
        /\ _client.url req
           = ("https://places.googleapis.com/v1/" ++ Str.strip "/" name
              ++ "/media")%string
        /\ Str.lstrip "/" (Str.strip "/" name) = Str.strip "/" name
        /\ Str.rstrip "/" (Str.strip "/" name) = Str.strip "/" name)
  /\ _client.http_method req = "GET"
  /\ _client.headers req = [("X-Goog-Api-Key", VStr (_client.Client._api_key self))]
  /\ (forall d uri, Py.dict_get "photoUri" d = Some uri ->
                    k 200 (VDict d) = Ok uri)
  /\ (forall d, Py.dict_get "photoUri" d = None ->
                k 200 (VDict d) = Raise (KeyError (VStr "photoUri"))).
Proof.
  intros Hs. unfold _client.Client.get_photo_uri in Hs.
  apply await_Send in Hs. destruct Hs as [Hr ->].
  open_bind Hr. apply raise_if_Ok in Ha. rename Ha into Hany.
  open_bind Hr. apply raise_if_Ok in Ha. rename Ha into Hw.
  open_bind Hr. apply raise_if_Ok in Ha. rename Ha into Hh.
  open_bind Hr. rename Ha into Hname. open_bind Hr.
  destruct a2 as [| | | |name| | | | | | | |]; try discriminate.
  injection Ha as <-. cbv zeta in Hr. injection Hr as <-.
  assert (Hin : forall x, negb ((1 <=? x) && (x <=? 4800)) = false -> 1 <= x <= 4800).
  { intros x. rewrite negb_false_iff, andb_true_iff, !Z.leb_le. tauto. }
  split; [intros w ->; apply Hin, Hw |].
  split; [intros h ->; apply Hin, Hh |].
  split.
  { destruct max_width as [w|].
    - exists w. split; [apply Hin, Hw | left; split; reflexivity].
    - destruct max_height as [h|]; [|discriminate].
      exists h. split; [apply Hin, Hh | right; repeat split; reflexivity]. }
  split.
  { exists name. split; [exact Hname | split; [reflexivity |]].
    apply strip_stripped. }
  split; [reflexivity | split; [reflexivity | split]].
  - intros d uri Hd. cbn. rewrite Hd. reflexivity.
  - intros d Hd. cbn. rewrite Hd. reflexivity.
Qed.

(** X9: for both searches, a 200 response whose body has no [places] key
    raises [KeyError] (it is not read as an empty result); when [places] is
    a list, the call returns exactly when every element decodes as a
    [Place], and then returns the decoded places in order (for the text
    search, paired with the [nextPageToken] of the body, [None] when
    absent). *)
Theorem search_success_response :
  (forall area fields it et ipt ept language_code max_num_results rank_by req k,
      _client.Client.search_nearby_places self area fields it et ipt ept
        language_code max_num_results rank_by = _client.Send req k ->
      (forall d, Py.dict_get "places" d = None ->
                 k 200 (VDict d) = Raise (KeyError (VStr "places")))
      /\ (forall d ws v,
            Py.dict_get "places" d = Some (VList ws) ->
            (k 200 (VDict d) = Ok v <->
             exists xs,
               Forall2 (fun w x => places.Place.from_api_format w = Ok x) ws xs
               /\ v = VList xs)))
  /\ (forall query fields included_type language_code bias_area restrict_area
             page_size next_page_token min_rating open_now price_levels rank_by
             req k,
        _client.Client.search_places_by_text self query fields included_type
          language_code bias_area restrict_area page_size next_page_token
          min_rating open_now price_levels rank_by = _client.Send req k ->
        (forall d, Py.dict_get "places" d = None ->
                   k 200 (VDict d) = Raise (KeyError (VStr "places")))
        /\ (forall d ws v,
              Py.dict_get "places" d = Some (VList ws) ->
              (k 200 (VDict d) = Ok v <->
               exists xs,
                 Forall2 (fun w x => places.Place.from_api_format w = Ok x) ws xs
                 /\ v = VTuple [VList xs; Flat.lookup "nextPageToken" d]))).
Proof.
  split.
  - intros area fields it et ipt ept language_code n rank_by req k Hs.
    unfold _client.Client.search_nearby_places in Hs.
    apply await_Send in Hs. destruct Hs as [_ ->]. split.
    + intros d Hd. cbn. rewrite Hd. reflexivity.
    + intros d ws v Hd. cbn. rewrite Hd. cbn [bind Py.iter]. split.
      * intros Hk.
        destruct (mapM places.Place.from_api_format ws) as [xs|e] eqn:E;
          cbn [bind] in Hk; [|discriminate].
        injection Hk as <-. exists xs. split; [apply mapM_Forall2, E | reflexivity].
      * intros (xs & Hf & ->). apply mapM_Forall2 in Hf. rewrite Hf. reflexivity.
  - intros query fields included_type language_code bias_area restrict_area
           page_size next_page_token min_rating open_now price_levels rank_by
           req k Hs.
    unfold _client.Client.search_places_by_text in Hs.
    apply await_Send in Hs. destruct Hs as [_ ->]. split.
    + intros d Hd. cbv beta. cbn [Z.eqb Pos.eqb negb]. rewrite get_dict.
      cbn [bind Py.getitem]. rewrite Hd. reflexivity.
    + intros d ws v Hd. cbv beta. cbn [Z.eqb Pos.eqb negb]. rewrite get_dict.
      cbn [bind Py.getitem]. rewrite Hd. cbn [bind Py.iter]. split.
      * intros Hk.
        destruct (mapM places.Place.from_api_format ws) as [xs|e] eqn:E;
          cbn [bind] in Hk; [|discriminate].
        injection Hk as <-. exists xs. split; [apply mapM_Forall2, E | reflexivity].
      * intros (xs & Hf & ->). apply mapM_Forall2 in Hf. rewrite Hf. reflexivity.
Qed.

End DetailsAndPhoto.

(** ** Witnesses for the requests *)

Ltac send_witness thm :=
  match goal with
  | |- exists req k, ?call = _client.Send req k /\ _ =>
      let Hc := fresh "Hc" in
      pose proof (eq_refl call) as Hc;
      match type of Hc with
      | _ = ?r =>
          let r' := eval hnf in r in
          change (call = r') in Hc
      end;
      match type of Hc with
      | _ = _client.Send ?req ?k =>
          exists req, k; split; [exact Hc | thm Hc]
      end
  end.

Lemma search_nearby_places_request_witness :
  exists req k,
    @_client.Client.search_nearby_places
      other_strings_kept check_every_item insertion_order parse_nothing
      (_client.Client.mk_Client "AIzaKey")
      (Typed.of_CircularArea
         {| Typed.ca_center := (45 # 1, 9 # 1)%Q; Typed.ca_radius := 100 |})
      ["rating"] (Some ["cafe"; "bar"]) None (Some []) None "en" 20 "popularity"
    = _client.Send req k
    /\ exists body,
         _client.json req = Some (VDict body)
         /\ Py.dict_get "includedTypes" body = Some (VList [VStr "cafe"; VStr "bar"])
         /\ Py.dict_get "excludedTypes" body = Some (VList [])
         /\ Py.dict_get "includedPrimaryTypes" body = Some (VList []).
Proof.
  send_witness ltac:(fun Hc =>
    destruct (proj1 (proj2 (@search_nearby_places_request
                              other_strings_kept check_every_item insertion_order
                              parse_nothing (_client.Client.mk_Client "AIzaKey")))
                    _ _ _ _ _ _ _ _ _ _ _ Hc)
      as (_ & _ & _ & _ & mask & circle & body & _ & _ & _ & Hj & _ & _
          & Hi & He & Hp & _);
    exists body; split; [exact Hj | split; [exact Hi | split; [exact He | exact Hp]]]).
Defined.

Lemma search_places_by_text_sent_witness :
  exists req k,
    @_client.Client.search_places_by_text other_strings_kept check_every_item insertion_order parse_nothing
      (_client.Client.mk_Client "AIzaKey") "pizza" ["rating"] None "en" None
      None 20 None (Some 5%Q) false None "relevance"
    = _client.Send req k
    /\ "pizza" <> "".
Proof.
  send_witness ltac:(fun Hc =>
    exact (proj1 (@search_places_by_text_sent other_strings_kept check_every_item insertion_order parse_nothing
                    _ _ _ _ _ _ _ _ _ _ _ _ _ _ _ Hc))).
Defined.

Lemma search_places_by_text_optional_witness :
  exists req k,
    @_client.Client.search_places_by_text other_strings_kept check_every_item insertion_order parse_nothing
      (_client.Client.mk_Client "AIzaKey") "pizza" ["rating"] (Some "restaurant")
      "en" None None 20 None (Some 4%Q) false (Some [MODERATE; EXPENSIVE])
      "relevance"
    = _client.Send req k
    /\ exists body,
         _client.json req = Some (VDict body)
         /\ Py.dict_get "includedType" body = Some (VStr "restaurant")
         /\ Py.dict_get "strictTypeFiltering" body = Some (VBool true)
         /\ Py.dict_get "pageToken" body = None
         /\ Py.dict_get "minRating" body = Some (VFloat 4%Q)
         /\ Py.dict_get "priceLevels" body
            = Some (VList [VStr "PRICE_LEVEL_MODERATE";
                           VStr "PRICE_LEVEL_EXPENSIVE"]).
Proof.
  send_witness ltac:(fun Hc =>
    destruct (@search_places_by_text_optional other_strings_kept check_every_item insertion_order parse_nothing
                _ _ _ _ _ _ _ _ _ _ _ _ _ _ _ Hc)
      as (body & Hj & Hi & Hs & Ht & Hm & Hp & _);
    exists body;
    split; [exact Hj | split; [exact Hi | split; [exact Hs | split;
      [exact Ht | split; [exact Hm | exact Hp]]]]]).
Defined.

Lemma search_places_by_text_areas_witness :
  exists req k,
    @_client.Client.search_places_by_text other_strings_kept check_every_item insertion_order parse_nothing
      (_client.Client.mk_Client "AIzaKey") "pizza" ["rating"] None "en"
      (Some (Typed.of_CircularArea
               {| Typed.ca_center := (45 # 1, 9 # 1)%Q; Typed.ca_radius := 100 |}))
      None 20 None None false None "relevance"
    = _client.Send req k
    /\ exists body,
         _client.json req = Some (VDict body)
         /\ Py.dict_get "locationRestriction" body = None.
Proof.
  send_witness ltac:(fun Hc =>
    destruct (proj1 (@search_places_by_text_areas other_strings_kept check_every_item insertion_order parse_nothing
                       (_client.Client.mk_Client "AIzaKey") "pizza" ["rating"]
                       None "en" 20 None None false None "relevance")
                    _ _ _ Hc)
      as (body & Hj & _ & Hr);
    exists body; split; [exact Hj | exact Hr]).
Defined.

Lemma error_response_raises_APIError_witness :
  exists req k,
    @_client.Client.get_place_details other_strings_kept check_every_item insertion_order parse_nothing
      (_client.Client.mk_Client "AIzaKey") "ChIJ" ["rating"] "en"
    = _client.Send req k
    /\ Response.raises_APIError k.
Proof.
  send_witness ltac:(fun Hc =>
    exact (proj1 (proj2 (proj2 (@error_response_raises_APIError
                                  other_strings_kept check_every_item insertion_order parse_nothing
                                  (_client.Client.mk_Client "AIzaKey"))))
                 _ _ _ _ _ Hc)).
Defined.

Lemma get_place_details_request_witness :
  "ChIJ" <> ""
  /\ exists k,
       @_client.Client.get_place_details other_strings_kept check_every_item insertion_order parse_nothing
         (_client.Client.mk_Client "AIzaKey") "ChIJ" ["display_name"] "en"
       = _client.Send
           (_client.mk_request "GET" "https://places.googleapis.com/v1/places/ChIJ"
              [("X-Goog-Api-Key", VStr "AIzaKey");
               ("X-Goog-FieldMask", VStr "displayName")]
              (Some [("languageCode", VStr "en")]) None)
           k.
Proof.
  assert (Hne : "ChIJ" <> "") by discriminate.
  split; [exact Hne |].
  exact (proj2 (proj2 (@get_place_details_request other_strings_kept check_every_item insertion_order parse_nothing
                         (_client.Client.mk_Client "AIzaKey")))
               "ChIJ" "en" Hne).
Defined.

Lemma get_photo_uri_one_size_witness :
  exists req k,
    _client.Client.get_photo_uri (_client.Client.mk_Client "AIzaKey")
      (Typed.of_Photo "/places/p/photos/q/" 300 400 []) None (Some 200)
    = _client.Send req k
    /\ _client.http_method req = "GET".
Proof.
  send_witness ltac:(fun Hc =>
    exact (proj1 (proj2 (proj2 (proj2 (proj2
             (get_photo_uri_one_size _ _ _ _ _ _ Hc))))))).
Defined.

Lemma search_success_response_witness :
  exists req k,
    @_client.Client.search_nearby_places other_strings_kept check_every_item insertion_order parse_nothing
      (_client.Client.mk_Client "AIzaKey")
      (Typed.of_CircularArea
         {| Typed.ca_center := (45 # 1, 9 # 1)%Q; Typed.ca_radius := 100 |})
      ["rating"] None None None None "en" 20 "popularity"
    = _client.Send req k
    /\ (forall d, Py.dict_get "places" d = None ->
                  k 200 (VDict d) = Raise (KeyError (VStr "places"))).
Proof.
  send_witness ltac:(fun Hc =>
    exact (proj1 (proj1 (@search_success_response other_strings_kept check_every_item insertion_order parse_nothing
                           (_client.Client.mk_Client "AIzaKey"))
                        _ _ _ _ _ _ _ _ _ _ _ Hc))).
Defined.

(** ** Opening hours: what every decoded value is *)

Lemma append_nth_length {A : Type} (l : list (list A)) (n : nat) (x : A) :
  length (Py.append_nth l n x) = length l.
Proof.
  revert n. induction l as [|b l IH]; intros n; [reflexivity|].
  destruct n; cbn [Py.append_nth length]; [reflexivity | rewrite IH; reflexivity].
Qed.

Lemma append_nth_forallb {A : Type} (p : A -> bool) (l : list (list A))
      (n : nat) (x : A) :
  p x = true -> forallb (forallb p) l = true ->
  forallb (forallb p) (Py.append_nth l n x) = true.
Proof.
  intros Hx. revert n. induction l as [|b l IH]; intros n Hl; [reflexivity|].
  cbn [forallb] in Hl. apply andb_true_iff in Hl. destruct Hl as [Hb Hl].
  destruct n; cbn [Py.append_nth forallb].
  - rewrite forallb_app, Hb, Hl. cbn [forallb]. rewrite Hx. reflexivity.
  - rewrite Hb, (IH n Hl). reflexivity.
Qed.

Section Week.
Variable n : nat.

(** The loop invariant: [n] buckets of pairs. *)
Let kept (b : list (list value)) : Prop :=
  length b = n /\ forallb (forallb Typed.opening_pair) b = true.

Lemma append_at_kept (b b' : list (list value)) (i x : value) :
  Typed.opening_pair x = true -> kept b ->
  Py.append_at b i x = Ok b' -> kept b'.
Proof.
  intros Hx [Hlen Hall]. unfold Py.append_at.
  destruct (Py.as_int i) as [z|]; [|discriminate].
  destruct (Py.index (length b) z) as [k|e]; cbn [bind]; [|discriminate].
  intros [= <-]. split.
  - rewrite append_nth_length. exact Hlen.
  - apply append_nth_forallb; assumption.
Qed.

Lemma time_checked (hour minute t : value) :
  datetime.time hour minute = Ok t -> Typed.time_or_none t = true.
Proof.
  unfold datetime.time.
  destruct (datetime.c_int hour) as [h|e]; cbn [bind]; [|discriminate].
  destruct (datetime.c_int minute) as [m|e]; cbn [bind]; [|discriminate].
  destruct ((0 <=? h) && (h <=? 23)) eqn:Eh; cbn [negb]; [|discriminate].
  destruct ((0 <=? m) && (m <=? 59)) eqn:Em; cbn [negb]; [|discriminate].
  intros [= <-]. cbn [Typed.time_or_none].
  rewrite <- andb_assoc, Eh, Em. reflexivity.
Qed.

Lemma time_of_checked (point t : value) :
  places.OpeningHours.time_of point = Ok t -> Typed.time_or_none t = true.
Proof.
  unfold places.OpeningHours.time_of.
  destruct (Py.getitem point "hour") as [h|e]; cbn [bind]; [|discriminate].
  destruct (Py.getitem point "minute") as [m|e]; cbn [bind]; [|discriminate].
  apply time_checked.
Qed.

Lemma foldM_kept {A : Type} (f : list (list value) -> A -> result (list (list value)))
      (l : list A) :
  (forall b b' a, kept b -> f b a = Ok b' -> kept b') ->
  forall b b', kept b -> foldM f l b = Ok b' -> kept b'.
Proof.
  intros Hf. induction l as [|a l IH]; intros b b' Hb; cbn [foldM].
  - intros [= <-]. exact Hb.
  - destruct (f b a) as [b1|e] eqn:E; cbn [bind]; [|discriminate].
    apply IH. exact (Hf b b1 a Hb E).
Qed.

Lemma span_body_kept (start end_ : value) (a z : Z) (b b' : list (list value))
      (i : Z) :
  kept b -> places.OpeningHours.span_body start end_ a z b i = Ok b' -> kept b'.
Proof.
  intros Hb. unfold places.OpeningHours.span_body.
  destruct (i =? a).
  - destruct (places.OpeningHours.time_of start) as [s|e] eqn:Es; cbn [bind];
      [|discriminate].
    apply append_at_kept; [|exact Hb]. cbn [Typed.opening_pair fst snd].
    rewrite (time_of_checked _ _ Es). reflexivity.
  - destruct (i =? z).
    + destruct (places.OpeningHours.time_of end_) as [t|e] eqn:Et; cbn [bind];
        [|discriminate].
      apply append_at_kept; [|exact Hb]. cbn [Typed.opening_pair fst snd].
      rewrite (time_of_checked _ _ Et). reflexivity.
    + cbn [bind]. apply append_at_kept; [reflexivity | exact Hb].
Qed.

Lemma period_body_kept (data period : value) (b b' : list (list value))
      (fl : places.OpeningHours.flow) :
  kept b -> places.OpeningHours.period_body data b period = Ok (fl, b') ->
  kept b'.
Proof.
  intros Hb. unfold places.OpeningHours.period_body.
  destruct (Py.getitem period "open") as [start|e]; cbn [bind]; [|discriminate].
  destruct (Py.get period "close") as [end_|e]; cbn [bind]; [|discriminate].
  destruct (Py.is_none end_).
  - destruct (Py.getitem data "periods") as [all|e]; cbn [bind]; [|discriminate].
    destruct (Py.len all) as [k|e]; cbn [bind]; [|discriminate].
    destruct (1 <? k); [discriminate|].
    destruct (foldM _ (Py.range 0 7) b) as [b1|e] eqn:E; cbn [bind];
      [|discriminate].
    intros [= _ <-]. revert E. apply foldM_kept; [|exact Hb].
    intros c c' i Hc. apply append_at_kept; [reflexivity | exact Hc].
  - destruct (Py.getitem start "day") as [start_day|e]; cbn [bind];
      [|discriminate].
    destruct (Py.getitem end_ "day") as [end_day|e]; cbn [bind]; [|discriminate].
    destruct (Py.eq start_day end_day).
    + destruct (places.OpeningHours.time_of start) as [s|e] eqn:Es; cbn [bind];
        [|discriminate].
      destruct (places.OpeningHours.time_of end_) as [t|e] eqn:Et; cbn [bind];
        [|discriminate].
      destruct (Py.append_at b start_day (VTuple [s; t])) as [b1|e] eqn:E;
        cbn [bind]; [|discriminate].
      intros [= _ <-]. revert E. apply append_at_kept; [|exact Hb].
      cbn [Typed.opening_pair].
      rewrite (time_of_checked _ _ Es), (time_of_checked _ _ Et). reflexivity.
    + destruct (Py.as_int start_day) as [a|]; [|discriminate].
      destruct (Py.as_int end_day) as [z|]; [|discriminate].
      destruct (foldM _ (Py.range a (z + 1)) b) as [b1|e] eqn:E; cbn [bind];
        [|discriminate].
      intros [= _ <-]. revert E. apply foldM_kept; [|exact Hb].
      intros c c' i Hc. apply span_body_kept, Hc.
Qed.

Lemma for_periods_kept (data : value) (l : list value) (b b' : list (list value)) :
  kept b -> places.OpeningHours.for_periods data l b = Ok b' -> kept b'.
Proof.
  revert b. induction l as [|p l IH]; intros b Hb;
    cbn [places.OpeningHours.for_periods].
  - intros [= <-]. exact Hb.
  - destruct (places.OpeningHours.period_body data b p) as [[fl b1]|e] eqn:E;
      cbn [bind]; [|discriminate].
    pose proof (period_body_kept _ _ _ _ _ Hb E) as Hb1.
    destruct fl; [apply IH, Hb1 | intros [= <-]; exact Hb1].
Qed.

End Week.

(** X10: whatever [OpeningHours.from_api_format] returns has the
    [weekdayDescriptions] of the wire object as they are, and exactly seven
    lists of periods; every period in them is a pair, and each side of a
    pair is [None] or a time of day with an hour in [[0, 23]] and a minute
    in [[0, 59]]. *)
Theorem OpeningHours_from_api_format_week (data v : value) :
  places.OpeningHours.from_api_format data = Ok v ->
  exists periods weekday_descriptions,
    v = places.OpeningHours.new periods weekday_descriptions
    /\ Py.getitem data "weekdayDescriptions" = Ok weekday_descriptions
    /\ Typed.week periods = true.
Proof.
  unfold places.OpeningHours.from_api_format.
  destruct (serde.dict_arg data) as [checked|e]; cbn [bind]; [|discriminate].
  destruct (Py.getitem data "weekdayDescriptions") as [wd|e]; cbn [bind];
    [|discriminate].
  destruct (Py.getitem data "periods") as [all|e]; cbn [bind]; [|discriminate].
  destruct (Py.iter all) as [l|e]; cbn [bind]; [|discriminate].
  destruct (places.OpeningHours.for_periods data l _) as [b|e] eqn:E;
    cbn [bind]; [|discriminate].
  apply (for_periods_kept 7) in E; [|split; reflexivity].
  destruct E as [Hlen Hall].
  destruct b as [|first others]; [discriminate|].
  intros [= <-]. exists (others ++ [first]), wd.
  split; [reflexivity | split; [reflexivity |]].
  unfold Typed.week. cbn [forallb] in Hall.
  apply andb_true_iff in Hall. destruct Hall as [Hf Ho].
  rewrite length_app. cbn [length] in *.
  replace (length others + 1)%nat with 7%nat by lia.
  rewrite forallb_app, Ho. cbn [forallb]. rewrite Hf. reflexivity.
Qed.

Lemma OpeningHours_from_api_format_week_witness :
  places.OpeningHours.from_api_format
    (Wire.opening_hours (VList [])
       [Wire.period (Wire.point 0 9 0) (Wire.point 0 17 0)])
  = Ok (places.OpeningHours.new
          [[]; []; []; []; []; []; [VTuple [VTime 9 0; VTime 17 0]]] (VList []))
  /\ exists periods weekday_descriptions,
       places.OpeningHours.new
         [[]; []; []; []; []; []; [VTuple [VTime 9 0; VTime 17 0]]] (VList [])
       = places.OpeningHours.new periods weekday_descriptions
       /\ Py.getitem
            (Wire.opening_hours (VList [])
               [Wire.period (Wire.point 0 9 0) (Wire.point 0 17 0)])
            "weekdayDescriptions"
          = Ok weekday_descriptions
       /\ Typed.week periods = true.
Proof.
  assert (Hv : places.OpeningHours.from_api_format
                 (Wire.opening_hours (VList [])
                    [Wire.period (Wire.point 0 9 0) (Wire.point 0 17 0)])
               = Ok (places.OpeningHours.new
                       [[]; []; []; []; []; []; [VTuple [VTime 9 0; VTime 17 0]]]
                       (VList []))) by reflexivity.
  split; [exact Hv |].
  exact (OpeningHours_from_api_format_week _ _ Hv).
Defined.



Lemma index_outside (n : nat) (i : Z) :
  ~ (- Z.of_nat n <= i < Z.of_nat n) -> Py.index n i = Raise IndexError.
Proof.
  intros Hi. unfold Py.index.
  destruct ((0 <=? i) && (i <? Z.of_nat n)) eqn:E1.
  { apply andb_true_iff in E1. destruct E1 as [E1 E2].
    apply Z.leb_le in E1. apply Z.ltb_lt in E2. lia. }
  destruct ((- Z.of_nat n <=? i) && (i <? 0)) eqn:E2; [|reflexivity].
  apply andb_true_iff in E2. destruct E2 as [E2 E3].
  apply Z.leb_le in E2. apply Z.ltb_lt in E3. lia.
Qed.

Lemma index_negative (n : nat) (i : Z) :
  - Z.of_nat n <= i < 0 -> Py.index n i = Py.index n (i + Z.of_nat n).
Proof.
  intros Hi. unfold Py.index.
  replace ((0 <=? i) && (i <? Z.of_nat n)) with false.
  2:{ symmetry. apply andb_false_iff. left. apply Z.leb_gt. lia. }
  replace ((- Z.of_nat n <=? i) && (i <? 0)) with true.
  2:{ symmetry. apply andb_true_iff. split; [apply Z.leb_le | apply Z.ltb_lt]; lia. }
  replace ((0 <=? i + Z.of_nat n) && (i + Z.of_nat n <? Z.of_nat n)) with true.
  2:{ symmetry. apply andb_true_iff. split; [apply Z.leb_le | apply Z.ltb_lt]; lia. }
  reflexivity.
Qed.

(** The decoding of one period that opens and closes on the day [d]. *)
Lemma same_day_period (wd : value) (d h1 m1 h2 m2 : Z) :
  Wire.valid_time h1 m1 -> Wire.valid_time h2 m2 ->
  places.OpeningHours.from_api_format
    (Wire.opening_hours wd
       [Wire.period (Wire.point d h1 m1) (Wire.point d h2 m2)])
  = (n <- Py.index 7 d ;;
     match Py.append_nth [[]; []; []; []; []; []; []] n
             (VTuple [VTime h1 m1; VTime h2 m2]) with
     | first :: others =>
         Ok (places.OpeningHours.new (others ++ [first]) wd)
     | [] => Raise IndexError
     end).
Proof.
  intros H1 H2. unfold places.OpeningHours.from_api_format.
  cbn -[places.OpeningHours.period_body].
  unfold places.OpeningHours.period_body.
  cbn -[places.OpeningHours.time_of Py.append_at Py.eq Py.index].
  rewrite !time_of_point by assumption. cbn [bind].
  replace (Py.eq (VInt d) (VInt d)) with true.
  2:{ symmetry. cbn [Py.eq Py.as_num]. rewrite Qeq_bool_inject_Z. apply Z.eqb_refl. }
  cbn [bind]. unfold Py.append_at. cbn [Py.as_int].
  match goal with
  | |- context [Py.index (length ?l) d] =>
      let l' := eval vm_compute in l in change l with l'
  end.
  cbn [length]. destruct (Py.index 7 d) as [n|e]; reflexivity.
Qed.

(** X12: [OpeningHours.from_api_format] raises [KeyError] on a wire object
    without [weekdayDescriptions], then on one without [periods], and on a
    first period without [open].  For a period that opens and closes on the
    same day, a day outside [[-7, 6]] raises [IndexError]; a day in
    [[-7, -1]] is taken, as an index from the end of the week, for the day
    seven days later. *)
Theorem OpeningHours_from_api_format_keys_and_days :
  (forall d,
      Py.dict_get "weekdayDescriptions" d = None ->
      places.OpeningHours.from_api_format (VDict d)
      = Raise (KeyError (VStr "weekdayDescriptions")))
  /\ (forall d,
        Py.dict_get "weekdayDescriptions" d <> None ->
        Py.dict_get "periods" d = None ->
        places.OpeningHours.from_api_format (VDict d)
        = Raise (KeyError (VStr "periods")))
  /\ (forall wd p rest,
        Py.dict_get "open" p = None ->
        places.OpeningHours.from_api_format
          (Wire.opening_hours wd (VDict p :: rest))
        = Raise (KeyError (VStr "open")))
  /\ (forall wd d h1 m1 h2 m2,
        ~ (-7 <= d <= 6) ->
        Wire.valid_time h1 m1 -> Wire.valid_time h2 m2 ->
        places.OpeningHours.from_api_format
          (Wire.opening_hours wd
             [Wire.period (Wire.point d h1 m1) (Wire.point d h2 m2)])
        = Raise IndexError)
  /\ (forall wd d h1 m1 h2 m2,
        -7 <= d <= -1 ->
        Wire.valid_time h1 m1 -> Wire.valid_time h2 m2 ->
        places.OpeningHours.from_api_format
          (Wire.opening_hours wd
             [Wire.period (Wire.point d h1 m1) (Wire.point d h2 m2)])
        = places.OpeningHours.from_api_format
            (Wire.opening_hours wd
               [Wire.period (Wire.point (d + 7) h1 m1)
                            (Wire.point (d + 7) h2 m2)])).
Proof.
  split; [| split; [| split; [| split]]].
  - intros d Hd. unfold places.OpeningHours.from_api_format.
    cbn [Py.getitem]. rewrite Hd. reflexivity.
  - intros d Hwd Hp. unfold places.OpeningHours.from_api_format.
    cbn [Py.getitem].
    destruct (Py.dict_get "weekdayDescriptions" d); [|congruence].
    cbn [bind]. rewrite Hp. reflexivity.
  - intros wd p rest Hp. unfold places.OpeningHours.from_api_format.
    cbn -[places.OpeningHours.period_body].
    unfold places.OpeningHours.period_body. cbn [Py.getitem]. rewrite Hp.
    reflexivity.
  - intros wd d h1 m1 h2 m2 Hd H1 H2.
    rewrite same_day_period by assumption.
    rewrite index_outside; [reflexivity|]. cbn. lia.
  - intros wd d h1 m1 h2 m2 Hd H1 H2.
    rewrite !same_day_period by assumption.
    rewrite (index_negative 7 d); [reflexivity|]. cbn. lia.
Qed.

Lemma OpeningHours_from_api_format_keys_and_days_witness :
  ~ (-7 <= 7 <= 6)
  /\ Wire.valid_time 9 0 /\ Wire.valid_time 17 0
  /\ places.OpeningHours.from_api_format
       (Wire.opening_hours (VList [])
          [Wire.period (Wire.point 7 9 0) (Wire.point 7 17 0)])
     = Raise IndexError.
Proof.
  assert (Hd : ~ (-7 <= 7 <= 6)) by lia.
  assert (H1 : Wire.valid_time 9 0) by (unfold Wire.valid_time; lia).
  assert (H2 : Wire.valid_time 17 0) by (unfold Wire.valid_time; lia).
  split; [exact Hd | split; [exact H1 | split; [exact H2 |]]].
  exact (proj1 (proj2 (proj2 (proj2 OpeningHours_from_api_format_keys_and_days)))
               (VList []) 7 9 0 17 0 Hd H1 H2).
Defined.

(** ** Place: what is decoded into which field *)

Lemma Ok_inj {A : Type} (a b : A) : Ok a = Ok b -> a = b.
Proof. intros [= ->]. reflexivity. Qed.

Section PlaceFields.
Context {CF : Casefy} {SD : Serde} `{DateUtil}.

Lemma _from_api_format_key (k : string) (v : value) (kv : string * value) :
  places._from_api_format k v = Ok kv -> fst kv = casefy.snakecase k.
Proof.
  unfold places._from_api_format. cbv zeta.
  match goal with
  | |- bind ?r _ = _ -> _ => destruct r as [x|e]; cbn [bind]; [|discriminate]
  end.
  intros [= <-]. reflexivity.
Qed.

Lemma item_body_other (valid : list string) (s s' : list (string * value))
      (item : string * value) (f : string) :
  casefy.snakecase (fst item) <> f ->
  places.Place.item_body valid s item = Ok s' ->
  Py.dict_get f s' = Py.dict_get f s.
Proof.
  intros Hne. unfold places.Place.item_body.
  destruct (places._from_api_format (fst item) (snd item)) as [kv|e] eqn:E;
    cbn [bind]; [|discriminate].
  apply _from_api_format_key in E.
  destruct (Str.mem (fst kv) valid); intros [= <-]; [|reflexivity].
  apply dict_get_set_ne. congruence.
Qed.

Lemma item_body_this (valid : list string) (s s' : list (string * value))
      (item : string * value) :
  Str.mem (casefy.snakecase (fst item)) valid = true ->
  places.Place.item_body valid s item = Ok s' ->
  exists v', places._from_api_format (fst item) (snd item)
             = Ok (casefy.snakecase (fst item), v')
             /\ Py.dict_get (casefy.snakecase (fst item)) s' = Some v'.
Proof.
  intros Hm. unfold places.Place.item_body.
  destruct (places._from_api_format (fst item) (snd item)) as [[k' v']|e] eqn:E;
    cbn [bind]; [|discriminate].
  pose proof (_from_api_format_key _ _ _ E) as Hk. cbn [fst] in Hk. subst k'.
  cbn [fst snd]. rewrite Hm. intros [= <-].
  exists v'. split; [reflexivity | apply dict_get_set_eq].
Qed.

Lemma items_other (valid : list string) (l : list (string * value)) (f : string) :
  (forall k, In k (map fst l) -> casefy.snakecase k <> f) ->
  forall s s', foldM (places.Place.item_body valid) l s = Ok s' ->
               Py.dict_get f s' = Py.dict_get f s.
Proof.
  induction l as [|item l IH]; intros Hl s s'; cbn [foldM].
  - intros [= <-]. reflexivity.
  - destruct (places.Place.item_body valid s item) as [s1|e] eqn:E; cbn [bind];
      [|discriminate].
    intros Hf. rewrite (IH (fun k Hk => Hl k (or_intror Hk)) _ _ Hf).
    apply (item_body_other _ _ _ _ _ (Hl _ (or_introl eq_refl)) E).
Qed.

Lemma items_keys (valid : list string) (l : list (string * value)) :
  forall s s', foldM (places.Place.item_body valid) l s = Ok s' ->
               (forall k, In k (map fst s) -> In k valid) ->
               forall k, In k (map fst s') -> In k valid.
Proof.
  assert (Hset : forall (k : string) (v : value) s k0,
             In k0 (map fst (Py.dict_set k v s)) -> k0 = k \/ In k0 (map fst s)).
  { intros k v s k0. induction s as [|[k1 v1] s IH]; cbn [Py.dict_set map fst In].
    - intros [<- | []]. left. reflexivity.
    - destruct (String.eqb_spec k k1) as [-> | Hne]; cbn [map fst In].
      + tauto.
      + intros [<- | Hin]; [tauto | apply IH in Hin; tauto]. }
  induction l as [|item l IH]; intros s s'; cbn [foldM].
  - intros [= <-] Hs. exact Hs.
  - destruct (places.Place.item_body valid s item) as [s1|e] eqn:E; cbn [bind];
      [|discriminate].
    intros Hf Hs. apply (IH _ _ Hf). intros k Hk.
    unfold places.Place.item_body in E.
    destruct (places._from_api_format (fst item) (snd item)) as [kv|e];
      cbn [bind] in E; [|discriminate].
    destruct (Str.mem (fst kv) valid) eqn:Em; injection E as <-.
    + apply Hset in Hk. destruct Hk as [-> | Hk]; [apply mem_In, Em | apply Hs, Hk].
    + apply Hs, Hk.
Qed.

(** What the call of a class all of whose fields have the same default
    returns, when it returns. *)
Lemma init_defaults (cls : string) (fs : list dataclasses.field) (dflt : value)
      (kwargs : list (string * value)) (p : value) :
  (forall f, In f fs -> dataclasses.f_default f = Some dflt) ->
  dataclasses.init cls fs kwargs = Ok p ->
  p = VInst cls (map (fun name =>
                        (name, match Py.dict_get name kwargs with
                               | Some v => v
                               | None => dflt
                               end)) (dataclasses.field_names fs)).
Proof.
  intros Hd. unfold dataclasses.init.
  destruct (dataclasses.checked fs kwargs); [|discriminate].
  destruct (forallb _ kwargs); [|discriminate].
  rewrite (mapM_map _ (fun f : dataclasses.field =>
                         (dataclasses.f_name f,
                          match Py.dict_get (dataclasses.f_name f) kwargs with
                          | Some v => v
                          | None => dflt
                          end))).
  - cbn [bind]. intros Hp. apply Ok_inj in Hp. subst p.
    unfold dataclasses.field_names. rewrite map_map. reflexivity.
  - intros f Hf. rewrite (Hd f Hf).
    destruct (Py.dict_get (dataclasses.f_name f) kwargs); reflexivity.
Qed.

Lemma Place_defaults (f : dataclasses.field) :
  In f places.Place.fields -> dataclasses.f_default f = Some VNone.
Proof.
  unfold places.Place.fields. rewrite in_map_iff. intros (a & <- & _). reflexivity.
Qed.

Lemma dict_get_tabulate {A : Type} (F : string -> A) (names : list string)
      (f : string) :
  In f names -> Py.dict_get f (map (fun name => (name, F name)) names) = Some (F f).
Proof.
  induction names as [|n names IH]; [intros []|].
  cbn [map Py.dict_get]. destruct (String.eqb_spec f n) as [-> | Hne].
  - reflexivity.
  - intros [-> | Hin]; [congruence | apply IH, Hin].
Qed.

(** X13: a [Place] that [Place.from_api_format] returns has all the 56
    fields of the class, in their order.  A field that no key of the wire
    object names (in snake case) is [None].  A field that exactly one key
    names holds what the conversion of that key's value gives. *)
Theorem Place_from_api_format_fields (d : list (string * value)) (p : value) :
  places.Place.from_api_format (VDict d) = Ok p ->
  (exists vals, p = VInst "Place" vals
                /\ map fst vals = places.Place.field_names)
  /\ (forall f,
        In f places.Place.field_names ->
        (forall k, In k (map fst d) -> casefy.snakecase k <> f) ->
        Py.getattr p f = Ok VNone)
  /\ (forall f k v,
        In f places.Place.field_names ->
        In (k, v) d -> casefy.snakecase k = f ->
        NoDup (map fst d) ->
        (forall k', In k' (map fst d) -> casefy.snakecase k' = f -> k' = k) ->
        exists v', places._from_api_format k v = Ok (f, v')
                   /\ Py.getattr p f = Ok v').
Proof.
  unfold places.Place.from_api_format. cbv zeta. cbn [Py.items bind].
  rewrite valid_fields_eq.
  destruct (foldM (places.Place.item_body places.Place.field_names) d [])
    as [values|e] eqn:E; cbn [bind]; [|discriminate].
  intros Hp. apply (init_defaults _ _ VNone _ _ Place_defaults) in Hp.
  rewrite valid_fields_eq in Hp. subst p. split; [| split].
  - eexists. split; [reflexivity|]. rewrite map_map. cbn [fst]. apply map_id.
  - intros f Hf Hnone. cbn [Py.getattr].
    rewrite (dict_get_tabulate
               (fun name => match Py.dict_get name values with
                            | Some v => v | None => VNone end) _ f Hf).
    rewrite (items_other _ _ _ Hnone _ _ E). reflexivity.
  - intros f k v Hf Hin Hk Hnd Honly. cbn [Py.getattr].
    rewrite (dict_get_tabulate
               (fun name => match Py.dict_get name values with
                            | Some v => v | None => VNone end) _ f Hf).
    apply in_split in Hin. destruct Hin as (pre & post & ->).
    rewrite map_app in Hnd, Honly. cbn [map fst] in Hnd, Honly.
    assert (Hpre : forall k', In k' (map fst pre) -> casefy.snakecase k' <> f).
    { intros k' Hin Hs.
      assert (k' = k) by (apply Honly; [apply in_or_app; left; exact Hin | exact Hs]).
      subst k'. apply NoDup_remove_2 in Hnd. apply Hnd, in_or_app. left. exact Hin. }
    assert (Hpost : forall k', In k' (map fst post) -> casefy.snakecase k' <> f).
    { intros k' Hin Hs.
      assert (k' = k)
        by (apply Honly; [apply in_or_app; right; right; exact Hin | exact Hs]).
      subst k'. apply NoDup_remove_2 in Hnd. apply Hnd, in_or_app. right. exact Hin. }
    clear Hnd Honly. revert E.
    assert (Hsplit : forall l1 l2 s s',
               foldM (places.Place.item_body places.Place.field_names)
                     (l1 ++ l2) s = Ok s' ->
               exists s1,
                 foldM (places.Place.item_body places.Place.field_names) l1 s
                 = Ok s1
                 /\ foldM (places.Place.item_body places.Place.field_names) l2 s1
                    = Ok s').
    { induction l1 as [|x l1 IH]; intros l2 s s'; cbn [app foldM].
      - intros Hf2. exists s. split; [reflexivity | exact Hf2].
      - destruct (places.Place.item_body places.Place.field_names s x) as [sx|e];
          cbn [bind]; [|discriminate].
        apply IH. }
    intros E. apply Hsplit in E. destruct E as (s1 & _ & E).
    cbn [foldM] in E.
    destruct (places.Place.item_body places.Place.field_names s1 (k, v))
      as [s2|e] eqn:E2; cbn [bind] in E; [|discriminate].
    apply item_body_this in E2; cbn [fst snd] in *.
    2:{ rewrite Hk. apply mem_In, Hf. }
    destruct E2 as (v' & Hv' & Hget). rewrite Hk in Hv', Hget.
    exists v'. split; [exact Hv'|].
    rewrite (items_other _ _ _ Hpost _ _ E), Hget. reflexivity.
Qed.

End PlaceFields.

Lemma Place_from_api_format_fields_witness :
  @places.Place.from_api_format other_strings_kept check_every_item parse_nothing
    (VDict [("rating", VFloat (9 # 2)); ("futureField", VInt 1)])
  = Ok (VInst "Place"
          (map (fun name => (name, if String.eqb name "rating"
                                   then VFloat (9 # 2) else VNone))
               places.Place.field_names))
  /\ exists vals,
       VInst "Place"
         (map (fun name => (name, if String.eqb name "rating"
                                  then VFloat (9 # 2) else VNone))
              places.Place.field_names)
       = VInst "Place" vals
       /\ map fst vals = places.Place.field_names.
Proof.
  assert (Hp : @places.Place.from_api_format other_strings_kept check_every_item parse_nothing
                 (VDict [("rating", VFloat (9 # 2)); ("futureField", VInt 1)])
               = Ok (VInst "Place"
                       (map (fun name => (name, if String.eqb name "rating"
                                                then VFloat (9 # 2) else VNone))
                            places.Place.field_names)))
    by (vm_compute; reflexivity).
  split; [exact Hp |].
  exact (proj1 (@Place_from_api_format_fields other_strings_kept check_every_item parse_nothing _ _ Hp)).
Defined.

Section ApiNames.
Context {CF : Casefy} {SD : Serde} `{SetOrder} `{DateUtil}.

(** X14: every field of [Place] can be asked for and comes back under its
    own name.  The API names of the 56 fields are the camel-case keys
    [id], [name], [accessibilityOptions], ..., [takeout] of the API, in the
    order of the fields, and these keys in snake case are the fields
    again, so two fields never share an API name.  The mask of the one
    field is its API name (after [places.] when the prefix is wanted).
    And a field whose value [_from_api_format] does not convert is stored
    as it comes when the value passes the check of the field's annotation
    [T | None]: a wire object with only that key decodes to the [Place]
    that has the value in that field and [None] in the others; with a
    value that fails the check, the call of the class raises [SerdeError].
    So a [rating] that is a float is stored, and a [rating] that is an
    integer raises [SerdeError]. *)
Theorem Place_fields_api_names :
  map (fun f => places._to_api_name f false) places.Place.field_names
  = Wire.place_keys
  /\ map casefy.snakecase Wire.place_keys = places.Place.field_names
  /\ (forall f add_prefix,
        In f places.Place.field_names ->
        places.create_field_mask [f] add_prefix
        = Ok (places._to_api_name f add_prefix))
  /\ (forall f,
        In f places.Place.field_names ->
        places._to_api_name f true
        = ("places." ++ places._to_api_name f false)%string
        /\ casefy.snakecase (places._to_api_name f false) = f)
  /\ (forall f g,
        In f places.Place.field_names -> In g places.Place.field_names ->
        places._to_api_name f false = places._to_api_name g false -> f = g)
  /\ (forall f t v,
        In (f, t) places.Place.annotations ->
        ~ In f ["accessibility_options"; "address_components";
                "business_status"; "display_name"; "location"; "photos";
                "plus_code"; "primary_type_display_name"; "viewport";
                "current_opening_hours"; "current_secondary_opening_hours";
                "regular_opening_hours"; "regular_secondary_opening_hours";
                "price_level"; "parking_options"; "payment_options";
                "reviews"] ->
        places.Place.from_api_format
          (VDict [(places._to_api_name f false, v)])
        = if type_check (TOptional t) v
          then Ok (VInst "Place"
                     (map (fun name =>
                             (name, if String.eqb name f then v else VNone))
                          places.Place.field_names))
          else Raise SerdeError)
  /\ (forall q,
        places.Place.from_api_format (VDict [("rating", VFloat q)])
        = Ok (VInst "Place"
                (map (fun name =>
                        (name, if String.eqb name "rating" then VFloat q else VNone))
                     places.Place.field_names)))
  /\ (forall n,
        places.Place.from_api_format (VDict [("rating", VInt n)])
        = Raise SerdeError).
Proof.
  assert (Hback : forall f, In f places.Place.field_names ->
                            casefy.snakecase (places._to_api_name f false) = f).
  { assert (Hall : forallb (fun f => String.eqb
                                       (casefy.snakecase (places._to_api_name f false)) f)
                           places.Place.field_names = true)
      by (vm_compute; reflexivity).
    intros f Hf. apply String.eqb_eq.
    exact (proj1 (forallb_forall _ _) Hall f Hf). }
  assert (Hstored : forall f t v,
             In (f, t) places.Place.annotations ->
             ~ In f ["accessibility_options"; "address_components";
                     "business_status"; "display_name"; "location"; "photos";
                     "plus_code"; "primary_type_display_name"; "viewport";
                     "current_opening_hours"; "current_secondary_opening_hours";
                     "regular_opening_hours"; "regular_secondary_opening_hours";
                     "price_level"; "parking_options"; "payment_options";
                     "reviews"] ->
             places.Place.from_api_format
               (VDict [(places._to_api_name f false, v)])
             = if type_check (TOptional t) v
               then Ok (VInst "Place"
                          (map (fun name =>
                                  (name, if String.eqb name f then v else VNone))
                               places.Place.field_names))
               else Raise SerdeError).
  { intros f t v Hf Hplain. cbn in Hf.
    repeat match type of Hf with
           | _ \/ _ => destruct Hf as [Hf | Hf]
           end;
      try contradiction;
      injection Hf as <- <-;
      first [ exfalso; apply Hplain; apply mem_In; vm_compute; reflexivity
            | cbv -[type_check];
              match goal with
              | |- context [type_check ?h v] => destruct (type_check h v)
              end; reflexivity ]. }
  split; [vm_compute; reflexivity |].
  split; [vm_compute; reflexivity |].
  split; [| split; [| split; [| split; [exact Hstored | split]]]].
  - intros f add_prefix Hf. rewrite create_field_mask_cases.
    cbn [places.dedup Str.mem existsb]. rewrite set_iter_singleton.
    assert (Hstar : Str.mem "*" [f] = false).
    { apply mem_false. intros [-> | []]. apply mem_In in Hf.
      vm_compute in Hf. discriminate. }
    rewrite Hstar. cbn [filter]. apply mem_In in Hf. rewrite Hf. cbn [negb].
    rewrite set_iter_nil. reflexivity.
  - intros f Hf. split; [reflexivity | apply Hback, Hf].
  - intros f g Hf Hg Heq.
    rewrite <- (Hback f Hf), <- (Hback g Hg), Heq. reflexivity.
  - intros q.
    assert (Hin : In ("rating", TFloat) places.Place.annotations)
      by (cbn; tauto).
    assert (Hplain : ~ In "rating"
                       ["accessibility_options"; "address_components";
                        "business_status"; "display_name"; "location"; "photos";
                        "plus_code"; "primary_type_display_name"; "viewport";
                        "current_opening_hours"; "current_secondary_opening_hours";
                        "regular_opening_hours"; "regular_secondary_opening_hours";
                        "price_level"; "parking_options"; "payment_options";
                        "reviews"])
      by (apply mem_false; vm_compute; reflexivity).
    pose proof (Hstored "rating" TFloat (VFloat q) Hin Hplain) as Hq.
    rewrite (type_check_accepts (TOptional TFloat) (VFloat q) eq_refl) in Hq.
    exact Hq.
  - intros n.
    assert (Hin : In ("rating", TFloat) places.Place.annotations)
      by (cbn; tauto).
    assert (Hplain : ~ In "rating"
                       ["accessibility_options"; "address_components";
                        "business_status"; "display_name"; "location"; "photos";
                        "plus_code"; "primary_type_display_name"; "viewport";
                        "current_opening_hours"; "current_secondary_opening_hours";
                        "regular_opening_hours"; "regular_secondary_opening_hours";
                        "price_level"; "parking_options"; "payment_options";
                        "reviews"])
      by (apply mem_false; vm_compute; reflexivity).
    pose proof (Hstored "rating" TFloat (VInt n) Hin Hplain) as Hn.
    rewrite (type_check_rejects (TOptional TFloat) (VInt n) eq_refl) in Hn.
    exact Hn.
Qed.

End ApiNames.

Lemma Place_fields_api_names_witness :
  In "display_name" places.Place.field_names
  /\ @places.create_field_mask other_strings_kept insertion_order
       ["display_name"] true
     = Ok "places.displayName".
Proof.
  assert (Hf : In "display_name" places.Place.field_names)
    by (apply mem_In; vm_compute; reflexivity).
  split; [exact Hf |].
  exact (proj1 (proj2 (proj2 (@Place_fields_api_names
                                other_strings_kept check_every_item
                                insertion_order parse_nothing)))
               "display_name" true Hf).
Defined.

Section PlaceErrors.
Context {CF : Casefy} {SD : Serde} `{DateUtil}.

Lemma item_body_raises (valid : list string) (s : list (string * value))
      (item : string * value) (e : exn) :
  places._from_api_format (fst item) (snd item) = Raise e ->
  places.Place.item_body valid s item = Raise e.
Proof.
  intros He. unfold places.Place.item_body. rewrite He. reflexivity.
Qed.

Lemma item_body_returns (valid : list string) (s : list (string * value))
      (item : string * value) (kv : string * value) :
  places._from_api_format (fst item) (snd item) = Ok kv ->
  exists s', places.Place.item_body valid s item = Ok s'.
Proof.
  intros He. unfold places.Place.item_body. rewrite He. cbn [bind].
  destruct (Str.mem (fst kv) valid); eexists; reflexivity.
Qed.

(** X15: one value that cannot be converted is enough for no [Place] to be
    returned: [Place.from_api_format] raises what the conversion of the
    first such item raises (so it raises whenever the conversion of some
    item does).  An unknown business status is such a value: the [Place]
    is lost to the [ValueError] of the enumeration, whose message starts
    with the [repr] of the status in lower case (here for a status written
    in ASCII). *)
Theorem Place_from_api_format_raises :
  (forall pre k v post e,
      (forall item, In item pre ->
                    exists kv, places._from_api_format (fst item) (snd item) = Ok kv) ->
      places._from_api_format k v = Raise e ->
      places.Place.from_api_format (VDict (pre ++ (k, v) :: post)) = Raise e)
  /\ (forall d k v e,
        In (k, v) d ->
        places._from_api_format k v = Raise e ->
        exists e', places.Place.from_api_format (VDict d) = Raise e')
  /\ (forall s,
        ~ In (Str.lower s)
             (map BusinessStatus_value places.BusinessStatus.members) ->
        Str.existsb_chars (fun c => Nat.leb 128 (nat_of_ascii c)) s = false ->
        places.Place.from_api_format (VDict [("businessStatus", VStr s)])
        = Raise (ValueError (Py.repr_str (Str.lower s)
                             ++ " is not a valid BusinessStatus")%string)).
Proof.
  assert (Hfirst : forall valid pre k v post e s,
             (forall item, In item pre ->
                exists kv, places._from_api_format (fst item) (snd item) = Ok kv) ->
             places._from_api_format k v = Raise e ->
             foldM (places.Place.item_body valid) (pre ++ (k, v) :: post) s
             = Raise e).
  { intros valid pre k v post e. induction pre as [|item pre IH]; intros s Hpre He;
      cbn [app foldM].
    - rewrite (item_body_raises valid s (k, v) e He). reflexivity.
    - destruct (Hpre item (or_introl eq_refl)) as [kv Hkv].
      destruct (item_body_returns valid s item kv Hkv) as [s' Hs'].
      rewrite Hs'. cbn [bind]. apply IH; [|exact He].
      intros it Hit. apply Hpre. right. exact Hit. }
  assert (Hsome : forall valid d k v e s,
             In (k, v) d -> places._from_api_format k v = Raise e ->
             exists e', foldM (places.Place.item_body valid) d s = Raise e').
  { intros valid d k v e. induction d as [|item d IH]; intros s Hin He; [destruct Hin|].
    cbn [foldM].
    destruct (places.Place.item_body valid s item) as [s'|e'] eqn:E; cbn [bind].
    - destruct Hin as [-> | Hin].
      + rewrite (item_body_raises valid s (k, v) e He) in E. discriminate.
      + apply IH; assumption.
    - exists e'. reflexivity. }
  split; [| split].
  - intros pre k v post e Hpre He. unfold places.Place.from_api_format.
    cbv zeta. cbn [Py.items bind]. rewrite (Hfirst _ _ _ _ _ _ _ Hpre He).
    reflexivity.
  - intros d k v e Hin He. unfold places.Place.from_api_format.
    cbv zeta. cbn [Py.items bind].
    destruct (Hsome (dataclasses.field_names places.Place.fields) d k v e []
                    Hin He) as [e' He'].
    exists e'. rewrite He'. reflexivity.
  - intros s Hs _.
    assert (Hv : places.BusinessStatus.of_value (Str.lower s)
                 = Raise (ValueError (Py.repr_str (Str.lower s)
                                      ++ " is not a valid BusinessStatus")%string)).
    { unfold places.BusinessStatus.of_value.
      destruct (find _ places.BusinessStatus.members) as [m|] eqn:E; [|reflexivity].
      exfalso. apply Hs. apply find_some in E. destruct E as [Hin Heq].
      apply String.eqb_eq in Heq. rewrite <- Heq. apply in_map, Hin. }
    unfold places.Place.from_api_format. cbv zeta. cbn [Py.items bind foldM].
    unfold places.Place.item_body. cbn [fst snd].
    unfold places._from_api_format.
    change (casefy.snakecase "businessStatus") with "business_status".
    cbn [String.eqb Ascii.eqb Bool.eqb].
    unfold places.BusinessStatus.from_api_format. rewrite Hv. reflexivity.
Qed.

End PlaceErrors.

Lemma Place_from_api_format_raises_witness :
  ~ In (Str.lower "FUTURE_STATUS")
       (map BusinessStatus_value places.BusinessStatus.members)
  /\ Str.existsb_chars (fun c => Nat.leb 128 (nat_of_ascii c)) "FUTURE_STATUS"
     = false
  /\ @places.Place.from_api_format other_strings_kept check_every_item parse_nothing
       (VDict [("businessStatus", VStr "FUTURE_STATUS")])
     = Raise (ValueError "'future_status' is not a valid BusinessStatus").
Proof.
  assert (Hs : ~ In (Str.lower "FUTURE_STATUS")
                    (map BusinessStatus_value places.BusinessStatus.members)).
  { apply mem_false. vm_compute. reflexivity. }
  split; [exact Hs | split; [reflexivity |]].
  exact (proj2 (proj2 (@Place_from_api_format_raises
                         other_strings_kept check_every_item parse_nothing))
               "FUTURE_STATUS" Hs eq_refl).
Defined.

(** ** The enumerations *)

Lemma upper_lower_char (c : ascii) :
  Str.upper_char (Str.lower_char c) = Str.upper_char c.
Proof.
  destruct c as [[] [] [] [] [] [] [] []]; vm_compute; reflexivity.
Qed.

Lemma upper_lower (s : string) : Str.upper (Str.lower s) = Str.upper s.
Proof.
  unfold Str.upper, Str.lower.
  induction s as [|c s IH]; cbn [Str.map_chars]; [reflexivity|].
  rewrite upper_lower_char, IH. reflexivity.
Qed.

Lemma PriceLevel_of_value_Ok (v : string) (p : PriceLevel_t) :
  places.PriceLevel.of_value v = Ok p -> PriceLevel_value p = v.
Proof.
  unfold places.PriceLevel.of_value.
  destruct (find _ places.PriceLevel.members) as [m|] eqn:E; [|discriminate].
  intros [= <-]. apply find_some in E. apply String.eqb_eq, E.
Qed.

Lemma BusinessStatus_of_value_Ok (v : string) (b : BusinessStatus_t) :
  places.BusinessStatus.of_value v = Ok b -> BusinessStatus_value b = v.
Proof.
  unfold places.BusinessStatus.of_value.
  destruct (find _ places.BusinessStatus.members) as [m|] eqn:E; [|discriminate].
  intros [= <-]. apply find_some in E. apply String.eqb_eq, E.
Qed.

(** X16: the two enumerations are decoded without regard to letter case,
    and encoded in upper case: a business status decoded from the string
    [s] is encoded as [s] in upper case, a price level decoded from [s] as
    [PRICE_LEVEL_] followed by the upper case of [s] without that prefix.
    So a price level is accepted under its name, its value, and either of
    them after [PRICE_LEVEL_]; the prefix itself is only removed in upper
    case.  Anything that is decoded is one of the names, so an unknown name
    is never mapped to [UNSPECIFIED]; [None] raises [AttributeError]. *)
Theorem enums_from_api_format_case :
  (forall s b,
      places.BusinessStatus.from_api_format (VStr s) = Ok b ->
      places.BusinessStatus.to_api_format b = Str.upper s)
  /\ (forall s p,
        places.PriceLevel.from_api_format (VStr s) = Ok p ->
        places.PriceLevel.to_api_format p
        = ("PRICE_LEVEL_" ++ Str.upper (Str.removeprefix "PRICE_LEVEL_" s))%string)
  /\ (forall p,
        places.PriceLevel.from_api_format (VStr (PriceLevel_name p)) = Ok p
        /\ places.PriceLevel.from_api_format (VStr (PriceLevel_value p)) = Ok p
        /\ places.PriceLevel.from_api_format
             (VStr ("PRICE_LEVEL_" ++ PriceLevel_value p)) = Ok p
        /\ exists msg,
             places.PriceLevel.from_api_format
               (VStr ("price_level_" ++ PriceLevel_value p))
             = Raise (ValueError msg))
  /\ (forall b,
        places.BusinessStatus.from_api_format (VStr (BusinessStatus_value b))
        = Ok b)
  /\ places.PriceLevel.from_api_format VNone = Raise AttributeError
  /\ places.BusinessStatus.from_api_format VNone = Raise AttributeError.
Proof.
  split; [| split; [| split; [| split; [| split]]]].
  - intros s b Hb. cbn [places.BusinessStatus.from_api_format] in Hb.
    apply BusinessStatus_of_value_Ok in Hb.
    rewrite <- upper_lower, <- Hb. destruct b; reflexivity.
  - intros s p Hp. cbn [places.PriceLevel.from_api_format] in Hp. cbv zeta in Hp.
    apply PriceLevel_of_value_Ok in Hp.
    rewrite <- upper_lower, <- Hp. destruct p; reflexivity.
  - intros p. destruct p; (split; [| split; [| split]]);
      try (vm_compute; reflexivity); eexists; vm_compute; reflexivity.
  - intros b. destruct b; vm_compute; reflexivity.
  - reflexivity.
  - reflexivity.
Qed.

Lemma enums_from_api_format_case_witness :
  places.BusinessStatus.from_api_format (VStr "Operational") = Ok OPERATIONAL
  /\ places.BusinessStatus.to_api_format OPERATIONAL = Str.upper "Operational".
Proof.
  assert (Hb : places.BusinessStatus.from_api_format (VStr "Operational")
               = Ok OPERATIONAL) by (vm_compute; reflexivity).
  split; [exact Hb |].
  exact (proj1 enums_from_api_format_case "Operational" OPERATIONAL Hb).
Defined.

(** ** Areas *)

(** X17: a [CircularArea] with a pair of floats as center and an integer
    radius is built exactly when the radius is in [[1, 50000]], and
    otherwise the [ValueError] of [__post_init__] is raised.  The arguments
    are checked against the annotations before that: a radius that is a
    float raises [SerdeError], whatever its value, and so does a center
    that is no tuple.  Decoding a wire circle builds the area from the pair
    of the latitude and the longitude and from the radius, so it makes the
    same checks, and a wire circle with another radius is not decoded.  A
    wire circle without [radius] raises [KeyError]. *)
Theorem CircularArea_radius_range `{Serde} :
  (forall latitude longitude r,
      1 <= r <= 50000 ->
      places.CircularArea.new (Typed.of_LatLng (latitude, longitude)) (VInt r)
      = Ok (VInst "CircularArea"
                  [("center", Typed.of_LatLng (latitude, longitude));
                   ("radius", VInt r)]))
  /\ (forall latitude longitude r,
        ~ (1 <= r <= 50000) ->
        places.CircularArea.new (Typed.of_LatLng (latitude, longitude)) (VInt r)
        = Raise (ValueError "Radius must be between 1 and 50,000 meters."))
  /\ (forall center q,
        places.CircularArea.new center (VFloat q) = Raise SerdeError)
  /\ (forall center radius,
        serde.instance_of places.LatLng center = false ->
        places.CircularArea.new center radius = Raise SerdeError)
  /\ (forall latitude longitude radius,
        places.CircularArea.from_api_format
          (VDict [("center", VDict [("latitude", latitude);
                                    ("longitude", longitude)]);
                  ("radius", radius)])
        = places.CircularArea.new (VTuple [latitude; longitude]) radius)
  /\ (forall latitude longitude r,
        ~ (1 <= r <= 50000) ->
        places.CircularArea.from_api_format
          (VDict [("center", VDict [("latitude", VFloat latitude);
                                    ("longitude", VFloat longitude)]);
                  ("radius", VInt r)])
        = Raise (ValueError "Radius must be between 1 and 50,000 meters."))
  /\ (forall latitude longitude,
        places.CircularArea.from_api_format
          (VDict [("center", VDict [("latitude", latitude);
                                    ("longitude", longitude)])])
        = Raise (KeyError (VStr "radius"))).
Proof.
  assert (Hcenter : forall latitude longitude,
             type_check places.LatLng (Typed.of_LatLng (latitude, longitude))
             = true).
  { intros latitude longitude. apply type_check_accepts. reflexivity. }
  assert (Hint : forall r, type_check TInt (VInt r) = true).
  { intros r. apply type_check_accepts. reflexivity. }
  assert (Hout : forall latitude longitude r,
             ~ (1 <= r <= 50000) ->
             places.CircularArea.new (Typed.of_LatLng (latitude, longitude))
                                     (VInt r)
             = Raise (ValueError "Radius must be between 1 and 50,000 meters.")).
  { intros latitude longitude r Hr.
    unfold places.CircularArea.new, places.CircularArea.post_init.
    rewrite Hcenter, Hint. cbn [andb Py.as_num].
    change 0%Q with (inject_Z 0). change 50000%Q with (inject_Z 50000).
    rewrite !Qle_bool_inject_Z.
    destruct (r <=? 0) eqn:E0; [reflexivity|].
    destruct (r <=? 50000) eqn:E1; [|reflexivity].
    apply Z.leb_gt in E0. apply Z.leb_le in E1. lia. }
  split; [| split; [exact Hout | split; [| split; [| split; [| split]]]]].
  - intros latitude longitude r Hr.
    unfold places.CircularArea.new, places.CircularArea.post_init.
    rewrite Hcenter, Hint. cbn [andb Py.as_num].
    change 0%Q with (inject_Z 0). change 50000%Q with (inject_Z 50000).
    rewrite !Qle_bool_inject_Z.
    replace (r <=? 0) with false by (symmetry; apply Z.leb_gt; lia).
    replace (r <=? 50000) with true by (symmetry; apply Z.leb_le; lia).
    reflexivity.
  - intros center q. unfold places.CircularArea.new.
    rewrite (type_check_rejects TInt (VFloat q) eq_refl), andb_false_r.
    reflexivity.
  - intros center radius Hc. unfold places.CircularArea.new.
    rewrite (type_check_rejects _ _ Hc). reflexivity.
  - intros latitude longitude radius. reflexivity.
  - intros latitude longitude r Hr.
    exact (Hout latitude longitude r Hr).
  - intros latitude longitude. reflexivity.
Qed.

Lemma CircularArea_radius_range_witness :
  ~ (1 <= 50001 <= 50000)
  /\ @places.CircularArea.new check_every_item
       (Typed.of_LatLng (45 # 1, 9 # 1)%Q) (VInt 50001)
     = Raise (ValueError "Radius must be between 1 and 50,000 meters.").
Proof.
  assert (Hr : ~ (1 <= 50001 <= 50000)) by lia.
  split; [exact Hr |].
  exact (proj1 (proj2 (@CircularArea_radius_range check_every_item))
               (45 # 1)%Q (9 # 1)%Q 50001 Hr).
Defined.

(** ** Photos and reviews *)

Lemma eq_lists (l l' : list value) :
  Forall2 (fun a b => Py.eq a b = true) l l' -> Py.eq (VList l) (VList l') = true.
Proof.
  intros Hf. cbn [Py.eq]. induction Hf as [|a b l l' Hab Hl IH]; [reflexivity|].
  rewrite Hab. cbn [andb]. exact IH.
Qed.

Lemma init_instance `{Serde} (cls : string) (fs : list dataclasses.field)
      (kwargs : list (string * value)) (x : value) :
  dataclasses.init cls fs kwargs = Ok x -> exists vals, x = VInst cls vals.
Proof.
  unfold dataclasses.init.
  destruct (dataclasses.checked fs kwargs); [|discriminate].
  destruct (forallb _ kwargs); [|discriminate].
  destruct (mapM _ fs) as [vals|e]; cbn [bind]; [|discriminate].
  intros [= <-]. exists vals. reflexivity.
Qed.

Lemma authors_list_conforms (xs : list value) :
  Forall (fun x => exists fs, x = VInst "AuthorAttribution" fs) xs ->
  serde.conforms (TList (TInst "AuthorAttribution")) (VList xs) = true.
Proof.
  unfold serde.conforms. cbn [serde.instance_of serde.items_conform andb].
  induction 1 as [|x xs [fs ->] _ IH]; [reflexivity|].
  cbn [forallb serde.instance_of serde.items_conform andb].
  rewrite String.eqb_refl. exact IH.
Qed.

Lemma authors_list_typed (authors : list Typed.AuthorAttribution) :
  Forall (fun x => exists fs, x = VInst "AuthorAttribution" fs)
         (map Typed.of_AuthorAttribution authors).
Proof.
  induction authors as [|a authors IH]; constructor; [|exact IH].
  eexists. reflexivity.
Qed.

Section Photos.
Context {CF : Casefy} {SD : Serde}.

Lemma authors_encoded (authors : list Typed.AuthorAttribution) :
  exists ws,
    mapM places.component_to_api_format (map Typed.of_AuthorAttribution authors)
    = Ok ws
    /\ mapM places.AuthorAttribution.from_api_format ws
       = Ok (map Typed.of_AuthorAttribution authors)
    /\ mapM places.AuthorAttribution.to_api_format
            (map Typed.of_AuthorAttribution authors) = Ok ws.
Proof.
  induction authors as [|a authors IH].
  - exists []. repeat split; reflexivity.
  - destruct IH as (ws & Hto & Hfrom & Hto').
    destruct (AuthorAttribution_domain a I) as (w & Hw & Hback).
    exists (w :: ws). cbn [map mapM].
    change (places.component_to_api_format (Typed.of_AuthorAttribution a))
      with (places.AuthorAttribution.to_api_format (Typed.of_AuthorAttribution a)).
    rewrite Hw, Hto, Hto', Hback, Hfrom. repeat split; reflexivity.
Qed.

Lemma authors_decoded (l : list value) :
  forallb Wire.author_attribution l = true ->
  exists xs ws,
    mapM places.AuthorAttribution.from_api_format l = Ok xs
    /\ mapM places.component_to_api_format xs = Ok ws
    /\ Forall2 (fun a b => Py.eq a b = true) ws l
    /\ Forall (fun x => exists fs, x = VInst "AuthorAttribution" fs) xs.
Proof.
  induction l as [|w l IH]; cbn [forallb].
  - intros _. exists [], [].
    split; [reflexivity | split; [reflexivity | split; constructor]].
  - rewrite andb_true_iff. intros [Hw Hl].
    destruct (IH Hl) as (xs & ws & Hfrom & Hto & Heq & Hxs).
    destruct (AuthorAttribution_wire w Hw) as (x & w' & Hx & Hx' & He).
    assert (Hcls : exists fs, x = VInst "AuthorAttribution" fs).
    { unfold places.AuthorAttribution.from_api_format in Hx.
      destruct (serde.dict_arg w) as [checked|e]; cbn [bind] in Hx;
        [|discriminate].
      destruct (Py.items w) as [items|e]; cbn [bind] in Hx; [|discriminate].
      apply init_instance in Hx. exact Hx. }
    destruct Hcls as [fs ->].
    exists (VInst "AuthorAttribution" fs :: xs), (w' :: ws).
    cbn [mapM]. rewrite Hx, Hfrom. cbn [bind].
    change (places.component_to_api_format (VInst "AuthorAttribution" fs))
      with (places.AuthorAttribution.to_api_format (VInst "AuthorAttribution" fs)).
    rewrite Hx', Hto. cbn [bind].
    split; [reflexivity | split; [reflexivity | split]].
    + constructor; assumption.
    + constructor; [eexists; reflexivity | exact Hxs].
Qed.

(** X18: a [Photo] round-trips.  Its encoding has the name under [name],
    the width under [widthPx], the height under [heightPx] and the encoded
    authors, in order, under [authorAttributions], and decodes to the photo
    again.  A wire photo with exactly these keys, a string for the name and
    integers for the sizes, whose authors have all their three keys (a
    string for the name, a string or null for the others), is decoded and
    encodes to an equal wire photo.  A wire photo without
    [authorAttributions] is not decoded: [KeyError]. *)
Theorem Photo_round_trips :
  (forall name height width authors,
      exists ws,
        mapM places.AuthorAttribution.to_api_format
             (map Typed.of_AuthorAttribution authors) = Ok ws
        /\ places.Photo.to_api_format (Typed.of_Photo name height width authors)
           = Ok (VDict [("name", VStr name); ("widthPx", VInt width);
                        ("heightPx", VInt height);
                        ("authorAttributions", VList ws)])
        /\ places.Photo.from_api_format
             (VDict [("name", VStr name); ("widthPx", VInt width);
                     ("heightPx", VInt height);
                     ("authorAttributions", VList ws)])
           = Ok (Typed.of_Photo name height width authors))
  /\ wire_round_trip Wire.photo places.Photo.from_api_format
                     places.Photo.to_api_format
  /\ (forall name width height,
        places.Photo.from_api_format
          (VDict [("name", name); ("widthPx", width); ("heightPx", height)])
        = Raise (KeyError (VStr "authorAttributions"))).
Proof.
  split; [| split].
  - intros name height width authors.
    destruct (authors_encoded authors) as (ws & Hto & Hfrom & Hto').
    exists ws. split; [exact Hto' | split].
    + unfold places.Photo.to_api_format, Typed.of_Photo.
      cbn [Py.getattr Py.dict_get String.eqb Ascii.eqb Bool.eqb bind Py.iter].
      rewrite Hto. reflexivity.
    + unfold places.Photo.from_api_format, places.Photo.new.
      cbn [Py.getitem Py.dict_get String.eqb Ascii.eqb Bool.eqb bind Py.iter].
      rewrite Hfrom. cbn [bind].
      rewrite (type_check_accepts TStr (VStr name) eq_refl).
      rewrite (type_check_accepts TInt (VInt height) eq_refl).
      rewrite (type_check_accepts TInt (VInt width) eq_refl).
      rewrite (type_check_accepts _ _
                 (authors_list_conforms _ (authors_list_typed authors))).
      reflexivity.
  - intros w Hw. unfold Wire.photo in Hw. apply andb_true_iff in Hw.
    destruct Hw as [Hw Hauthors]. apply andb_true_iff in Hw.
    destruct Hw as [Hrec Htyped].
    pose proof Hrec as Hd. apply record_dict in Hd. destruct Hd as [d ->].
    assert (Hkeys : forall k, In k ["name"; "widthPx"; "heightPx"; "authorAttributions"] ->
                Py.getitem (VDict d) k = Ok (Flat.lookup k d)
                /\ Py.dict_get k d = Some (Flat.lookup k d)
                /\ Py.json_value (Flat.lookup k d) = true)
      by (intros k Hk; apply (record_getitem _ _ _ Hrec Hk)).
    destruct (Hkeys "name") as (Gn & Dn & Jn); [cbn; tauto|].
    destruct (Hkeys "widthPx") as (Gw & Dw & Jw); [cbn; tauto|].
    destruct (Hkeys "heightPx") as (Gh & Dh & Jh); [cbn; tauto|].
    destruct (Hkeys "authorAttributions") as (Ga & Da & Ja); [cbn; tauto|].
    rewrite Ga in Hauthors. rewrite Gn, Gw, Gh in Htyped.
    apply andb_true_iff in Htyped. destruct Htyped as [Htyped Theight].
    apply andb_true_iff in Htyped. destruct Htyped as [Tname Twidth].
    destruct (Flat.lookup "authorAttributions" d) as [| | | | |l| | | | | | |] eqn:El;
      try discriminate.
    destruct (authors_decoded l Hauthors) as (xs & ws & Hfrom & Hto & Heq & Hxs).
    exists (VInst "Photo" [("name", Flat.lookup "name" d);
                           ("height", Flat.lookup "heightPx" d);
                           ("width", Flat.lookup "widthPx" d);
                           ("authot_attributions", VList xs)]).
    exists (VDict [("name", Flat.lookup "name" d);
                   ("widthPx", Flat.lookup "widthPx" d);
                   ("heightPx", Flat.lookup "heightPx" d);
                   ("authorAttributions", VList ws)]).
    split; [| split].
    + unfold places.Photo.from_api_format, places.Photo.new.
      rewrite Gn, Gw, Gh, Ga.
      cbn [bind Py.iter]. rewrite Hfrom. cbn [bind].
      rewrite (type_check_accepts _ _ Tname), (type_check_accepts _ _ Theight),
        (type_check_accepts _ _ Twidth),
        (type_check_accepts _ _ (authors_list_conforms _ Hxs)).
      reflexivity.
    + unfold places.Photo.to_api_format.
      cbn [Py.getattr Py.dict_get String.eqb Ascii.eqb Bool.eqb bind Py.iter].
      rewrite Hto. reflexivity.
    + rewrite eq_dict. unfold Wire.record in Hrec.
      apply andb_true_iff in Hrec. destruct Hrec as [_ Hh].
      apply has_keys_spec in Hh. destruct Hh as [Hlen _].
      rewrite Hlen. cbn [length Nat.eqb andb forallb fst snd].
      rewrite Dn, Dw, Dh, Da.
      rewrite (json_eq_refl _ Jn), (json_eq_refl _ Jw), (json_eq_refl _ Jh).
      rewrite (eq_lists _ _ Heq). reflexivity.
  - intros name width height. reflexivity.
Qed.

End Photos.

Lemma Photo_round_trips_witness :
  Wire.photo (VDict [("name", VStr "places/p/photos/q"); ("widthPx", VInt 400);
                     ("heightPx", VInt 300);
                     ("authorAttributions",
                      VList [VDict [("displayName", VStr "Ann"); ("uri", VNone);
                                    ("photoUri", VNone)]])]) = true
  /\ exists x w',
       @places.Photo.from_api_format other_strings_kept check_every_item
         (VDict [("name", VStr "places/p/photos/q"); ("widthPx", VInt 400);
                 ("heightPx", VInt 300);
                 ("authorAttributions",
                  VList [VDict [("displayName", VStr "Ann"); ("uri", VNone);
                                ("photoUri", VNone)]])]) = Ok x
       /\ @places.Photo.to_api_format other_strings_kept x = Ok w'
       /\ Py.eq w'
            (VDict [("name", VStr "places/p/photos/q"); ("widthPx", VInt 400);
                    ("heightPx", VInt 300);
                    ("authorAttributions",
                     VList [VDict [("displayName", VStr "Ann"); ("uri", VNone);
                                   ("photoUri", VNone)]])]) = true.
Proof.
  assert (Hw : Wire.photo
                 (VDict [("name", VStr "places/p/photos/q"); ("widthPx", VInt 400);
                         ("heightPx", VInt 300);
                         ("authorAttributions",
                          VList [VDict [("displayName", VStr "Ann"); ("uri", VNone);
                                        ("photoUri", VNone)]])]) = true)
    by (vm_compute; reflexivity).
  split; [exact Hw |].
  exact (proj1 (proj2 (@Photo_round_trips other_strings_kept check_every_item))
               _ Hw).
Defined.

Lemma dict_of_items_absent {A : Type} (f : string) (l : list (string * A)) :
  ~ In f (map fst l) -> Py.dict_get f (Py.dict_of_items l) = None.
Proof.
  unfold Py.dict_of_items.
  assert (Hgen : forall acc : list (string * A),
             ~ In f (map fst l) ->
             Py.dict_get f (fold_left (fun d kv => Py.dict_set (fst kv) (snd kv) d)
                                      l acc)
             = Py.dict_get f acc).
  { induction l as [|[k v] l IH]; intros acc Hf; cbn [fold_left fst snd];
      [reflexivity|].
    cbn [map fst In] in Hf. rewrite IH by tauto.
    apply dict_get_set_ne. intros ->. apply Hf. left. reflexivity. }
  intros Hf. apply (Hgen [] Hf).
Qed.

(** X19: [Review.from_api_format] decodes a wire review to the review with
    the same name, description and rating, with the two texts and the
    author decoded, and with the publication time that [dateutil] reads
    from [publishTime]; what [dateutil] raises on that string is raised.
    A wire review none of whose keys is [text] in snake case is not
    decoded: [KeyError], and so is one with a text and no [originalText];
    the key of the error is in snake case. *)
Theorem Review_from_api_format_decodes `{Casefy} `{Serde} `{DateUtil} :
  (forall r publish_time,
      dateutil_parse publish_time = Ok (Typed.rv_publish_time r) ->
      places.Review.from_api_format (Wire.review r publish_time)
      = Ok (Typed.of_Review r))
  /\ (forall r publish_time e,
        dateutil_parse publish_time = Raise e ->
        places.Review.from_api_format (Wire.review r publish_time) = Raise e)
  /\ (forall d,
        (forall k, In k (map fst d) -> casefy.snakecase k <> "text") ->
        places.Review.from_api_format (VDict d) = Raise (KeyError (VStr "text")))
  /\ (forall text language_code,
        places.Review.from_api_format
          (VDict [("text", VDict [("text", VStr text);
                                  ("languageCode", VStr language_code)])])
        = Raise (KeyError (VStr "original_text"))).
Proof.
  split; [| split; [| split]].
  - intros [n d rt [t l] [ot ol] [an au ap] pt] s Hs. cbn [Typed.rv_publish_time] in Hs.
    destruct au, ap; cbv -[type_check dateutil_parse]; accept_checks;
      cbv -[type_check dateutil_parse]; rewrite Hs; compute_checked; reflexivity.
  - intros [n d rt [t l] [ot ol] [an au ap] pt] s e Hs.
    destruct au, ap; cbv -[type_check dateutil_parse]; accept_checks;
      cbv -[type_check dateutil_parse]; rewrite Hs; reflexivity.
  - intros d Hd. unfold places.Review.from_api_format.
    cbn [Py.items bind Py.getitem]. unfold Py.rename_keys.
    rewrite dict_of_items_absent; [reflexivity|].
    rewrite map_map. cbn [fst]. intros Hin. apply in_map_iff in Hin.
    destruct Hin as ([k v] & Hk & Hin). cbn [fst] in Hk.
    apply (Hd k); [|exact Hk]. apply (in_map fst) in Hin. exact Hin.
  - intros text language_code. compute_checked. reflexivity.
Qed.

Lemma Review_from_api_format_decodes_witness :
  @dateutil_parse parse_new_year "2024-01-01T00:00:00Z"
  = Ok (mk_datetime 2024 1 1 0 0 0 0 (Some 0))
  /\ @places.Review.from_api_format other_strings_kept check_every_item
       parse_new_year
       (Wire.review
          {| Typed.rv_name := "places/p/reviews/r";
             Typed.rv_relative_publish_time_description := "a week ago";
             Typed.rv_rating := 5;
             Typed.rv_text := {| Typed.ls_text := "good";
                                 Typed.ls_language_code := "en" |};
             Typed.rv_original_text := {| Typed.ls_text := "good";
                                          Typed.ls_language_code := "en" |};
             Typed.rv_author_attribution :=
               {| Typed.aa_display_name := "Ann"; Typed.aa_uri := None;
                  Typed.aa_photo_uri := None |};
             Typed.rv_publish_time := mk_datetime 2024 1 1 0 0 0 0 (Some 0) |}
          "2024-01-01T00:00:00Z")
     = Ok (Typed.of_Review
             {| Typed.rv_name := "places/p/reviews/r";
                Typed.rv_relative_publish_time_description := "a week ago";
                Typed.rv_rating := 5;
                Typed.rv_text := {| Typed.ls_text := "good";
                                    Typed.ls_language_code := "en" |};
                Typed.rv_original_text := {| Typed.ls_text := "good";
                                             Typed.ls_language_code := "en" |};
                Typed.rv_author_attribution :=
                  {| Typed.aa_display_name := "Ann"; Typed.aa_uri := None;
                     Typed.aa_photo_uri := None |};
                Typed.rv_publish_time := mk_datetime 2024 1 1 0 0 0 0 (Some 0) |}).
Proof.
  assert (Hs : @dateutil_parse parse_new_year "2024-01-01T00:00:00Z"
               = Ok (mk_datetime 2024 1 1 0 0 0 0 (Some 0))) by reflexivity.
  split; [exact Hs |].
  exact (proj1 (@Review_from_api_format_decodes other_strings_kept check_every_item
                  parse_new_year)
               {| Typed.rv_name := "places/p/reviews/r";
                  Typed.rv_relative_publish_time_description := "a week ago";
                  Typed.rv_rating := 5;
                  Typed.rv_text := {| Typed.ls_text := "good";
                                      Typed.ls_language_code := "en" |};
                  Typed.rv_original_text := {| Typed.ls_text := "good";
                                               Typed.ls_language_code := "en" |};
                  Typed.rv_author_attribution :=
                    {| Typed.aa_display_name := "Ann"; Typed.aa_uri := None;
                       Typed.aa_photo_uri := None |};
                  Typed.rv_publish_time := mk_datetime 2024 1 1 0 0 0 0 (Some 0) |}
               "2024-01-01T00:00:00Z" Hs).
Defined.

(** ** The flat records: what they refuse *)

Lemma dict_set_keys {A : Type} (k : string) (v : A) (d : list (string * A))
      (f : string) :
  In f (map fst (Py.dict_set k v d)) <-> f = k \/ In f (map fst d).
Proof.
  induction d as [|[k1 v1] d IH]; cbn [Py.dict_set map fst In].
  - split; [intros [<- | []]; left; reflexivity | intros [-> | []]; left; reflexivity].
  - destruct (String.eqb_spec k k1) as [-> | Hne]; cbn [map fst In].
    + split; [tauto | intros [-> | H]; tauto].
    + rewrite IH. split; [intros [<- | [-> | H]]; tauto | intros [-> | [<- | H]]; tauto].
Qed.

Lemma dict_of_items_keys {A : Type} (l : list (string * A)) (f : string) :
  In f (map fst (Py.dict_of_items l)) <-> In f (map fst l).
Proof.
  unfold Py.dict_of_items.
  assert (Hgen : forall acc : list (string * A),
             In f (map fst (fold_left (fun d kv => Py.dict_set (fst kv) (snd kv) d)
                                      l acc))
             <-> In f (map fst acc) \/ In f (map fst l)).
  { induction l as [|[k v] l IH]; intros acc; cbn [fold_left map fst snd In].
    - tauto.
    - rewrite IH, dict_set_keys. split; [intros [[-> | H] | H]; tauto | intros [H | [<- | H]]; tauto]. }
  rewrite Hgen. cbn [map In]. tauto.
Qed.

Section Strict.
Context {CF : Casefy} {SD : Serde}.
Variable cls : string.
Variable fields : list dataclasses.field.

(** What the call of the class raises, when it raises. *)
Lemma init_raises (kwargs : list (string * value)) (e : exn) :
  dataclasses.init cls fields kwargs = Raise e ->
  e = if dataclasses.checked fields kwargs then TypeError else SerdeError.
Proof.
  unfold dataclasses.init.
  destruct (dataclasses.checked fields kwargs); [|intros [= <-]; reflexivity].
  destruct (forallb _ kwargs); [|intros [= <-]; reflexivity].
  assert (Hm : forall fs e',
             mapM (fun f : dataclasses.field =>
                     match Py.dict_get (dataclasses.f_name f) kwargs,
                           dataclasses.f_default f with
                     | Some v, _ => Ok (dataclasses.f_name f, v)
                     | None, Some dflt => Ok (dataclasses.f_name f, dflt)
                     | None, None => Raise TypeError
                     end) fs = Raise e' -> e' = TypeError).
  { induction fs as [|f fs IH]; intros e'; cbn [mapM]; [discriminate|].
    destruct (Py.dict_get (dataclasses.f_name f) kwargs); cbn [bind].
    - destruct (mapM _ fs) as [vals|e1] eqn:E; cbn [bind]; [discriminate|].
      intros [= <-]. apply IH. reflexivity.
    - destruct (dataclasses.f_default f); cbn [bind]; [|intros [= <-]; reflexivity].
      destruct (mapM _ fs) as [vals|e1] eqn:E; cbn [bind]; [discriminate|].
      intros [= <-]. apply IH. reflexivity. }
  destruct (mapM _ fields) as [vals|e1] eqn:E; cbn [bind]; [discriminate|].
  intros [= <-]. apply (Hm fields). exact E.
Qed.

Lemma init_missing (kwargs : list (string * value)) (f : dataclasses.field) :
  In f fields -> dataclasses.f_default f = None ->
  Py.dict_get (dataclasses.f_name f) kwargs = None ->
  dataclasses.init cls fields kwargs
  = Raise (if dataclasses.checked fields kwargs then TypeError else SerdeError).
Proof.
  intros Hf Hd Hget.
  destruct (dataclasses.init cls fields kwargs) as [x|e] eqn:E;
    [|f_equal; apply (init_raises _ _ E)].
  exfalso. unfold dataclasses.init in E.
  destruct (dataclasses.checked fields kwargs); [|discriminate].
  destruct (forallb _ kwargs); [|discriminate].
  destruct (mapM _ fields) as [vals|e1] eqn:Em; cbn [bind] in E; [|discriminate].
  clear E. revert vals Em. induction fields as [|g fs IH]; [destruct Hf|].
  intros vals. cbn [mapM]. destruct Hf as [-> | Hf].
  - rewrite Hget, Hd. discriminate.
  - destruct (match Py.dict_get (dataclasses.f_name g) kwargs with
              | Some v => Ok (dataclasses.f_name g, v)
              | None => match dataclasses.f_default g with
                        | Some dflt => Ok (dataclasses.f_name g, dflt)
                        | None => Raise TypeError
                        end
              end); cbn [bind]; [|discriminate].
    destruct (mapM _ fs) as [vals'|e1] eqn:E; cbn [bind]; [|discriminate].
    intros _. apply (IH Hf vals'). reflexivity.
Qed.

Lemma refused_by_init (d : list (string * value)) :
  dataclasses.init cls fields (Py.rename_keys casefy.snakecase d)
  = Raise (if dataclasses.checked fields (Py.rename_keys casefy.snakecase d)
           then TypeError else SerdeError) ->
  Flat.refused (Flat.from_api_format cls fields) fields d.
Proof.
  intros E. unfold Flat.refused, Flat.from_api_format. cbn [Py.items bind].
  rewrite E. split.
  - intros ->. reflexivity.
  - destruct (dataclasses.checked fields _); [left | right]; reflexivity.
Qed.

Lemma flat_strict : Flat.strict (Flat.from_api_format cls fields) fields.
Proof.
  split.
  - intros d k Hk Hno. apply refused_by_init. unfold dataclasses.init.
    replace (forallb (fun kv => Str.mem (fst kv) (dataclasses.field_names fields))
                     (Py.rename_keys casefy.snakecase d)) with false.
    { destruct (dataclasses.checked fields _); reflexivity. }
    symmetry. apply not_true_is_false. intros Hall.
    rewrite forallb_forall in Hall.
    assert (Hin : In (casefy.snakecase k)
                     (map fst (Py.rename_keys casefy.snakecase d))).
    { unfold Py.rename_keys. apply dict_of_items_keys. rewrite map_map.
      cbn [fst]. apply in_map_iff in Hk. destruct Hk as (kv & <- & Hkv).
      apply in_map_iff. exists kv. split; [reflexivity | exact Hkv]. }
    apply in_map_iff in Hin. destruct Hin as (kv & Hfst & Hkv).
    specialize (Hall kv Hkv). rewrite Hfst in Hall. apply mem_In in Hall.
    exact (Hno Hall).
  - intros d f Hf Hd Hnone. apply refused_by_init.
    apply (init_missing _ f Hf Hd). unfold Py.rename_keys.
    apply dict_of_items_absent. rewrite map_map. cbn [fst].
    intros Hin. apply in_map_iff in Hin. destruct Hin as ([k v] & Hk & Hin).
    cbn [fst] in Hk. apply (Hnone k); [|exact Hk].
    apply (in_map fst) in Hin. exact Hin.
Qed.

End Strict.

(** X20: the five flat records are decoded strictly.  A wire object with a
    key that is, in snake case, no field of the class is refused, and so is
    one that lacks the key of a field without default ([text],
    [languageCode], the four keys of an address component, the
    [displayName] of an author): the call of the class raises [TypeError],
    unless a value fails the check of its annotation, which raises
    [SerdeError] first.  It is so also inside a [Place], which ignores
    unknown keys only at its top level: a display name with its two
    strings and one more key raises [TypeError].  The fields of the
    parking and of the payment options all have a default: the empty
    object decodes to the record with [None] everywhere. *)
Theorem flat_records_strict `{Casefy} `{Serde} `{DateUtil} :
  Flat.strict places.LocalizedString.from_api_format places.LocalizedString.fields
  /\ Flat.strict places.AddressComponent.from_api_format
                 places.AddressComponent.fields
  /\ Flat.strict places.AuthorAttribution.from_api_format
                 places.AuthorAttribution.fields
  /\ Flat.strict places.ParkingOptions.from_api_format places.ParkingOptions.fields
  /\ Flat.strict places.PaymentOptions.from_api_format places.PaymentOptions.fields
  /\ (forall text language_code k v,
        ~ In (casefy.snakecase k) ["text"; "language_code"] ->
        places.Place.from_api_format
          (VDict [("displayName",
                   VDict [("text", VStr text); ("languageCode", VStr language_code);
                          (k, v)])])
        = Raise TypeError)
  /\ (forall d k,
        In k (map fst d) ->
        ~ In (casefy.snakecase k) ["text"; "language_code"] ->
        places.Place.from_api_format (VDict [("displayName", VDict d)])
        = Raise TypeError
        \/ places.Place.from_api_format (VDict [("displayName", VDict d)])
           = Raise SerdeError)
  /\ places.ParkingOptions.from_api_format (VDict [])
     = Ok (Typed.of_ParkingOptions
             {| Typed.po_free_garage_parking := None;
                Typed.po_free_parking_lot := None;
                Typed.po_free_street_parking := None;
                Typed.po_paid_garage_parking := None;
                Typed.po_paid_parking_lot := None;
                Typed.po_paid_street_parking := None;
                Typed.po_valet_parking := None |})
  /\ places.PaymentOptions.from_api_format (VDict [])
     = Ok (Typed.of_PaymentOptions
             {| Typed.pay_accepts_cash_only := None;
                Typed.pay_accepts_credit_cards := None;
                Typed.pay_accepts_debit_cards := None;
                Typed.pay_accepts_nfc := None |}).
Proof.
  assert (Hplace : forall d e,
             places.LocalizedString.from_api_format (VDict d) = Raise e ->
             places.Place.from_api_format (VDict [("displayName", VDict d)])
             = Raise e).
  { intros d e He.
    unfold places.Place.from_api_format. cbv zeta. cbn [Py.items bind foldM].
    unfold places.Place.item_body. cbn [fst snd].
    unfold places._from_api_format.
    change (casefy.snakecase "displayName") with "display_name".
    cbn [String.eqb Ascii.eqb Bool.eqb].
    rewrite He. reflexivity. }
  split; [apply (flat_strict "LocalizedString") |].
  split; [apply (flat_strict "AddressComponent") |].
  split; [apply (flat_strict "AuthorAttribution") |].
  split; [apply (flat_strict "ParkingOptions") |].
  split; [apply (flat_strict "PaymentOptions") |].
  split; [| split; [| split; compute_checked; reflexivity]].
  - intros text language_code k v Hno. apply Hplace.
    assert (Hk : In k (map fst [("text", VStr text);
                                ("languageCode", VStr language_code); (k, v)]))
      by (cbn; tauto).
    apply (proj1 (flat_strict "LocalizedString" places.LocalizedString.fields)
                 _ k Hk Hno).
    unfold Py.rename_keys. cbn [map fst snd].
    change (casefy.snakecase "text") with "text".
    change (casefy.snakecase "languageCode") with "language_code".
    set (name := casefy.snakecase k) in *.
    assert (Htext : name <> "text") by (intros E; apply Hno; left; congruence).
    assert (Hcode : name <> "language_code")
      by (intros E; apply Hno; right; left; congruence).
    rewrite dict_of_items_distinct.
    + assert (Hfind : find (fun f => String.eqb (dataclasses.f_name f) name)
                           places.LocalizedString.fields = None).
      { unfold places.LocalizedString.fields. cbn [find dataclasses.f_name].
        destruct (String.eqb_spec "text" name) as [E | _]; [congruence|].
        destruct (String.eqb_spec "language_code" name) as [E | _];
          [congruence | reflexivity]. }
      clearbody name. unfold dataclasses.checked. cbn [forallb fst snd].
      rewrite Hfind. compute_checked. reflexivity.
    + cbn [map fst]. constructor; [| constructor; [| constructor; [| constructor]]];
        cbn [In].
      * intros [E | [E | []]]; [discriminate | congruence].
      * intros [E | []]. congruence.
      * intros [].
  - intros d k Hk Hno.
    destruct (proj2 (proj1 (flat_strict "LocalizedString"
                                        places.LocalizedString.fields)
                           d k Hk Hno)) as [E | E];
      [left | right]; apply Hplace; exact E.
Qed.

Lemma flat_records_strict_witness :
  ~ In (@casefy.snakecase other_strings_kept "extra") ["text"; "language_code"]
  /\ @places.Place.from_api_format other_strings_kept check_every_item parse_nothing
       (VDict [("displayName",
                VDict [("text", VStr "a"); ("languageCode", VStr "en");
                       ("extra", VInt 1)])])
     = Raise TypeError.
Proof.
  assert (Hno : ~ In (@casefy.snakecase other_strings_kept "extra")
                     ["text"; "language_code"])
    by (apply mem_false; vm_compute; reflexivity).
  split; [exact Hno |].
  exact (proj1 (proj2 (proj2 (proj2 (proj2 (proj2
           (@flat_records_strict other_strings_kept check_every_item
                                 parse_nothing))))))
         "a" "en" "extra" (VInt 1) Hno).
Defined.

(** ** The rendering of an APIError *)

(** X21: an [APIError] is rendered as [APIError: ] followed by its message
    when the message is a non-empty string, and as
    [APIError: Unknown error] when the message is [None], the empty string
    or another value that counts as false; neither the status code nor the
    status nor the details are part of the rendering.  The message is read
    at the top level of the response body only: a body that holds its
    message inside an [error] object gives an error without message. *)
Theorem APIError_str_message `{StrBuiltin} :
  (forall code d msg,
      Py.dict_get "message" d = Some (VStr msg) -> msg <> "" ->
      exists e,
        _exceptions.APIError.from_api_response code (VDict d) = Ok e
        /\ _exceptions.APIError.__str__ e = ("APIError: " ++ msg)%string)
  /\ (forall e,
        Py.truthy (message e) = false ->
        _exceptions.APIError.__str__ e = "APIError: Unknown error")
  /\ (forall e e',
        message e = message e' ->
        _exceptions.APIError.__str__ e = _exceptions.APIError.__str__ e')
  /\ (forall code inner,
        exists e,
          _exceptions.APIError.from_api_response code (VDict [("error", inner)])
          = Ok e
          /\ message e = VNone
          /\ _exceptions.APIError.__str__ e = "APIError: Unknown error").
Proof.
  split; [| split; [| split]].
  - intros code d msg Hd Hne. rewrite from_api_response_dict.
    eexists. split; [reflexivity|].
    unfold _exceptions.APIError.__str__, Flat.lookup. cbn [message].
    rewrite Hd. cbn [Py.truthy].
    destruct (String.eqb_spec msg "") as [-> | _]; [congruence | reflexivity].
  - intros e He. unfold _exceptions.APIError.__str__. rewrite He. reflexivity.
  - intros e e' He. unfold _exceptions.APIError.__str__. rewrite He. reflexivity.
  - intros code inner. eexists. split; [reflexivity | split; reflexivity].
Qed.

Lemma APIError_str_message_witness :
  Py.dict_get "message" [("message", VStr "API key not valid.")]
  = Some (VStr "API key not valid.")
  /\ "API key not valid." <> ""
  /\ exists e,
       _exceptions.APIError.from_api_response 400
         (VDict [("message", VStr "API key not valid.")]) = Ok e
       /\ @_exceptions.APIError.__str__ {| py_str := fun _ => "" |} e
          = ("APIError: " ++ "API key not valid.")%string.
Proof.
  assert (Hd : Py.dict_get "message" [("message", VStr "API key not valid.")]
               = Some (VStr "API key not valid.")) by reflexivity.
  assert (Hne : "API key not valid." <> "") by discriminate.
  split; [exact Hd | split; [exact Hne |]].
  exact (proj1 (@APIError_str_message {| py_str := fun _ => "" |})
               400 _ "API key not valid." Hd Hne).
Defined.

(** ** The client: the fields are checked before anything is sent *)

Lemma range_in (x : Z) :
  1 <= x <= 20 -> negb ((0 <? x) && (x <=? 20)) = false.
Proof.
  intros Hx. apply negb_false_iff, andb_true_iff.
  split; [apply Z.ltb_lt | apply Z.leb_le]; lia.
Qed.

Lemma not_FREE (l : list PriceLevel_t) :
  ~ In FREE l -> existsb (Py.PriceLevel_eqb FREE) l = false.
Proof.
  intros Hl. apply not_true_is_false. intros He. apply Hl.
  apply existsb_exists in He. destruct He as (p & Hp & Heq).
  destruct p; try discriminate. exact Hp.
Qed.

Section FieldErrors.
Context {CF : Casefy} {SD : Serde} `{SetOrder} `{DateUtil}.
Variable self : _client.Client.t.

(** X22: when the other arguments pass their checks, what
    [create_field_mask] raises on the fields is what the three methods that
    take fields raise, and no request is sent: for the text search this
    comes before the areas are looked at.  So with no field at all each of
    them raises the [ValueError] that asks for at least one field. *)
Theorem field_errors_before_request :
  (forall area fields it et ipt ept language_code max_num_results rank_by e,
      1 <= max_num_results <= 20 ->
      places.create_field_mask fields true = Raise e ->
      _client.Client.search_nearby_places self area fields it et ipt ept
        language_code max_num_results rank_by
      = _client.Done (Raise e))
  /\ (forall query fields included_type language_code bias_area restrict_area
             page_size next_page_token min_rating open_now price_levels rank_by e,
        query <> "" ->
        bias_area = None \/ restrict_area = None ->
        1 <= page_size <= 20 ->
        (forall r, min_rating = Some r -> (0 <= r /\ r <= 5)%Q) ->
        (forall l, price_levels = Some l -> ~ In FREE l) ->
        places.create_field_mask fields true = Raise e ->
        _client.Client.search_places_by_text self query fields included_type
          language_code bias_area restrict_area page_size next_page_token
          min_rating open_now price_levels rank_by
        = _client.Done (Raise e))
  /\ (forall place_id fields language_code e,
        place_id <> "" ->
        places.create_field_mask fields false = Raise e ->
        _client.Client.get_place_details self place_id fields language_code
        = _client.Done (Raise e))
  /\ (forall area it et ipt ept language_code max_num_results rank_by,
        1 <= max_num_results <= 20 ->
        _client.Client.search_nearby_places self area [] it et ipt ept
          language_code max_num_results rank_by
        = _client.Done (Raise (ValueError "At least one field must be provided.")))
  /\ (forall place_id language_code,
        place_id <> "" ->
        _client.Client.get_place_details self place_id [] language_code
        = _client.Done (Raise (ValueError "At least one field must be provided."))).
Proof.
  assert (Hnone : forall p, places.create_field_mask [] p
                            = Raise (ValueError "At least one field must be provided.")).
  { intros p. rewrite create_field_mask_cases. cbn [places.dedup].
    rewrite set_iter_nil. reflexivity. }
  assert (Hnearby : forall area fields it et ipt ept language_code n rank_by e,
             1 <= n <= 20 ->
             places.create_field_mask fields true = Raise e ->
             _client.Client.search_nearby_places self area fields it et ipt ept
               language_code n rank_by
             = _client.Done (Raise e)).
  { intros area fields it et ipt ept language_code n rank_by e Hn He.
    unfold _client.Client.search_nearby_places.
    rewrite (range_in n Hn). cbn [_client.raise_if bind]. cbv zeta.
    rewrite He. reflexivity. }
  assert (Hdetails : forall place_id fields language_code e,
             place_id <> "" ->
             places.create_field_mask fields false = Raise e ->
             _client.Client.get_place_details self place_id fields language_code
             = _client.Done (Raise e)).
  { intros place_id fields language_code e Hid He.
    unfold _client.Client.get_place_details.
    destruct place_id as [|c s]; [congruence|].
    cbn [String.length Nat.eqb _client.raise_if bind]. cbv zeta.
    rewrite He. reflexivity. }
  split; [exact Hnearby | split; [| split; [exact Hdetails | split]]].
  - intros query fields included_type language_code bias_area restrict_area
           page_size next_page_token min_rating open_now price_levels rank_by e
           Hq Hareas Hps Hr Hfree He.
    unfold _client.Client.search_places_by_text.
    destruct query as [|c s]; [congruence|].
    cbn [String.length Nat.eqb _client.raise_if bind].
    replace (_client.is_some bias_area && _client.is_some restrict_area)
      with false.
    2:{ destruct Hareas as [-> | ->]; [reflexivity|].
        destruct bias_area; reflexivity. }
    cbn [_client.raise_if bind]. rewrite (range_in page_size Hps).
    cbn [_client.raise_if bind].
    replace (match min_rating with
             | Some r => negb (Qle_bool 0 r && Qle_bool r 5)
             | None => false
             end) with false.
    2:{ destruct min_rating as [r|]; [|reflexivity].
        rewrite (rating_range_true r (Hr r eq_refl)). reflexivity. }
    cbn [_client.raise_if bind].
    replace (existsb (Py.PriceLevel_eqb FREE)
                     match price_levels with Some l => l | None => [] end)
      with false.
    2:{ destruct price_levels as [l|]; [|reflexivity].
        symmetry. apply not_FREE, (Hfree l eq_refl). }
    cbn [_client.raise_if bind]. cbv zeta. rewrite He. reflexivity.
  - intros area it et ipt ept language_code n rank_by Hn.
    apply Hnearby; [exact Hn | apply Hnone].
  - intros place_id language_code Hid. apply Hdetails; [exact Hid | apply Hnone].
Qed.

End FieldErrors.

Lemma field_errors_before_request_witness :
  "ChIJ" <> ""
  /\ @_client.Client.get_place_details other_strings_kept check_every_item insertion_order parse_nothing
       (_client.Client.mk_Client "AIzaKey") "ChIJ" [] "en"
     = _client.Done (Raise (ValueError "At least one field must be provided.")).
Proof.
  assert (Hid : "ChIJ" <> "") by discriminate.
  split; [exact Hid |].
  exact (proj2 (proj2 (proj2 (proj2
           (@field_errors_before_request other_strings_kept check_every_item insertion_order parse_nothing
              (_client.Client.mk_Client "AIzaKey")))))
         "ChIJ" "en" Hid).
Defined.
